(** * The .mdc rule-document validator of cursor_rules

    A shallow embedding of [validate_mdc_file] (src/validate_mdc.py) and of
    the Python string operations it is built from, followed by the
    properties of the validator that the specification states.

    Python strings are sequences of Unicode code points; they are modelled
    as lists of code points so that slicing ([s[:50]]), [strip] and
    [splitlines] count and classify characters the way Python does. *)

From Stdlib Require Import String Ascii DecimalString.
From Stdlib Require Import List NArith ZArith Bool Arith Lia.
Import ListNotations.
Open Scope string_scope.
Open Scope nat_scope.
Open Scope list_scope.

Set Implicit Arguments.

(** ** Python strings *)

Module PyStr.

(** A character is a code point. *)
Definition char := N.
Definition str := list char.

(** ASCII literals. *)
Definition lit (s : string) : str :=
  map N_of_ascii (list_ascii_of_string s).
Arguments lit s%_string.

Definition LF : char := 10%N.
Definition CR : char := 13%N.

Fixpoint eqb (a b : str) : bool :=
  match a, b with
  | [], [] => true
  | x :: a', y :: b' => N.eqb x y && eqb a' b'
  | _, _ => false
  end.

Definition is_empty (s : str) : bool :=
  match s with [] => true | _ :: _ => false end.

(** [s.startswith(p)] *)
Fixpoint startswith (p s : str) : bool :=
  match p, s with
  | [], _ => true
  | x :: p', y :: s' => N.eqb x y && startswith p' s'
  | _ :: _, [] => false
  end.

(** [Py_UNICODE_ISSPACE]: the characters that [str.strip()] removes. *)
Definition isspace (c : char) : bool :=
  ((9 <=? c) && (c <=? 13) || (28 <=? c) && (c <=? 32)
   || (c =? 133) || (c =? 160) || (c =? 5760)
   || (8192 <=? c) && (c <=? 8202)
   || (c =? 8232) || (c =? 8233) || (c =? 8239) || (c =? 8287)
   || (c =? 12288))%N.

(** [Py_UNICODE_ISLINEBREAK]: the line boundaries of [str.splitlines()]. *)
Definition islinebreak (c : char) : bool :=
  ((10 <=? c) && (c <=? 13) || (28 <=? c) && (c <=? 30)
   || (c =? 133) || (c =? 8232) || (c =? 8233))%N.

Fixpoint lstrip (s : str) : str :=
  match s with
  | [] => []
  | c :: s' => if isspace c then lstrip s' else s
  end.

Definition rstrip (s : str) : str := rev (lstrip (rev s)).

(** [s.strip()] *)
Definition strip (s : str) : str := rstrip (lstrip s).

(** [s.splitlines(keepends=True)].  [cur] holds the characters of the line
    being read, last one first.  A carriage return directly followed by a
    line feed is one boundary. *)
Fixpoint splitlines_from (cur : str) (s : str) : list str :=
  match s with
  | [] => match cur with [] => [] | _ :: _ => [rev cur] end
  | c :: rest =>
      if N.eqb c CR then
        match rest with
        | c' :: rest' =>
            if N.eqb c' LF
            then rev (c' :: c :: cur) :: splitlines_from [] rest'
            else rev (c :: cur) :: splitlines_from [] rest
        | [] => rev (c :: cur) :: splitlines_from [] rest
        end
      else if islinebreak c then rev (c :: cur) :: splitlines_from [] rest
      else splitlines_from (c :: cur) rest
  end.

Definition splitlines (s : str) : list str := splitlines_from [] s.

(** The leftmost occurrence of [sep] in [s]: the text before it and the
    text after it. *)
Fixpoint find (sep s : str) : option (str * str) :=
  if startswith sep s then Some ([], skipn (length sep) s)
  else match s with
       | [] => None
       | c :: s' =>
           match find sep s' with
           | Some (before, after) => Some (c :: before, after)
           | None => None
           end
       end.

(** [s.split(sep, maxsplit)] for a non-empty [sep]. *)
Fixpoint split (sep : str) (maxsplit : nat) (s : str) : list str :=
  match maxsplit with
  | O => [s]
  | S k =>
      match find sep s with
      | Some (before, after) => before :: split sep k after
      | None => [s]
      end
  end.

(** [str(n)] for a non-negative integer. *)
Definition of_nat (n : nat) : str :=
  lit (NilZero.string_of_uint (Nat.to_uint n)).

(** *** [repr] of a string *)

Definition QUOTE : char := 39%N.
Definition DQUOTE : char := 34%N.
Definition BACKSLASH : char := 92%N.

Definition hexdigit (d : N) : char :=
  (if d <? 10 then 48 + d else 87 + d)%N.

(** The [w] low hexadecimal digits of [n], most significant first. *)
Fixpoint hex (w : nat) (n : N) : str :=
  match w with
  | O => []
  | S w' => hex w' (n / 16)%N ++ [hexdigit (n mod 16)%N]
  end.

Definition mem (c : char) (s : str) : bool := existsb (N.eqb c) s.

Section Repr.

(** [Py_UNICODE_ISPRINTABLE], a table of the Unicode database; [repr]
    consults it for the characters above U+007F only. *)
Variable isprintable : char -> bool.

Definition repr_quote (s : str) : char :=
  if mem QUOTE s && negb (mem DQUOTE s) then DQUOTE else QUOTE.

Definition repr_char (quote : char) (c : char) : str :=
  (if (c =? quote) || (c =? BACKSLASH) then [BACKSLASH; c]
   else if c =? 9 then lit "\t"
   else if c =? 10 then lit "\n"
   else if c =? 13 then lit "\r"
   else if (c <? 32) || (c =? 127) then lit "\x" ++ hex 2 c
   else if c <? 127 then [c]
   else if isprintable c then [c]
   else if c <=? 255 then lit "\x" ++ hex 2 c
   else if c <=? 65535 then lit "\u" ++ hex 4 c
   else lit "\U" ++ hex 8 c)%N.

Definition repr (s : str) : str :=
  let quote := repr_quote s in
  [quote] ++ flat_map (repr_char quote) s ++ [quote].

End Repr.

End PyStr.

Import PyStr.

(** ** Values decoded from the frontmatter *)

(** The Python values [yaml.safe_load] builds.  A [dict] is the sequence of
    its items in insertion order; its keys are pairwise distinct.
    [POther] stands for a value of one of the remaining types ([float],
    [bytes], [date], [datetime], [set]), which the validator tells apart
    from none of [dict], [str], [list] and [bool]. *)
#[warnings="-register-all"]
Inductive pyval : Type :=
| PNone
| PBool (b : bool)
| PInt (z : Z)
| PStr (s : str)
| PList (elements : list pyval)
| PDict (items : list (pyval * pyval))
| POther (type_name : str).

Definition dict := list (pyval * pyval).

(** [isinstance(v, str)], [isinstance(v, list)], [isinstance(v, bool)] *)
Definition isinstance_str (v : pyval) : bool :=
  match v with PStr _ => true | _ => false end.
Definition isinstance_list (v : pyval) : bool :=
  match v with PList _ => true | _ => false end.
Definition isinstance_bool (v : pyval) : bool :=
  match v with PBool _ => true | _ => false end.

(** A string key equals a key of the dict only when that key is the same
    string. *)
Definition key_eqb (name : str) (k : pyval) : bool :=
  match k with PStr s => eqb s name | _ => false end.

(** [d[name]] when [name in d], for a string [name]. *)
Fixpoint dict_get (d : dict) (name : str) : option pyval :=
  match d with
  | [] => None
  | (k, v) :: d' => if key_eqb name k then Some v else dict_get d' name
  end.

(** What a call of [yaml.safe_load] does: it returns a value, raises a
    [yaml.YAMLError], or raises another exception (PyYAML lets a
    [ValueError] escape from an impossible date, for one).  An exception is
    carried by its message. *)
Inductive load_result : Type :=
| Loaded (frontmatter_data : pyval)
| RaisedYAMLError (e : str)
| RaisedOther (e : str).

(** What reading the file does: [open] and [f.read()] in text mode return
    the decoded text, in which a carriage return with or without its line
    feed has become a line feed, or raise. *)
Inductive read_result : Type :=
| ReadOk (content : str)
| ReadRaised (e : str).

(** What a call of the validator does: it returns [(is_valid, errors)] or
    lets an exception escape. *)
Inductive outcome : Type :=
| Return (result : bool * list str)
| Raise (e : str).

(** ** The validator (src/validate_mdc.py, lines 22-121) *)

Definition DELIM : str := lit "---".

Definition E_NO_START : str := lit "File does not start with '---'".
Definition E_MISSING_CLOSING : str := lit "Missing closing '---' delimiter".
Definition E_NOT_DICT : str := lit "Frontmatter is not a dictionary".
Definition E_YAML (e : str) : str := lit "YAML syntax error in frontmatter: " ++ e.
Definition E_READ (e : str) : str := lit "Error reading file: " ++ e.
Definition E_DESC_MISSING : str := lit "Missing required field: 'description'".
Definition E_DESC_TYPE : str := lit "Field 'description' must be a string".
Definition E_DESC_EMPTY : str := lit "Field 'description' cannot be empty".
Definition E_GLOBS_MISSING : str := lit "Missing required field: 'globs'".
Definition E_GLOBS_TYPE : str := lit "Field 'globs' must be a list/array".
Definition E_ALWAYS_MISSING : str := lit "Missing required field: 'alwaysApply'".
Definition E_ALWAYS_TYPE : str := lit "Field 'alwaysApply' must be a boolean".
Definition E_NO_CLOSING_LINE : str := lit "Could not find closing '---' in file".
Definition E_NO_CONTENT : str := lit "No content after frontmatter".
Definition E_NO_CONTENT_AFTER_BLANK : str := lit "No content after blank line".

(** The loop of lines 90-93: the index of the first line, the very first
    one apart, that is [---] once stripped.  [i] is the index of the head
    of [lines]. *)
Fixpoint closing_dash_from (i : nat) (lines : list str) : option nat :=
  match lines with
  | [] => None
  | line :: rest =>
      if (0 <? i) && eqb (strip line) DELIM then Some i
      else closing_dash_from (S i) rest
  end.

Definition closing_dash_idx (lines : list str) : option nat :=
  closing_dash_from 0 lines.

Section Validator.

(** [yaml.safe_load] and the Unicode table behind [repr] are not code of
    the repository: the validator is modelled over any decoder and any
    table. *)
Variable safe_load : str -> load_result.
Variable isprintable : char -> bool.

Definition E_NOT_BLANK (line_number : nat) : str :=
  lit "Missing blank line after frontmatter " ++
  lit "(line " ++ of_nat line_number ++ lit " is not blank)".

Definition E_NOT_HEADING (line_number : nat) (excerpt : str) : str :=
  lit "Content does not start with heading '#' " ++
  lit "(line " ++ of_nat line_number ++ lit " starts with: " ++
  repr isprintable excerpt ++ lit ")".

(** Each check takes the list [errors] as it stands and returns it with
    what the check appended. *)

(** Lines 70-75. *)
Definition check_description (frontmatter_data : dict) (errors : list str)
  : list str :=
  match dict_get frontmatter_data (lit "description") with
  | None => errors ++ [E_DESC_MISSING]
  | Some (PStr description) =>
      if is_empty (strip description) then errors ++ [E_DESC_EMPTY]
      else errors
  | Some _ => errors ++ [E_DESC_TYPE]
  end.

(** Lines 77-80. *)
Definition check_globs (frontmatter_data : dict) (errors : list str)
  : list str :=
  match dict_get frontmatter_data (lit "globs") with
  | None => errors ++ [E_GLOBS_MISSING]
  | Some globs =>
      if negb (isinstance_list globs) then errors ++ [E_GLOBS_TYPE]
      else errors
  end.

(** Lines 82-85. *)
Definition check_alwaysApply (frontmatter_data : dict) (errors : list str)
  : list str :=
  match dict_get frontmatter_data (lit "alwaysApply") with
  | None => errors ++ [E_ALWAYS_MISSING]
  | Some alwaysApply =>
      if negb (isinstance_bool alwaysApply) then errors ++ [E_ALWAYS_TYPE]
      else errors
  end.

(** Lines 102-107. *)
Definition check_blank_line (lines : list str) (closing_dash_idx : nat)
  (errors : list str) : list str :=
  let next_line := nth (closing_dash_idx + 1) lines [] in
  if negb (eqb (strip next_line) []) then
    errors ++ [E_NOT_BLANK (closing_dash_idx + 2)]
  else errors.

(** Lines 110-119. *)
Definition check_heading (lines : list str) (closing_dash_idx : nat)
  (errors : list str) : list str :=
  if length lines <=? closing_dash_idx + 2 then
    errors ++ [E_NO_CONTENT_AFTER_BLANK]
  else
    let first_content_line := nth (closing_dash_idx + 2) lines [] in
    if negb (startswith (lit "#") (strip first_content_line)) then
      errors ++ [E_NOT_HEADING (closing_dash_idx + 3)
                               (firstn 50 first_content_line)]
    else errors.

(** Lines 89-119. *)
Definition check_formatting (lines : list str) (errors : list str)
  : list str :=
  match closing_dash_idx lines with
  | None => errors ++ [E_NO_CLOSING_LINE]
  | Some closing_dash_idx =>
      if length lines <=? closing_dash_idx + 1 then
        errors ++ [E_NO_CONTENT]
      else
        let errors := check_blank_line lines closing_dash_idx errors in
        check_heading lines closing_dash_idx errors
  end.

(** Lines 46-121: the validator on the text that was read. *)
Definition validate_mdc_text (content : str) : outcome :=
  let lines := splitlines content in
  let errors : list str := [] in
  if negb (startswith DELIM content) then
    Return (false, errors ++ [E_NO_START])
  else
    let parts := split DELIM 2 content in
    if length parts <? 3 then
      Return (false, errors ++ [E_MISSING_CLOSING])
    else
      let frontmatter_text := nth 1 parts [] in
      match safe_load frontmatter_text with
      | RaisedYAMLError e => Return (false, errors ++ [E_YAML e])
      | RaisedOther e => Raise e
      | Loaded (PDict frontmatter_data) =>
          let errors := check_description frontmatter_data errors in
          let errors := check_globs frontmatter_data errors in
          let errors := check_alwaysApply frontmatter_data errors in
          let errors := check_formatting lines errors in
          Return (length errors =? 0, errors)
      | Loaded _ => Return (false, errors ++ [E_NOT_DICT])
      end.

(** Lines 36-121. *)
Definition validate_mdc_file (file : read_result) : outcome :=
  match file with
  | ReadRaised e => Return (false, [E_READ e])
  | ReadOk content => validate_mdc_text content
  end.

End Validator.

(** ** A decoder for a fragment of YAML, and the table of [repr]

    The theorems below hold for every decoder.  To run the validator on a
    concrete document a decoder is needed: [MiniYaml.safe_load] follows
    PyYAML's [safe_load] on these texts:
    - a text that holds a character the reader of PyYAML does not accept
      raises the [ReaderError] of PyYAML, a [YAMLError];
    - a text made of spaces and line breaks decodes to [None];
    - an unindented block mapping, one [key: value] per line, whose values
      are plain or quoted scalars or flow sequences of them, decodes to a
      [dict], with PyYAML's resolution of plain scalars to booleans, nulls
      and decimal integers;
    - a line of at most 36 characters whose first character other than a
      space is a tab, after lines of such a mapping, raises the
      [ScannerError] of PyYAML, a [YAMLError].
    Every other text is outside the fragment: the decoder then raises a
    [NotImplementedError], which PyYAML does not, and nothing is concluded
    from the validator's answer on such a text. *)

Module MiniYaml.

Definition SPACE : char := 32%N.
Definition TAB : char := 9%N.
Definition HYPHEN : char := 45%N.
Definition COLON : char := 58%N.
Definition COMMA : char := 44%N.
Definition LBRACKET : char := 91%N.
Definition RBRACKET : char := 93%N.
Definition UNDERSCORE : char := 95%N.

(** The characters the reader accepts ([Reader.NON_PRINTABLE] is the
    complement). *)
Definition acceptable (c : char) : bool :=
  ((c =? 9) || (c =? 10) || (c =? 13) || (32 <=? c) && (c <=? 126)
   || (c =? 133) || (160 <=? c) && (c <=? 55295)
   || (57344 <=? c) && (c <=? 65533)
   || (65536 <=? c) && (c <=? 1114111))%N.

(** The first character that is not accepted, with its position. *)
Fixpoint first_unacceptable (position : nat) (text : str)
  : option (nat * char) :=
  match text with
  | [] => None
  | c :: rest =>
      if acceptable c then first_unacceptable (S position) rest
      else Some (position, c)
  end.

(** [str(e)] for the [ReaderError] of a character that is not accepted. *)
Definition reader_error (position : nat) (c : char) : str :=
  lit "unacceptable character #x" ++ hex 4 c
  ++ lit ": special characters are not allowed" ++ [LF]
  ++ lit "  in " ++ [DQUOTE] ++ lit "<unicode string>" ++ [DQUOTE]
  ++ lit ", position " ++ of_nat position.

(** The line breaks of YAML. *)
Definition is_break (c : char) : bool :=
  ((c =? 10) || (c =? 13) || (c =? 133) || (c =? 8232) || (c =? 8233))%N.

(** The lines of a text, without their breaks; a carriage return directly
    followed by a line feed is one break.  [cur] holds the characters of
    the line being read, last one first, and [after_cr] tells that the
    character read last is a carriage return. *)
Fixpoint break_lines (after_cr : bool) (cur : str) (text : str) : list str :=
  match text with
  | [] => [rev cur]
  | c :: rest =>
      if N.eqb c LF && after_cr then break_lines false cur rest
      else if is_break c then rev cur :: break_lines (N.eqb c CR) [] rest
      else break_lines false (c :: cur) rest
  end.

Fixpoint skip_spaces (s : str) : str :=
  match s with
  | c :: s' => if N.eqb c SPACE then skip_spaces s' else s
  | [] => []
  end.

Definition trim (s : str) : str := rev (skip_spaces (rev (skip_spaces s))).

Definition is_digit (c : char) : bool := ((48 <=? c) && (c <=? 57))%N.
Definition is_letter (c : char) : bool :=
  ((65 <=? c) && (c <=? 90) || (97 <=? c) && (c <=? 122))%N.
Definition is_word_char (c : char) : bool :=
  is_letter c || is_digit c || N.eqb c UNDERSCORE.

Definition one_of (words : list string) (s : str) : bool :=
  existsb (fun w => eqb s (lit w)) words.

Definition TRUE_WORDS : list string :=
  ["yes"; "Yes"; "YES"; "true"; "True"; "TRUE"; "on"; "On"; "ON"].
Definition FALSE_WORDS : list string :=
  ["no"; "No"; "NO"; "false"; "False"; "FALSE"; "off"; "Off"; "OFF"].
Definition NULL_WORDS : list string :=
  ["~"; "null"; "Null"; "NULL"].

Fixpoint decimal (acc : Z) (digits : str) : Z :=
  match digits with
  | [] => acc
  | c :: rest => decimal (10 * acc + Z.of_N (c - 48)) rest
  end.

(** The characters that stand for themselves between double quotes and
    between single quotes, as far as ASCII goes. *)
Definition is_printable_ascii (c : char) : bool :=
  ((32 <=? c) && (c <=? 126))%N.
Definition in_double_quotes (c : char) : bool :=
  is_printable_ascii c && negb (N.eqb c DQUOTE) && negb (N.eqb c BACKSLASH).
Definition in_single_quotes (c : char) : bool :=
  is_printable_ascii c && negb (N.eqb c QUOTE).

(** The characters a plain scalar goes on with, in a block mapping and in
    a flow sequence alike. *)
Definition in_plain (c : char) : bool :=
  is_word_char c || N.eqb c SPACE || N.eqb c HYPHEN || N.eqb c 46
  || N.eqb c 47 || N.eqb c 42.

(** A scalar, already trimmed; [None] outside the fragment.  A plain
    scalar that starts with a letter and goes on with letters, digits,
    underscores, hyphens, dots, slashes, stars and spaces is a string
    unless it is one of the words for a boolean or for null. *)
Definition scalar (s : str) : option pyval :=
  match s with
  | [] => Some PNone
  | c :: rest =>
      if N.eqb c DQUOTE then
        match rev rest with
        | q :: inner =>
            if N.eqb q DQUOTE && forallb in_double_quotes inner
            then Some (PStr (rev inner)) else None
        | [] => None
        end
      else if N.eqb c QUOTE then
        match rev rest with
        | q :: inner =>
            if N.eqb q QUOTE && forallb in_single_quotes inner
            then Some (PStr (rev inner)) else None
        | [] => None
        end
      else if one_of TRUE_WORDS s then Some (PBool true)
      else if one_of FALSE_WORDS s then Some (PBool false)
      else if one_of NULL_WORDS s then Some PNone
      else if forallb is_digit s then
        if N.eqb c 48 && negb (is_empty rest) then None
        else Some (PInt (decimal 0 s))
      else if is_letter c && forallb in_plain rest then Some (PStr s)
      else None
  end.

(** The elements of a flow sequence, from the texts between its commas. *)
Fixpoint elements (texts : list str) : option (list pyval) :=
  match texts with
  | [] => Some []
  | t :: rest =>
      match trim t with
      | [] => None
      | _ :: _ =>
          match scalar (trim t), elements rest with
          | Some v, Some vs => Some (v :: vs)
          | _, _ => None
          end
      end
  end.

(** A value, already trimmed: a flow sequence or a scalar. *)
Definition value (s : str) : option pyval :=
  match s with
  | c :: rest =>
      if N.eqb c LBRACKET then
        match rev rest with
        | q :: inner =>
            if N.eqb q RBRACKET then
              match trim (rev inner) with
              | [] => Some (PList [])
              | _ :: _ =>
                  match elements (split [COMMA] (length inner) (rev inner)) with
                  | Some vs => Some (PList vs)
                  | None => None
                  end
              end
            else None
        | [] => None
        end
      else scalar s
  | [] => scalar s
  end.

(** [d[key] = v]: a key that is there keeps its place. *)
Fixpoint dict_set (d : dict) (key : str) (v : pyval) : dict :=
  match d with
  | [] => [(PStr key, v)]
  | (k, v') :: d' =>
      if key_eqb key k then (k, v) :: d' else (k, v') :: dict_set d' key v
  end.

(** One line [key: value] of the block mapping. *)
Definition entry (line : str) : option (str * pyval) :=
  match find [COLON] line with
  | Some (key, after) =>
      match key with
      | c :: _ =>
          if is_letter c && forallb is_word_char key
             && negb (one_of (TRUE_WORDS ++ FALSE_WORDS ++ NULL_WORDS) key)
             && (is_empty after || startswith [SPACE] after)
          then match value (trim after) with
               | Some v => Some (key, v)
               | None => None
               end
          else None
      | [] => None
      end
  | None => None
  end.

(** [str(e)] for the [ScannerError] of a tab where a token should start,
    on the line [line] of 1-based number [line_number]: the problem, the
    place, the line and a caret under the tab. *)
Definition tab_error (line_number : nat) (line : str) : str :=
  let column := length line - length (skip_spaces line) in
  lit "while scanning for the next token" ++ [LF]
  ++ lit "found character '\t' that cannot start any token" ++ [LF]
  ++ lit "  in " ++ [DQUOTE] ++ lit "<unicode string>" ++ [DQUOTE]
  ++ lit ", line " ++ of_nat line_number
  ++ lit ", column " ++ of_nat (column + 1) ++ lit ":" ++ [LF]
  ++ lit "    " ++ line ++ [LF]
  ++ repeat SPACE (4 + column) ++ lit "^".

(** The lines of the mapping, from the line of number [line_number] on;
    [None] outside the fragment. *)
Fixpoint mapping (line_number : nat) (lines : list str) (d : dict)
  : option load_result :=
  match lines with
  | [] => Some (Loaded (PDict d))
  | line :: rest =>
      match skip_spaces line with
      | [] => mapping (S line_number) rest d
      | c :: _ =>
          if N.eqb c TAB then
            if length line <=? 36
            then Some (RaisedYAMLError (tab_error line_number line))
            else None
          else match entry line with
               | Some (key, v) =>
                   mapping (S line_number) rest (dict_set d key v)
               | None => None
               end
      end
  end.

Definition safe_load (text : str) : load_result :=
  match first_unacceptable 0 text with
  | Some (position, c) => RaisedYAMLError (reader_error position c)
  | None =>
      let lines := break_lines false [] text in
      if forallb (forallb (N.eqb SPACE)) lines then Loaded PNone
      else match mapping 1 lines [] with
           | Some result => result
           | None =>
               RaisedOther
                 (lit "NotImplementedError: outside the YAML fragment")
           end
  end.

(** [Py_UNICODE_ISPRINTABLE] above U+007F, from the Unicode database of
    CPython 3.11 (Unicode 14.0): the ranges of the characters whose
    category is none of Cc, Cf, Cs, Co, Cn, Zl, Zp and Zs. *)
Definition PRINTABLE : list (N * N) :=
  [(161, 172); (174, 887); (890, 895); (900, 906); (908, 908); (910, 929);
   (931, 1327); (1329, 1366); (1369, 1418); (1421, 1423); (1425, 1479);
   (1488, 1514); (1519, 1524); (1542, 1563); (1565, 1756); (1758, 1805);
   (1808, 1866); (1869, 1969); (1984, 2042); (2045, 2093); (2096, 2110);
   (2112, 2139); (2142, 2142); (2144, 2154); (2160, 2190); (2200, 2273);
   (2275, 2435); (2437, 2444); (2447, 2448); (2451, 2472); (2474, 2480);
   (2482, 2482); (2486, 2489); (2492, 2500); (2503, 2504); (2507, 2510);
   (2519, 2519); (2524, 2525); (2527, 2531); (2534, 2558); (2561, 2563);
   (2565, 2570); (2575, 2576); (2579, 2600); (2602, 2608); (2610, 2611);
   (2613, 2614); (2616, 2617); (2620, 2620); (2622, 2626); (2631, 2632);
   (2635, 2637); (2641, 2641); (2649, 2652); (2654, 2654); (2662, 2678);
   (2689, 2691); (2693, 2701); (2703, 2705); (2707, 2728); (2730, 2736);
   (2738, 2739); (2741, 2745); (2748, 2757); (2759, 2761); (2763, 2765);
   (2768, 2768); (2784, 2787); (2790, 2801); (2809, 2815); (2817, 2819);
   (2821, 2828); (2831, 2832); (2835, 2856); (2858, 2864); (2866, 2867);
   (2869, 2873); (2876, 2884); (2887, 2888); (2891, 2893); (2901, 2903);
   (2908, 2909); (2911, 2915); (2918, 2935); (2946, 2947); (2949, 2954);
   (2958, 2960); (2962, 2965); (2969, 2970); (2972, 2972); (2974, 2975);
   (2979, 2980); (2984, 2986); (2990, 3001); (3006, 3010); (3014, 3016);
   (3018, 3021); (3024, 3024); (3031, 3031); (3046, 3066); (3072, 3084);
   (3086, 3088); (3090, 3112); (3114, 3129); (3132, 3140); (3142, 3144);
   (3146, 3149); (3157, 3158); (3160, 3162); (3165, 3165); (3168, 3171);
   (3174, 3183); (3191, 3212); (3214, 3216); (3218, 3240); (3242, 3251);
   (3253, 3257); (3260, 3268); (3270, 3272); (3274, 3277); (3285, 3286);
   (3293, 3294); (3296, 3299); (3302, 3311); (3313, 3314); (3328, 3340);
   (3342, 3344); (3346, 3396); (3398, 3400); (3402, 3407); (3412, 3427);
   (3430, 3455); (3457, 3459); (3461, 3478); (3482, 3505); (3507, 3515);
   (3517, 3517); (3520, 3526); (3530, 3530); (3535, 3540); (3542, 3542);
   (3544, 3551); (3558, 3567); (3570, 3572); (3585, 3642); (3647, 3675);
   (3713, 3714); (3716, 3716); (3718, 3722); (3724, 3747); (3749, 3749);
   (3751, 3773); (3776, 3780); (3782, 3782); (3784, 3789); (3792, 3801);
   (3804, 3807); (3840, 3911); (3913, 3948); (3953, 3991); (3993, 4028);
   (4030, 4044); (4046, 4058); (4096, 4293); (4295, 4295); (4301, 4301);
   (4304, 4680); (4682, 4685); (4688, 4694); (4696, 4696); (4698, 4701);
   (4704, 4744); (4746, 4749); (4752, 4784); (4786, 4789); (4792, 4798);
   (4800, 4800); (4802, 4805); (4808, 4822); (4824, 4880); (4882, 4885);
   (4888, 4954); (4957, 4988); (4992, 5017); (5024, 5109); (5112, 5117);
   (5120, 5759); (5761, 5788); (5792, 5880); (5888, 5909); (5919, 5942);
   (5952, 5971); (5984, 5996); (5998, 6000); (6002, 6003); (6016, 6109);
   (6112, 6121); (6128, 6137); (6144, 6157); (6159, 6169); (6176, 6264);
   (6272, 6314); (6320, 6389); (6400, 6430); (6432, 6443); (6448, 6459);
   (6464, 6464); (6468, 6509); (6512, 6516); (6528, 6571); (6576, 6601);
   (6608, 6618); (6622, 6683); (6686, 6750); (6752, 6780); (6783, 6793);
   (6800, 6809); (6816, 6829); (6832, 6862); (6912, 6988); (6992, 7038);
   (7040, 7155); (7164, 7223); (7227, 7241); (7245, 7304); (7312, 7354);
   (7357, 7367); (7376, 7418); (7424, 7957); (7960, 7965); (7968, 8005);
   (8008, 8013); (8016, 8023); (8025, 8025); (8027, 8027); (8029, 8029);
   (8031, 8061); (8064, 8116); (8118, 8132); (8134, 8147); (8150, 8155);
   (8157, 8175); (8178, 8180); (8182, 8190); (8208, 8231); (8240, 8286);
   (8304, 8305); (8308, 8334); (8336, 8348); (8352, 8384); (8400, 8432);
   (8448, 8587); (8592, 9254); (9280, 9290); (9312, 11123); (11126, 11157);
   (11159, 11507); (11513, 11557); (11559, 11559); (11565, 11565);
   (11568, 11623); (11631, 11632); (11647, 11670); (11680, 11686);
   (11688, 11694); (11696, 11702); (11704, 11710); (11712, 11718);
   (11720, 11726); (11728, 11734); (11736, 11742); (11744, 11869);
   (11904, 11929); (11931, 12019); (12032, 12245); (12272, 12283);
   (12289, 12351); (12353, 12438); (12441, 12543); (12549, 12591);
   (12593, 12686); (12688, 12771); (12784, 12830); (12832, 42124);
   (42128, 42182); (42192, 42539); (42560, 42743); (42752, 42954);
   (42960, 42961); (42963, 42963); (42965, 42969); (42994, 43052);
   (43056, 43065); (43072, 43127); (43136, 43205); (43214, 43225);
   (43232, 43347); (43359, 43388); (43392, 43469); (43471, 43481);
   (43486, 43518); (43520, 43574); (43584, 43597); (43600, 43609);
   (43612, 43714); (43739, 43766); (43777, 43782); (43785, 43790);
   (43793, 43798); (43808, 43814); (43816, 43822); (43824, 43883);
   (43888, 44013); (44016, 44025); (44032, 55203); (55216, 55238);
   (55243, 55291); (63744, 64109); (64112, 64217); (64256, 64262);
   (64275, 64279); (64285, 64310); (64312, 64316); (64318, 64318);
   (64320, 64321); (64323, 64324); (64326, 64450); (64467, 64911);
   (64914, 64967); (64975, 64975); (65008, 65049); (65056, 65106);
   (65108, 65126); (65128, 65131); (65136, 65140); (65142, 65276);
   (65281, 65470); (65474, 65479); (65482, 65487); (65490, 65495);
   (65498, 65500); (65504, 65510); (65512, 65518); (65532, 65533);
   (65536, 65547); (65549, 65574); (65576, 65594); (65596, 65597);
   (65599, 65613); (65616, 65629); (65664, 65786); (65792, 65794);
   (65799, 65843); (65847, 65934); (65936, 65948); (65952, 65952);
   (66000, 66045); (66176, 66204); (66208, 66256); (66272, 66299);
   (66304, 66339); (66349, 66378); (66384, 66426); (66432, 66461);
   (66463, 66499); (66504, 66517); (66560, 66717); (66720, 66729);
   (66736, 66771); (66776, 66811); (66816, 66855); (66864, 66915);
   (66927, 66938); (66940, 66954); (66956, 66962); (66964, 66965);
   (66967, 66977); (66979, 66993); (66995, 67001); (67003, 67004);
   (67072, 67382); (67392, 67413); (67424, 67431); (67456, 67461);
   (67463, 67504); (67506, 67514); (67584, 67589); (67592, 67592);
   (67594, 67637); (67639, 67640); (67644, 67644); (67647, 67669);
   (67671, 67742); (67751, 67759); (67808, 67826); (67828, 67829);
   (67835, 67867); (67871, 67897); (67903, 67903); (67968, 68023);
   (68028, 68047); (68050, 68099); (68101, 68102); (68108, 68115);
   (68117, 68119); (68121, 68149); (68152, 68154); (68159, 68168);
   (68176, 68184); (68192, 68255); (68288, 68326); (68331, 68342);
   (68352, 68405); (68409, 68437); (68440, 68466); (68472, 68497);
   (68505, 68508); (68521, 68527); (68608, 68680); (68736, 68786);
   (68800, 68850); (68858, 68903); (68912, 68921); (69216, 69246);
   (69248, 69289); (69291, 69293); (69296, 69297); (69376, 69415);
   (69424, 69465); (69488, 69513); (69552, 69579); (69600, 69622);
   (69632, 69709); (69714, 69749); (69759, 69820); (69822, 69826);
   (69840, 69864); (69872, 69881); (69888, 69940); (69942, 69959);
   (69968, 70006); (70016, 70111); (70113, 70132); (70144, 70161);
   (70163, 70206); (70272, 70278); (70280, 70280); (70282, 70285);
   (70287, 70301); (70303, 70313); (70320, 70378); (70384, 70393);
   (70400, 70403); (70405, 70412); (70415, 70416); (70419, 70440);
   (70442, 70448); (70450, 70451); (70453, 70457); (70459, 70468);
   (70471, 70472); (70475, 70477); (70480, 70480); (70487, 70487);
   (70493, 70499); (70502, 70508); (70512, 70516); (70656, 70747);
   (70749, 70753); (70784, 70855); (70864, 70873); (71040, 71093);
   (71096, 71133); (71168, 71236); (71248, 71257); (71264, 71276);
   (71296, 71353); (71360, 71369); (71424, 71450); (71453, 71467);
   (71472, 71494); (71680, 71739); (71840, 71922); (71935, 71942);
   (71945, 71945); (71948, 71955); (71957, 71958); (71960, 71989);
   (71991, 71992); (71995, 72006); (72016, 72025); (72096, 72103);
   (72106, 72151); (72154, 72164); (72192, 72263); (72272, 72354);
   (72368, 72440); (72704, 72712); (72714, 72758); (72760, 72773);
   (72784, 72812); (72816, 72847); (72850, 72871); (72873, 72886);
   (72960, 72966); (72968, 72969); (72971, 73014); (73018, 73018);
   (73020, 73021); (73023, 73031); (73040, 73049); (73056, 73061);
   (73063, 73064); (73066, 73102); (73104, 73105); (73107, 73112);
   (73120, 73129); (73440, 73464); (73648, 73648); (73664, 73713);
   (73727, 74649); (74752, 74862); (74864, 74868); (74880, 75075);
   (77712, 77810); (77824, 78894); (82944, 83526); (92160, 92728);
   (92736, 92766); (92768, 92777); (92782, 92862); (92864, 92873);
   (92880, 92909); (92912, 92917); (92928, 92997); (93008, 93017);
   (93019, 93025); (93027, 93047); (93053, 93071); (93760, 93850);
   (93952, 94026); (94031, 94087); (94095, 94111); (94176, 94180);
   (94192, 94193); (94208, 100343); (100352, 101589); (101632, 101640);
   (110576, 110579); (110581, 110587); (110589, 110590); (110592, 110882);
   (110928, 110930); (110948, 110951); (110960, 111355); (113664, 113770);
   (113776, 113788); (113792, 113800); (113808, 113817); (113820, 113823);
   (118528, 118573); (118576, 118598); (118608, 118723); (118784, 119029);
   (119040, 119078); (119081, 119154); (119163, 119274); (119296, 119365);
   (119520, 119539); (119552, 119638); (119648, 119672); (119808, 119892);
   (119894, 119964); (119966, 119967); (119970, 119970); (119973, 119974);
   (119977, 119980); (119982, 119993); (119995, 119995); (119997, 120003);
   (120005, 120069); (120071, 120074); (120077, 120084); (120086, 120092);
   (120094, 120121); (120123, 120126); (120128, 120132); (120134, 120134);
   (120138, 120144); (120146, 120485); (120488, 120779); (120782, 121483);
   (121499, 121503); (121505, 121519); (122624, 122654); (122880, 122886);
   (122888, 122904); (122907, 122913); (122915, 122916); (122918, 122922);
   (123136, 123180); (123184, 123197); (123200, 123209); (123214, 123215);
   (123536, 123566); (123584, 123641); (123647, 123647); (124896, 124902);
   (124904, 124907); (124909, 124910); (124912, 124926); (124928, 125124);
   (125127, 125142); (125184, 125259); (125264, 125273); (125278, 125279);
   (126065, 126132); (126209, 126269); (126464, 126467); (126469, 126495);
   (126497, 126498); (126500, 126500); (126503, 126503); (126505, 126514);
   (126516, 126519); (126521, 126521); (126523, 126523); (126530, 126530);
   (126535, 126535); (126537, 126537); (126539, 126539); (126541, 126543);
   (126545, 126546); (126548, 126548); (126551, 126551); (126553, 126553);
   (126555, 126555); (126557, 126557); (126559, 126559); (126561, 126562);
   (126564, 126564); (126567, 126570); (126572, 126578); (126580, 126583);
   (126585, 126588); (126590, 126590); (126592, 126601); (126603, 126619);
   (126625, 126627); (126629, 126633); (126635, 126651); (126704, 126705);
   (126976, 127019); (127024, 127123); (127136, 127150); (127153, 127167);
   (127169, 127183); (127185, 127221); (127232, 127405); (127462, 127490);
   (127504, 127547); (127552, 127560); (127568, 127569); (127584, 127589);
   (127744, 128727); (128733, 128748); (128752, 128764); (128768, 128883);
   (128896, 128984); (128992, 129003); (129008, 129008); (129024, 129035);
   (129040, 129095); (129104, 129113); (129120, 129159); (129168, 129197);
   (129200, 129201); (129280, 129619); (129632, 129645); (129648, 129652);
   (129656, 129660); (129664, 129670); (129680, 129708); (129712, 129722);
   (129728, 129733); (129744, 129753); (129760, 129767); (129776, 129782);
   (129792, 129938); (129940, 129994); (130032, 130041); (131072, 173791);
   (173824, 177976); (177984, 178205); (178208, 183969); (183984, 191456);
   (194560, 195101); (196608, 201546); (917760, 917999)]%N.
Definition isprintable (c : char) : bool :=
  existsb (fun range => (fst range <=? c) && (c <=? snd range))%N PRINTABLE.

End MiniYaml.

(** ** Documents used as examples *)

(** The text made of the given lines, each ended by a line feed. *)
Definition unlines (lines : list str) : str :=
  flat_map (fun l => l ++ [LF]) lines.

Definition document (lines : list string) : str := unlines (map lit lines).

(** [text] between double quotes. *)
Definition quoted (text : string) : str := [DQUOTE] ++ lit text ++ [DQUOTE].

Definition validate (content : str) : outcome :=
  validate_mdc_text MiniYaml.safe_load MiniYaml.isprintable content.

(** The example of the specification and its variants. *)

Definition example_text : str :=
  document ["---"; "description: x"; "globs: [a]"; "alwaysApply: true";
            "---"; ""; "# Title"].

(** The text between its first two [---]. *)
Definition example_frontmatter_text : str :=
  document [""; "description: x"; "globs: [a]"; "alwaysApply: true"].

Definition example_frontmatter : dict :=
  [(PStr (lit "description"), PStr (lit "x"));
   (PStr (lit "globs"), PList [PStr (lit "a")]);
   (PStr (lit "alwaysApply"), PBool true)].

(** The same with [alwaysApply] given as the string [true] in double
    quotes. *)
Definition string_flag_text : str :=
  document ["---"; "description: x"; "globs: [a]"]
  ++ lit "alwaysApply: " ++ quoted "true" ++ [LF]
  ++ document ["---"; ""; "# Title"].

Definition string_flag_frontmatter_text : str :=
  document [""; "description: x"; "globs: [a]"]
  ++ lit "alwaysApply: " ++ quoted "true" ++ [LF].

Definition string_flag_frontmatter : dict :=
  [(PStr (lit "description"), PStr (lit "x"));
   (PStr (lit "globs"), PList [PStr (lit "a")]);
   (PStr (lit "alwaysApply"), PStr (lit "true"))].

(** The same with the flag under the key [always_apply]. *)
Definition snake_key_text : str :=
  document ["---"; "description: x"; "globs: [a]"; "always_apply: true";
            "---"; ""; "# Title"].

(** The same with a number in [globs]. *)
Definition number_glob_text : str :=
  document ["---"; "description: x"; "globs: [1]"; "alwaysApply: true";
            "---"; ""; "# Title"].

Definition number_glob_frontmatter : dict :=
  [(PStr (lit "description"), PStr (lit "x"));
   (PStr (lit "globs"), PList [PInt 1]);
   (PStr (lit "alwaysApply"), PBool true)].

Definition number_glob_frontmatter_text : str :=
  document [""; "description: x"; "globs: [1]"; "alwaysApply: true"].

(** The example with a line of text where the heading should be. *)
Definition not_heading_text : str :=
  document ["---"; "description: x"; "globs: [a]"; "alwaysApply: true";
            "---"; ""; "Not a heading"].

(** The same with a tab in that line. *)
Definition tabbed_line_text : str :=
  document ["---"; "description: x"; "globs: [a]"; "alwaysApply: true";
            "---"; ""]
  ++ lit "Not" ++ [9%N] ++ lit "a heading" ++ [LF].

(** The same with no blank line after the frontmatter either. *)
Definition crowded_text : str :=
  document ["---"; "description: x"; "globs: [a]"; "alwaysApply: true";
            "---"; "intro"; "Not a heading"].

(** A frontmatter that fails the three schema checks, closed by a line
    that has more than the delimiter on it. *)
Definition trailing_text : str :=
  document ["---"; "description: 1"; "globs: a"; "--- end"; ""; "# Title"].

Definition trailing_frontmatter : dict :=
  [(PStr (lit "description"), PInt 1); (PStr (lit "globs"), PStr (lit "a"))].



(** An opening delimiter and no other. *)
Definition unclosed_text : str := document ["---"; "description: x"].

(** Nothing between the delimiters. *)
Definition empty_frontmatter_text : str :=
  document ["---"; "---"; ""; "# Title"].

(** Two spaces and an empty line between the delimiter lines. *)
Definition blank_frontmatter_text : str :=
  document ["---"; "  "; ""; "---"; ""; "# Title"].

(** A tab on a line of its own between the delimiter lines. *)
Definition tab_frontmatter_text : str :=
  lit "---" ++ [LF] ++ [9%N] ++ [LF] ++ document ["---"; ""; "# Title"].




(** ** Vocabulary of the specification *)

(** The defects of the schema checks, in the order the checks run. *)
Definition schema_errors (frontmatter_data : dict) : list str :=
  check_alwaysApply frontmatter_data
    (check_globs frontmatter_data (check_description frontmatter_data [])).

(** What the blank-line check says of the line after the closing
    delimiter, whose 1-based number is [line_number]. *)
Definition blank_verdict (line_number : nat) (next_line : str) : list str :=
  match strip next_line with
  | [] => []
  | _ :: _ => [E_NOT_BLANK line_number]
  end.

(** What the heading check says of the line whose 1-based number is
    [line_number], when there is such a line. *)
Definition heading_verdict (isprintable : char -> bool) (line_number : nat)
  (first_content_line : option str) : list str :=
  match first_content_line with
  | None => [E_NO_CONTENT_AFTER_BLANK]
  | Some line =>
      if startswith (lit "#") (strip line) then []
      else [E_NOT_HEADING isprintable line_number (firstn 50 line)]
  end.

(** The first 26 characters of a message tell the check it comes from. *)
Definition head26 (e : str) : str := firstn 26 e.

(** [needle] occurs in [text]. *)
Definition includes (text needle : str) : Prop :=
  exists before after, text = before ++ needle ++ after.



(** A space or one of the line breaks of YAML. *)
Definition space_or_break (c : char) : bool :=
  ((c =? 32) || (c =? 10) || (c =? 13) || (c =? 133) || (c =? 8232)
   || (c =? 8233))%N.

(** The characters [repr] copies as they are, whatever the quote. *)
Definition plain (c : char) : bool :=
  ((32 <=? c) && (c <? 127) && negb (c =? QUOTE) && negb (c =? DQUOTE)
   && negb (c =? BACKSLASH))%N.

Section Vocabulary.

Variable safe_load : str -> load_result.

(** The structural phase passes: the text starts with the delimiter,
    splitting it yields three parts, and the second decodes to the mapping
    [frontmatter_data]. *)
Definition passes_structure (content : str) (frontmatter_data : dict)
  : Prop :=
  startswith DELIM content = true
  /\ 3 <= length (split DELIM 2 content)
  /\ safe_load (nth 1 (split DELIM 2 content) []) =
     Loaded (PDict frontmatter_data).

(** The three fields are there with the types the schema asks for. *)
Definition schema_ok (frontmatter_data : dict) : Prop :=
  (exists description,
      dict_get frontmatter_data (lit "description") = Some (PStr description)
      /\ strip description <> [])
  /\ (exists globs,
         dict_get frontmatter_data (lit "globs") = Some (PList globs))
  /\ (exists flag,
         dict_get frontmatter_data (lit "alwaysApply") = Some (PBool flag)).

(** A closing delimiter line, then a blank line, then a heading line. *)
Definition layout_ok (lines : list str) : Prop :=
  exists i next_line first_content_line,
    closing_dash_idx lines = Some i
    /\ nth_error lines (i + 1) = Some next_line
    /\ strip next_line = []
    /\ nth_error lines (i + 2) = Some first_content_line
    /\ startswith (lit "#") (strip first_content_line) = true.

(** What the checks of the validator ask of a text, all together. *)
Definition accepted (content : str) : Prop :=
  exists frontmatter_data,
    passes_structure content frontmatter_data
    /\ schema_ok frontmatter_data
    /\ layout_ok (splitlines content).




End Vocabulary.

(** ** The scan of a repository (src/validate_mdc.py, lines 124-196) *)

(** What a computation gives: a value, or an exception that escapes. *)
Inductive result (A : Type) : Type :=
| Ok (a : A)
| Raised (e : str).

Arguments Ok {A} a.
Arguments Raised {A} e.

(** [sum] of a sequence of integers. *)
Definition sum (l : list Z) : Z := fold_left Z.add l 0%Z.

(** [str(z)] for an integer. *)
Definition of_int (z : Z) : str := lit (NilZero.string_of_int (Z.to_int z)).

(** [print(s)] adds [s] and a line feed to the standard output. *)
Definition print (s : str) (stdout : str) : str := stdout ++ s ++ [LF].

Definition E_ALL_VALID : str :=
  [226%N; 339%N; 8220%N] ++ lit " All files are valid!".

Section Scanner.

Variable safe_load : str -> load_result.
Variable isprintable : char -> bool.

(** A [pathlib.Path]; [read] is what opening and reading the file at a
    path gives, and [relative] the text of the path relative to the root
    directory of the scan. *)
Variable path : Type.
Variable read : path -> read_result.
Variable relative : path -> str.

(** An item of [file_results]: [(file_path, is_valid, errors)]. *)
Definition file_result : Type := path * bool * list str.

Definition is_valid_of (r : file_result) : bool := snd (fst r).

(** The dictionary that [validate_all_mdc_files] returns. *)
Record report : Type := {
  total_files : Z;
  valid_files : Z;
  invalid_files : Z;
  file_results : list file_result
}.

(** What the validator returned for a file, as an item of the results. *)
Definition recorded (mdc_file : path) (r : file_result) : Prop :=
  fst (fst r) = mdc_file
  /\ validate_mdc_file safe_load isprintable (read mdc_file) =
     Return (is_valid_of r, snd r).

(** The loop of lines 145-147 over the files still to validate. *)
Fixpoint validate_each (mdc_files : list path) (results : list file_result)
  : result (list file_result) :=
  match mdc_files with
  | [] => Ok results
  | mdc_file :: rest =>
      match validate_mdc_file safe_load isprintable (read mdc_file) with
      | Return (is_valid, errors) =>
          validate_each rest (results ++ [(mdc_file, is_valid, errors)])
      | Raise e => Raised e
      end
  end.

(** Lines 142-157, on the sorted list [mdc_files] of the files that
    [root_dir.rglob] finds. *)
Definition validate_all_mdc_files (mdc_files : list path) : result report :=
  match validate_each mdc_files [] with
  | Raised e => Raised e
  | Ok results =>
      let valid_count :=
        sum (map (fun _ => 1%Z) (filter is_valid_of results)) in
      let invalid_count := (Z.of_nat (length results) - valid_count)%Z in
      Ok {| total_files := Z.of_nat (length results);
            valid_files := valid_count;
            invalid_files := invalid_count;
            file_results := results |}
  end.

(** Lines 187-192: the lines printed for one invalid file. *)
Definition print_invalid_file (entry : path * list str) (stdout : str)
  : str :=
  let '(file_path, errors) := entry in
  let stdout := print (lit "  " ++ relative file_path ++ lit ":") stdout in
  let stdout :=
    fold_left (fun out error => print (lit "    - " ++ error) out)
      errors stdout in
  print [] stdout.

(** The text of the lines of one invalid file in the report: its path, a
    line for each of its defects, an empty line. *)
Definition invalid_file_block (entry : path * list str) : str :=
  (lit "  " ++ relative (fst entry) ++ lit ":" ++ [LF])
  ++ concat (map (fun error => lit "    - " ++ error ++ [LF]) (snd entry))
  ++ [LF].

(** Lines 160-196: what [main] prints and the exit code it returns. *)
Definition main (mdc_files : list path) : result (str * Z) :=
  match validate_all_mdc_files mdc_files with
  | Raised e => Raised e
  | Ok results =>
      let stdout := print (lit "MDC File Validation Report") [] in
      let stdout := print (repeat 61%N 60) stdout in
      let stdout :=
        print (lit "Total files checked: " ++ of_int (total_files results))
          stdout in
      let stdout :=
        print (lit "Valid files: " ++ of_int (valid_files results)) stdout in
      let stdout :=
        print (lit "Invalid files: " ++ of_int (invalid_files results))
          stdout in
      let stdout := print (repeat 61%N 60 ++ [LF]) stdout in
      let invalid_files :=
        map (fun r : file_result => (fst (fst r), snd r))
          (filter (fun r => negb (is_valid_of r)) (file_results results)) in
      match invalid_files with
      | _ :: _ =>
          let stdout :=
            print (lit "Files with validation errors:" ++ [LF]) stdout in
          let stdout :=
            fold_left (fun out entry => print_invalid_file entry out)
              invalid_files stdout in
          Ok (stdout, 1%Z)
      | [] =>
          let stdout := print E_ALL_VALID stdout in
          Ok (stdout, 0%Z)
      end
  end.

End Scanner.

(** ** The batch update (src/batch_update_cursor_rules.py) *)

Module Batch.

(** [sub in text] *)
Definition contains (sub text : str) : bool :=
  match find sub text with Some _ => true | None => false end.

(** The classes of exceptions that the handlers of the script tell apart:
    [FileNotFoundError] and [PermissionError] are [OSError]s,
    [subprocess.SubprocessError] is not. *)
Inductive exn_class : Type :=
| FileNotFoundError
| PermissionError
| OtherOSError
| SubprocessError
| OtherException.

(** An exception: its class and its message, [str(e)]. *)
Inductive exn : Type := Exn (class : exn_class) (message : str).

Definition is_OSError (c : exn_class) : bool :=
  match c with
  | FileNotFoundError | PermissionError | OtherOSError => true
  | SubprocessError | OtherException => false
  end.

(** [except (FileNotFoundError, subprocess.SubprocessError)] *)
Definition is_run_failure (c : exn_class) : bool :=
  match c with
  | FileNotFoundError | SubprocessError => true
  | PermissionError | OtherOSError | OtherException => false
  end.

Definition is_PermissionError (c : exn_class) : bool :=
  match c with PermissionError => true | _ => false end.

(** What a call gives: a value or an exception. *)
Inductive attempt (A : Type) : Type :=
| Done (a : A)
| Throw (e : exn).

Arguments Done {A} a.
Arguments Throw {A} e.

(** The [CompletedProcess] of [subprocess.run] with captured text. *)
Record completed : Type := {
  returncode : Z;
  stdout : str;
  stderr : str
}.

(** A message written by [click.echo], to the standard output or, with
    [err=True], to the standard error. *)
Inductive stream : Type := Out | Err.

Definition message : Type := stream * str.

Definition echo (text : str) : list message := [(Out, text)].
Definition echo_err (text : str) : list message := [(Err, text)].

(** How [main] ends: it returns, [sys.exit] is called, or an exception
    escapes. *)
Inductive ending : Type :=
| Returns
| Exits (code : Z)
| Escapes (e : exn).

Definition CHECK_MARK : char := 10003%N.
Definition BALLOT_X : char := 10007%N.

Section World.

(** Paths, the file system and the processes the script starts are not
    code of the repository: [joinpath] is the [/] of [pathlib], [Path] its
    constructor, [home] is [Path.home()], [name] and [path_str] are
    [p.name] and [str(p)]; [git_submodule_status d] is what running
    [git submodule status .cursor/rules] in [d] gives, [which] what
    running [which cursor-rules] gives, [run_script s d] what running the
    script [s] on [d] in [d] gives, [read_text] what reading a text file
    gives, and [iterdir d] the entries that iterating over [d] yields,
    followed by the exception that ends the iteration if one does. *)
Variable path : Type.
Variable joinpath : path -> str -> path.
Variable Path : str -> path.
Variable home : path.
Variable name : path -> str.
Variable path_str : path -> str.
Variable exists_ : path -> bool.
Variable is_dir : path -> bool.
Variable is_file : path -> bool.
Variable git_submodule_status : path -> attempt completed.
Variable read_text : path -> attempt str.
Variable which : attempt completed.
Variable run_script : path -> path -> attempt completed.
Variable iterdir : path -> list path * option exn.

(** Lines 16-30. *)
Definition is_git_repo (directory : path) : bool :=
  let git_dir := joinpath directory (lit ".git") in
  exists_ git_dir || is_dir git_dir.

(** Lines 33-72. *)
Definition has_cursor_rules_submodule (directory : path) : attempt bool :=
  let cursor_rules_path :=
    joinpath (joinpath directory (lit ".cursor")) (lit "rules") in
  if negb (exists_ cursor_rules_path) then Done false
  else
    match git_submodule_status directory with
    | Done result => Done (returncode result =? 0)%Z
    | Throw (Exn c m) =>
        if is_run_failure c then
          let gitmodules_path := joinpath directory (lit ".gitmodules") in
          if negb (exists_ gitmodules_path) then Done false
          else
            match read_text gitmodules_path with
            | Done gitmodules_content =>
                Done (contains (lit ".cursor/rules") gitmodules_content
                      || contains (lit "cursor/rules") gitmodules_content)
            | Throw (Exn c' m') =>
                if is_OSError c' then Done false else Throw (Exn c' m')
            end
        else Throw (Exn c m)
    end.

(** The fixed places of lines 84-89. *)
Definition common_locations : list path :=
  [joinpath (joinpath (joinpath home (lit ".local")) (lit "bin"))
     (lit "cursor-rules");
   Path (lit "/usr/local/bin/cursor-rules");
   Path (lit "/usr/bin/cursor-rules");
   Path (lit "cursor-rules")].

(** The loop of lines 104-108. *)
Fixpoint first_file (locations : list path) : option path :=
  match locations with
  | [] => None
  | location :: rest =>
      if exists_ location && is_file location then Some location
      else first_file rest
  end.

(** Lines 75-108. *)
Definition find_cursor_rules_script : attempt (option path) :=
  let locations := common_locations in
  match which with
  | Done result =>
      let locations :=
        if (returncode result =? 0)%Z
        then Path (strip (stdout result)) :: locations
        else locations in
      Done (first_file locations)
  | Throw (Exn c m) =>
      if is_run_failure c then Done (first_file locations)
      else Throw (Exn c m)
  end.

(** Lines 111-153: the value returned and the messages written. *)
Definition run_cursor_rules (project_dir cursor_rules_script : path)
  (dry_run : bool) : bool * list message :=
  if dry_run then
    (true,
     echo (lit "  [DRY RUN] Would run: " ++ path_str cursor_rules_script
           ++ lit " " ++ path_str project_dir))
  else
    match run_script cursor_rules_script project_dir with
    | Done result =>
        if (returncode result =? 0)%Z then
          (true,
           echo (lit "  " ++ [CHECK_MARK] ++ lit " Successfully updated "
                 ++ name project_dir)
           ++ (if is_empty (stdout result) then []
               else echo (lit "    " ++ strip (stdout result))))
        else
          (false,
           echo_err (lit "  " ++ [BALLOT_X] ++ lit " Failed to update "
                     ++ name project_dir)
           ++ (if is_empty (stderr result) then []
               else echo_err (lit "    Error: " ++ strip (stderr result))))
    | Throw (Exn c m) =>
        (false,
         echo_err (lit "  " ++ [BALLOT_X]
                   ++ lit " Error running cursor-rules: " ++ m))
    end.

(** The loop of lines 212-226 over the entries that the directory yields;
    [failure] is the exception that ends the iteration, if any. *)
Fixpoint scan_items (items : list path) (failure : option exn)
  (projects : list path) : attempt (list path) :=
  match items with
  | [] =>
      match failure with
      | Some e => Throw e
      | None => Done projects
      end
  | item :: rest =>
      if negb (is_dir item) then scan_items rest failure projects
      else if startswith (lit ".") (name item) then
        scan_items rest failure projects
      else if negb (is_git_repo item) then scan_items rest failure projects
      else
        match has_cursor_rules_submodule item with
        | Done true => scan_items rest failure (projects ++ [item])
        | Done false => scan_items rest failure projects
        | Throw e => Throw e
        end
  end.

(** An entry that the scan keeps: a directory that is not hidden, is a
    git repository and has the submodule. *)
Definition selected (item : path) : bool :=
  is_dir item && negb (startswith (lit ".") (name item))
  && is_git_repo item
  && match has_cursor_rules_submodule item with
     | Done true => true
     | _ => false
     end.

(** The loop of lines 249-253: the count of successes and the messages. *)
Fixpoint update_each (projects : list path) (cursor_rules_path : path)
  (dry_run : bool) (success_count : nat) (written : list message)
  : nat * list message :=
  match projects with
  | [] => (success_count, written)
  | project :: rest =>
      let written :=
        written ++ echo (lit "Updating " ++ name project ++ lit "...") in
      let '(ok, said) := run_cursor_rules project cursor_rules_path dry_run in
      let written := written ++ said in
      let success_count :=
        if ok then success_count + 1 else success_count in
      let written := written ++ echo [] in
      update_each rest cursor_rules_path dry_run success_count written
  end.

(** Lines 196-203: the script given on the command line, or else the one
    searched for. *)
Definition resolve_script (cursor_rules_path : option path)
  : attempt (option path) :=
  match cursor_rules_path with
  | Some p => Done (Some p)
  | None => find_cursor_rules_script
  end.

(** Lines 173-260: how [main] ends and the messages it writes. *)
Definition main (projects_dir : path) (dry_run : bool)
  (cursor_rules_path : option path) : ending * list message :=
  let written :=
    echo (lit "Scanning " ++ path_str projects_dir
          ++ lit " for projects with cursor_rules submodule...")
    ++ echo [] in
  match resolve_script cursor_rules_path with
  | Throw e => (Escapes e, written)
  | Done None =>
      (Exits 1,
       written
       ++ echo_err (lit "Error: cursor-rules script not found. Please install it or specify --cursor-rules-path"))
  | Done (Some cursor_rules_path) =>
      let written :=
        written
        ++ echo (lit "Using cursor-rules script: "
                 ++ path_str cursor_rules_path)
        ++ echo [] in
      let '(items, failure) := iterdir projects_dir in
      match scan_items items failure [] with
      | Throw (Exn c m) =>
          if is_PermissionError c then
            (Exits 1,
             written
             ++ echo_err (lit "Error: Permission denied accessing "
                          ++ path_str projects_dir ++ lit ": " ++ m))
          else
            (Exits 1,
             written ++ echo_err (lit "Error scanning directory: " ++ m))
      | Done [] =>
          (Exits 0,
           written
           ++ echo (lit "No projects with cursor_rules submodule found."))
      | Done projects =>
          let written :=
            written
            ++ echo (lit "Found " ++ of_nat (length projects)
                     ++ lit " project(s) with cursor_rules submodule:")
            ++ flat_map (fun project => echo (lit "  - " ++ name project))
                 projects
            ++ echo [] in
          let written :=
            if dry_run then
              written ++ echo (lit "DRY RUN MODE - No changes will be made")
              ++ echo []
            else written in
          let '(success_count, written) :=
            update_each projects cursor_rules_path dry_run 0 written in
          let written :=
            written ++ echo (repeat 61%N 60)
            ++ echo (lit "Summary: " ++ of_nat success_count ++ lit "/"
                     ++ of_nat (length projects)
                     ++ lit " projects updated successfully") in
          if success_count <? length projects then (Exits 1, written)
          else (Returns, written)
      end
  end.

End World.

End Batch.

(** ** Examples for the scan and for the batch update *)

(** Three schema defects and two formatting defects. *)
Definition five_defects_text : str :=
  document ["---"; "title: x"; "globs: a"; "alwaysApply: 1";
            "---"; "intro"; "Not a heading"].

(** The example cut after its closing delimiter line, and one line
    later. *)
Definition frontmatter_only_text : str :=
  document ["---"; "description: x"; "globs: [a]"; "alwaysApply: true";
            "---"].

Definition one_line_after_text : str :=
  document ["---"; "description: x"; "globs: [a]"; "alwaysApply: true";
            "---"; ""].

(** The example with a description made of two spaces. *)
Definition blank_description_text : str :=
  document ["---"] ++ lit "description: " ++ quoted "  " ++ [LF]
  ++ document ["globs: [a]"; "alwaysApply: true"; "---"; ""; "# Title"].

Definition blank_description_frontmatter : dict :=
  [(PStr (lit "description"), PStr (lit "  "));
   (PStr (lit "globs"), PList [PStr (lit "a")]);
   (PStr (lit "alwaysApply"), PBool true)].

(** A repository of three rule files, the second of which cannot be
    read; a path is given by its text. *)
Definition example_files : list str :=
  [lit "rules/a.mdc"; lit "rules/b.mdc"; lit "rules/c.mdc"].

Definition example_read (p : str) : read_result :=
  if eqb p (lit "rules/a.mdc") then ReadOk example_text
  else if eqb p (lit "rules/b.mdc") then
    ReadRaised (lit "[Errno 13] Permission denied: 'rules/b.mdc'")
  else ReadOk crowded_text.

Definition example_scan : result (report str) :=
  validate_all_mdc_files MiniYaml.safe_load MiniYaml.isprintable
    example_read example_files.

Definition example_main : result (str * Z) :=
  main MiniYaml.safe_load MiniYaml.isprintable example_read (fun p => p)
    example_files.

(** A machine on which the batch update runs: paths are given by their
    text; [/projects] holds a project [app] with the submodule, a project
    [lib] without it, a hidden directory and a plain file; the script is
    installed in [/usr/local/bin] and [which] does not find it. *)
Module Demo.

Definition joinpath (p name : str) : str := p ++ lit "/" ++ name.

Fixpoint last_component (acc : str) (p : str) : str :=
  match p with
  | [] => acc
  | c :: rest =>
      if N.eqb c 47 then last_component [] rest
      else last_component (acc ++ [c]) rest
  end.

Definition name (p : str) : str := last_component [] p.

Definition among (paths : list string) (p : str) : bool :=
  existsb (fun q => eqb p (lit q)) paths.

Definition is_dir : str -> bool :=
  among ["/projects"; "/projects/app"; "/projects/app/.git";
         "/projects/app/.cursor"; "/projects/app/.cursor/rules";
         "/projects/lib"; "/projects/lib/.git"; "/projects/.cache"].

Definition is_file : str -> bool :=
  among ["/projects/notes.txt"; "/usr/local/bin/cursor-rules"].

Definition exists_ (p : str) : bool := is_dir p || is_file p.

Definition git_submodule_status (directory : str)
  : Batch.attempt Batch.completed :=
  if eqb directory (lit "/projects/app") then
    Batch.Done {| Batch.returncode := 0;
                  Batch.stdout := lit " 1a2b3c .cursor/rules (heads/main)"
                                  ++ [LF];
                  Batch.stderr := [] |}
  else
    Batch.Done {| Batch.returncode := 1;
                  Batch.stdout := [];
                  Batch.stderr := lit "error: pathspec did not match"
                                  ++ [LF] |}.

Definition read_text (p : str) : Batch.attempt str :=
  Batch.Throw (Batch.Exn Batch.FileNotFoundError
                 (lit "[Errno 2] No such file or directory")).

Definition which : Batch.attempt Batch.completed :=
  Batch.Done {| Batch.returncode := 1; Batch.stdout := [];
                Batch.stderr := [] |}.

(** Another answer of [which]: the script found in [/usr/local/bin]. *)
Definition which_found : Batch.completed :=
  {| Batch.returncode := 0;
     Batch.stdout := lit "/usr/local/bin/cursor-rules" ++ [LF];
     Batch.stderr := [] |}.

(** The script fails on every project. *)
Definition run_script (script project : str) : Batch.attempt Batch.completed :=
  Batch.Done {| Batch.returncode := 2; Batch.stdout := [];
                Batch.stderr := lit "fatal: not a submodule" ++ [LF] |}.

Definition iterdir (directory : str) : list str * option Batch.exn :=
  ([lit "/projects/.cache"; lit "/projects/app"; lit "/projects/lib";
    lit "/projects/notes.txt"], None).

Definition find_script : Batch.attempt (option str) :=
  Batch.find_cursor_rules_script joinpath (fun p => p) (lit "/home/dev")
    exists_ is_file which.

Definition scan_items :=
  Batch.scan_items joinpath name exists_ is_dir git_submodule_status
    read_text.

Definition main (dry_run : bool) (cursor_rules_path : option str)
  : Batch.ending * list Batch.message :=
  Batch.main joinpath (fun p => p) (lit "/home/dev") name (fun p => p)
    exists_ is_dir is_file git_submodule_status read_text which run_script
    iterdir (lit "/projects") dry_run cursor_rules_path.

End Demo.

(** * Properties *)

(** ** The string operations *)

(** The operations on texts of which Python's results are known. *)

Example splitlines_keeps_ends :
  splitlines (lit "ab" ++ [LF; LF] ++ lit "c" ++ [CR; LF] ++ lit "d") =
  [lit "ab" ++ [LF]; [LF]; lit "c" ++ [CR; LF]; lit "d"].
Proof. reflexivity. Qed.

Example splitlines_of_nothing : splitlines [] = [].
Proof. reflexivity. Qed.

Example split_at_most_twice :
  split DELIM 2 (lit "---a---b---c") = [[]; lit "a"; lit "b---c"].
Proof. reflexivity. Qed.

Example split_left_to_right :
  split DELIM 2 (lit "-------") = [[]; []; lit "-"].
Proof. reflexivity. Qed.

Example split_single_delimiter :
  split DELIM 2 (lit "---abc") = [[]; lit "abc"].
Proof. reflexivity. Qed.

Example strip_both_ends :
  strip ([9%N] ++ lit "  a b " ++ [CR; LF]) = lit "a b".
Proof. reflexivity. Qed.

Example of_nat_decimal : of_nat 120 = lit "120" /\ of_nat 0 = lit "0".
Proof. split; reflexivity. Qed.

Example repr_line_end :
  repr (fun _ => true) (lit "Not a heading" ++ [LF]) =
  lit "'Not a heading\n'".
Proof. reflexivity. Qed.

Example repr_single_quote :
  repr (fun _ => true) (lit "It's") = [DQUOTE] ++ lit "It's" ++ [DQUOTE].
Proof. reflexivity. Qed.

Example repr_both_quotes :
  repr (fun _ => true) (lit "It's " ++ [DQUOTE]) =
  lit "'It\'s " ++ [DQUOTE] ++ lit "'".
Proof. reflexivity. Qed.

Example repr_control_and_latin1 :
  repr MiniYaml.isprintable [1%N; 233%N; 160%N; 8232%N] =
  lit "'\x01" ++ [233%N] ++ lit "\xa0\u2028'".
Proof. reflexivity. Qed.

Lemma eqb_eq (a b : str) : eqb a b = true <-> a = b.
Proof.
  revert b; induction a as [|x a IH]; intros [|y b]; simpl;
    try (split; [discriminate | discriminate]); [tauto|].
  rewrite andb_true_iff, N.eqb_eq, IH.
  split; [intros [-> ->]; reflexivity | intros H; inversion H; auto].
Qed.

Lemma eqb_refl (a : str) : eqb a a = true.
Proof. apply eqb_eq; reflexivity. Qed.

Lemma startswith_app (p s : str) : startswith p (p ++ s) = true.
Proof. induction p; simpl; [|rewrite N.eqb_refl]; auto. Qed.

Lemma startswith_prefix (p s : str) :
  startswith p s = true -> s = p ++ skipn (length p) s.
Proof.
  revert s; induction p as [|x p IH]; intros [|y s]; simpl; try discriminate;
    auto.
  rewrite andb_true_iff, N.eqb_eq; intros [-> H]; f_equal; auto.
Qed.

(** What [find] returns is a decomposition of the text around [sep]. *)
Lemma find_decomposes (sep s before after : str) :
  find sep s = Some (before, after) -> s = before ++ sep ++ after.
Proof.
  revert before; induction s as [|c s IH]; intros before; simpl.
  - destruct (startswith sep []) eqn:E; [|discriminate].
    intros H; inversion H; subst; simpl.
    apply startswith_prefix in E; exact E.
  - destruct (startswith sep (c :: s)) eqn:E.
    + intros H; inversion H; subst; simpl.
      apply startswith_prefix in E; exact E.
    + destruct (find sep s) as [[b a]|]; [|discriminate].
      intros H; inversion H; subst; simpl; f_equal; auto.
Qed.

(** It is the leftmost one: [sep] does not start at any earlier place. *)
Lemma find_leftmost (sep s before after : str) :
  find sep s = Some (before, after) ->
  forall k, k < length before -> startswith sep (skipn k s) = false.
Proof.
  revert before; induction s as [|c s IH]; intros before; simpl.
  - destruct (startswith sep []); [|discriminate].
    intros H; inversion H; subst; simpl; intros; lia.
  - destruct (startswith sep (c :: s)) eqn:E.
    + intros H; inversion H; subst; simpl; intros; lia.
    + destruct (find sep s) as [[b a]|] eqn:F; [|discriminate].
      intros H; inversion H; subst; simpl; intros [|k] Hk; simpl; auto.
      apply (IH b); [reflexivity | lia].
Qed.

(** Lines keep their ends: put together again they are the text. *)
Lemma splitlines_from_concat (s : str) :
  (forall cur, concat (splitlines_from cur s) = rev cur ++ s)
  /\ (forall c cur, concat (splitlines_from cur (c :: s)) = rev cur ++ c :: s).
Proof.
  assert (step : forall c s,
    (forall cur, concat (splitlines_from cur s) = rev cur ++ s) ->
    (forall s', s = LF :: s' ->
       forall cur, concat (splitlines_from cur s') = rev cur ++ s') ->
    forall cur, concat (splitlines_from cur (c :: s)) = rev cur ++ c :: s).
  { intros c t Ht Ht' cur. cbn [splitlines_from].
    destruct (N.eqb c CR).
    - destruct t as [|c' t'].
      + simpl; rewrite app_nil_r; reflexivity.
      + destruct (N.eqb c' LF) eqn:E.
        * apply N.eqb_eq in E; subst c'.
          cbn [concat]; rewrite (Ht' t' eq_refl []); simpl.
          rewrite <- !app_assoc; reflexivity.
        * cbn [concat]; rewrite (Ht []); simpl.
          rewrite <- !app_assoc; reflexivity.
    - destruct (islinebreak c).
      + cbn [concat]; rewrite (Ht []); simpl.
        rewrite <- !app_assoc; reflexivity.
      + rewrite Ht; simpl; rewrite <- app_assoc; reflexivity. }
  induction s as [|c' s' [IH1 IH2]].
  - assert (H0 : forall cur, concat (splitlines_from cur []) = rev cur ++ []).
    { intros [|x cur]; simpl; rewrite ?app_nil_r; reflexivity. }
    split; [exact H0|].
    intros c cur; apply step; [exact H0 | discriminate].
  - split; [apply IH2|].
    intros c cur; apply step; [apply IH2|].
    intros t E; inversion E; subst; exact IH1.
Qed.

Lemma splitlines_concat (s : str) : concat (splitlines s) = s.
Proof. apply (proj1 (splitlines_from_concat s) []). Qed.

(** ** The validator *)

Section Properties.

Variable safe_load : str -> load_result.
Variable isprintable : char -> bool.

Local Notation "'validate_text'" := (validate_mdc_text safe_load isprintable).
Local Notation "'formatting_errors' lines" :=
  (check_formatting isprintable lines []) (at level 10, lines at level 9).

(** *** The checks only append *)

Lemma check_description_app (d : dict) (errors : list str) :
  check_description d errors = errors ++ check_description d [].
Proof.
  unfold check_description.
  destruct (dict_get d (lit "description")) as [[| | |s| | |]|];
    try reflexivity.
  destruct (is_empty (strip s)); [reflexivity | rewrite app_nil_r; reflexivity].
Qed.

Lemma check_globs_app (d : dict) (errors : list str) :
  check_globs d errors = errors ++ check_globs d [].
Proof.
  unfold check_globs.
  destruct (dict_get d (lit "globs")) as [v|]; [|reflexivity].
  destruct (negb (isinstance_list v));
    [reflexivity | rewrite app_nil_r; reflexivity].
Qed.

Lemma check_alwaysApply_app (d : dict) (errors : list str) :
  check_alwaysApply d errors = errors ++ check_alwaysApply d [].
Proof.
  unfold check_alwaysApply.
  destruct (dict_get d (lit "alwaysApply")) as [v|]; [|reflexivity].
  destruct (negb (isinstance_bool v));
    [reflexivity | rewrite app_nil_r; reflexivity].
Qed.

Lemma check_blank_line_app (lines : list str) (i : nat) (errors : list str) :
  check_blank_line lines i errors = errors ++ check_blank_line lines i [].
Proof.
  unfold check_blank_line.
  destruct (negb (eqb (strip (nth (i + 1) lines [])) []));
    [reflexivity | rewrite app_nil_r; reflexivity].
Qed.

Lemma check_heading_app (lines : list str) (i : nat) (errors : list str) :
  check_heading isprintable lines i errors =
  errors ++ check_heading isprintable lines i [].
Proof.
  unfold check_heading.
  destruct (length lines <=? i + 2); [reflexivity|].
  destruct (negb (startswith (lit "#") (strip (nth (i + 2) lines []))));
    [reflexivity | rewrite app_nil_r; reflexivity].
Qed.

Lemma check_formatting_app (lines : list str) (errors : list str) :
  check_formatting isprintable lines errors =
  errors ++ formatting_errors lines.
Proof.
  unfold check_formatting.
  destruct (closing_dash_idx lines) as [i|]; [|reflexivity].
  destruct (length lines <=? i + 1); [reflexivity|].
  rewrite check_heading_app, check_blank_line_app.
  rewrite (check_heading_app lines i (check_blank_line lines i [])).
  rewrite app_assoc; reflexivity.
Qed.

Lemma schema_errors_eq (d : dict) :
  schema_errors d =
  check_description d [] ++ check_globs d [] ++ check_alwaysApply d [].
Proof.
  unfold schema_errors.
  rewrite check_alwaysApply_app, check_globs_app, <- app_assoc; reflexivity.
Qed.

(** *** The two phases *)

Lemma length_eqb_0 (A : Type) (l : list A) : (length l =? 0) = true <-> l = [].
Proof. destruct l; simpl; split; congruence. Qed.

(** Past the structural phase the validator returns the defects of the
    schema checks followed by those of the formatting checks. *)
Lemma validate_structured (content : str) (d : dict) :
  passes_structure safe_load content d ->
  validate_text content =
  Return (length (schema_errors d ++ formatting_errors (splitlines content))
            =? 0,
          schema_errors d ++ formatting_errors (splitlines content)).
Proof.
  intros (Hstart & Hparts & Hload).
  unfold validate_mdc_text.
  rewrite Hstart; simpl negb; cbv iota.
  apply Nat.ltb_ge in Hparts; rewrite Hparts.
  rewrite Hload.
  rewrite check_formatting_app.
  reflexivity.
Qed.

(** The formatting checks when no closing delimiter line is found. *)
Lemma formatting_no_closing (lines : list str) :
  closing_dash_idx lines = None ->
  formatting_errors lines = [E_NO_CLOSING_LINE].
Proof. intros H; unfold check_formatting; rewrite H; reflexivity. Qed.

(** The formatting checks when the closing delimiter line is the last. *)
Lemma formatting_no_content (lines : list str) (i : nat) :
  closing_dash_idx lines = Some i ->
  nth_error lines (i + 1) = None ->
  formatting_errors lines = [E_NO_CONTENT].
Proof.
  intros H Hn; unfold check_formatting; rewrite H.
  apply nth_error_None in Hn.
  apply Nat.leb_le in Hn; rewrite Hn; reflexivity.
Qed.

(** The formatting checks when a line follows the closing delimiter line:
    the verdict on that line, then the verdict on the line after it. *)
Lemma formatting_found (lines : list str) (i : nat) (next_line : str) :
  closing_dash_idx lines = Some i ->
  nth_error lines (i + 1) = Some next_line ->
  formatting_errors lines =
  blank_verdict (i + 2) next_line ++
  heading_verdict isprintable (i + 3) (nth_error lines (i + 2)).
Proof.
  intros H Hn; unfold check_formatting; rewrite H.
  assert (Hlen : i + 1 < length lines).
  { apply nth_error_Some; rewrite Hn; discriminate. }
  apply Nat.leb_gt in Hlen; rewrite Hlen.
  rewrite check_heading_app; f_equal.
  - unfold check_blank_line, blank_verdict.
    rewrite (nth_error_nth _ _ _ Hn).
    destruct (strip next_line); reflexivity.
  - unfold check_heading, heading_verdict.
    destruct (nth_error lines (i + 2)) as [line|] eqn:E.
    + assert (Hlen2 : i + 2 < length lines).
      { apply nth_error_Some; rewrite E; discriminate. }
      apply Nat.leb_gt in Hlen2; rewrite Hlen2.
      rewrite (nth_error_nth _ _ _ E).
      destruct (startswith (lit "#") (strip line)); reflexivity.
    + apply nth_error_None in E.
      apply Nat.leb_le in E; rewrite E; reflexivity.
Qed.

(** *** The documents the validator accepts *)



Lemma no_errors_schema_ok (d : dict) : schema_errors d = [] -> schema_ok d.
Proof.
  rewrite schema_errors_eq.
  intros H; apply app_eq_nil in H as [Hd H]; apply app_eq_nil in H as [Hg Ha].
  unfold check_description in Hd; unfold check_globs in Hg;
    unfold check_alwaysApply in Ha.
  repeat split.
  - destruct (dict_get d (lit "description")) as [[| | |s| | |]|];
      try discriminate.
    exists s; split; [reflexivity|].
    destruct (strip s); [discriminate Hd | discriminate].
  - destruct (dict_get d (lit "globs")) as [[| | | |l| |]|]; try discriminate.
    exists l; reflexivity.
  - destruct (dict_get d (lit "alwaysApply")) as [[|b| | | | |]|];
      try discriminate.
    exists b; reflexivity.
Qed.

Lemma no_errors_layout_ok (lines : list str) :
  formatting_errors lines = [] -> layout_ok lines.
Proof.
  unfold check_formatting.
  destruct (closing_dash_idx lines) as [i|] eqn:Hi; [|discriminate].
  destruct (length lines <=? i + 1) eqn:Hlen; [discriminate|].
  rewrite check_heading_app; intros H.
  apply app_eq_nil in H as [Hb Hh].
  apply Nat.leb_gt in Hlen.
  unfold check_blank_line in Hb; unfold check_heading in Hh.
  destruct (length lines <=? i + 2) eqn:Hlen2; [discriminate|].
  apply Nat.leb_gt in Hlen2.
  exists i, (nth (i + 1) lines []), (nth (i + 2) lines []).
  split; [exact Hi|]; repeat split.
  - apply nth_error_nth'; exact Hlen.
  - destruct (eqb (strip (nth (i + 1) lines [])) []) eqn:E;
      [apply eqb_eq in E; exact E | discriminate].
  - apply nth_error_nth'; exact Hlen2.
  - destruct (startswith (lit "#") (strip (nth (i + 2) lines [])));
      [reflexivity | discriminate].
Qed.



(** Conversely the validator returns valid for such texts only. *)
Lemma valid_is_accepted (content : str) :
  validate_text content = Return (true, []) -> accepted safe_load content.
Proof.
  unfold validate_mdc_text.
  destruct (startswith DELIM content) eqn:Hstart; simpl negb; cbv iota;
    [|discriminate].
  destruct (length (split DELIM 2 content) <? 3) eqn:Hparts; [discriminate|].
  destruct (safe_load (nth 1 (split DELIM 2 content) [])) as [v|e|e] eqn:Hload;
    try discriminate.
  destruct v as [| | | | |d|]; try discriminate.
  rewrite check_formatting_app.
  fold (schema_errors d).
  intros H; inversion H as [[Hvalid Herrors]].
  apply app_eq_nil in Herrors as [Hs Hf].
  exists d; split; [|split].
  - repeat split; auto.
    apply Nat.ltb_ge; exact Hparts.
  - apply no_errors_schema_ok; exact Hs.
  - apply no_errors_layout_ok; exact Hf.
Qed.

(** *** Which check a message comes from

    The messages of the checks differ within their first 26 characters,
    whatever line number and excerpt the formatting messages carry. *)

Lemma check_description_heads (d : dict) (e : str) :
  In e (check_description d []) ->
  In (head26 e) [lit "Missing required field: 'd";
                 lit "Field 'description' must b";
                 lit "Field 'description' cannot"].
Proof.
  unfold check_description.
  destruct (dict_get d (lit "description")) as [[| | |s| | |]|];
    try destruct (is_empty (strip s));
    simpl; intros H; repeat (destruct H as [<-|H]); try contradiction;
    vm_compute; tauto.
Qed.

Lemma check_globs_heads (d : dict) (e : str) :
  In e (check_globs d []) ->
  In (head26 e) [lit "Missing required field: 'g";
                 lit "Field 'globs' must be a li"].
Proof.
  unfold check_globs.
  destruct (dict_get d (lit "globs")) as [v|];
    try destruct (negb (isinstance_list v));
    simpl; intros H; repeat (destruct H as [<-|H]); try contradiction;
    vm_compute; tauto.
Qed.

Lemma check_alwaysApply_heads (d : dict) (e : str) :
  In e (check_alwaysApply d []) ->
  In (head26 e) [lit "Missing required field: 'a";
                 lit "Field 'alwaysApply' must b"].
Proof.
  unfold check_alwaysApply.
  destruct (dict_get d (lit "alwaysApply")) as [v|];
    try destruct (negb (isinstance_bool v));
    simpl; intros H; repeat (destruct H as [<-|H]); try contradiction;
    vm_compute; tauto.
Qed.

Lemma formatting_errors_heads (lines : list str) (e : str) :
  In e (formatting_errors lines) ->
  In (head26 e) [lit "Could not find closing '--";
                 lit "No content after frontmatt";
                 lit "Missing blank line after f";
                 lit "No content after blank lin";
                 lit "Content does not start wit"].
Proof.
  unfold check_formatting, check_heading, check_blank_line.
  destruct (closing_dash_idx lines) as [i|].
  2:{ simpl; intros [<-|[]]; vm_compute; tauto. }
  destruct (length lines <=? i + 1).
  { simpl; intros [<-|[]]; vm_compute; tauto. }
  destruct (negb (eqb (strip (nth (i + 1) lines [])) []));
    destruct (length lines <=? i + 2);
    try destruct (negb (startswith (lit "#") (strip (nth (i + 2) lines []))));
    simpl; intros H; repeat (destruct H as [<-|H]); try contradiction;
    vm_compute; tauto.
Qed.

(** The defects about [globs] among all the defects are those of the
    [globs] check. *)
Lemma globs_defect_origin (d : dict) (lines : list str) (e : str) :
  e = E_GLOBS_MISSING \/ e = E_GLOBS_TYPE ->
  In e (schema_errors d ++ formatting_errors lines) <->
  In e (check_globs d []).
Proof.
  intros He; rewrite schema_errors_eq, !in_app_iff.
  split; [|tauto].
  intros [[H|[H|H]]|H]; [exfalso|exact H|exfalso|exfalso].
  - apply check_description_heads in H.
    destruct He as [-> | ->]; vm_compute in H;
      repeat (destruct H as [H|H]; [discriminate H|]); exact H.
  - apply check_alwaysApply_heads in H.
    destruct He as [-> | ->]; vm_compute in H;
      repeat (destruct H as [H|H]; [discriminate H|]); exact H.
  - apply formatting_errors_heads in H.
    destruct He as [-> | ->]; vm_compute in H;
      repeat (destruct H as [H|H]; [discriminate H|]); exact H.
Qed.

(** Likewise for the defects about [alwaysApply]. *)
Lemma alwaysApply_defect_origin (d : dict) (lines : list str) (e : str) :
  e = E_ALWAYS_MISSING \/ e = E_ALWAYS_TYPE ->
  In e (schema_errors d ++ formatting_errors lines) <->
  In e (check_alwaysApply d []).
Proof.
  intros He; rewrite schema_errors_eq, !in_app_iff.
  split; [|tauto].
  intros [[H|[H|H]]|H]; [exfalso|exfalso|exact H|exfalso].
  - apply check_description_heads in H.
    destruct He as [-> | ->]; vm_compute in H;
      repeat (destruct H as [H|H]; [discriminate H|]); exact H.
  - apply check_globs_heads in H.
    destruct He as [-> | ->]; vm_compute in H;
      repeat (destruct H as [H|H]; [discriminate H|]); exact H.
  - apply formatting_errors_heads in H.
    destruct He as [-> | ->]; vm_compute in H;
      repeat (destruct H as [H|H]; [discriminate H|]); exact H.
Qed.

Lemma nonempty_invalid (errors : list str) (e : str) :
  In e errors -> (length errors =? 0) = false.
Proof. destruct errors; simpl; [contradiction | reflexivity]. Qed.

(** *** [repr] of an excerpt *)

Lemma repr_char_plain (quote c : char) :
  plain c = true -> repr_char isprintable quote c = [c] \/ c = quote.
Proof.
  unfold plain, repr_char, QUOTE, DQUOTE, BACKSLASH.
  rewrite !andb_true_iff, !negb_true_iff.
  intros ((((Hlo & Hhi) & Hq) & Hdq) & Hb).
  apply N.leb_le in Hlo; apply N.ltb_lt in Hhi; apply N.eqb_neq in Hb.
  destruct (N.eqb_spec c quote) as [|Hne]; [right; assumption | left].
  destruct (N.eqb_spec c 92); [contradiction|]; simpl orb; cbv iota.
  destruct (N.eqb_spec c 9); [lia|].
  destruct (N.eqb_spec c 10); [lia|].
  destruct (N.eqb_spec c 13); [lia|].
  destruct (N.ltb_spec c 32); [lia|].
  destruct (N.eqb_spec c 127); [lia|]; simpl orb; cbv iota.
  destruct (N.ltb_spec c 127); [reflexivity | lia].
Qed.

Lemma plain_not_quote (s : str) :
  forallb plain s = true -> mem QUOTE s = false.
Proof.
  unfold mem; induction s as [|c s IH]; cbn [existsb forallb];
    [reflexivity|].
  rewrite andb_true_iff; intros [Hc Hs]; rewrite (IH Hs), orb_false_r.
  unfold plain in Hc; rewrite !andb_true_iff, !negb_true_iff in Hc.
  destruct Hc as (((_ & Hq) & _) & _).
  rewrite N.eqb_sym; exact Hq.
Qed.

(** An excerpt of plain characters is shown as it is, between quotes. *)
Lemma repr_plain (s : str) :
  forallb plain s = true -> repr isprintable s = [QUOTE] ++ s ++ [QUOTE].
Proof.
  intros Hs; unfold repr, repr_quote.
  rewrite (plain_not_quote s Hs); simpl andb; cbv iota.
  f_equal; f_equal.
  induction s as [|c s IH]; simpl; [reflexivity|].
  simpl in Hs; apply andb_true_iff in Hs as [Hc Hs].
  destruct (repr_char_plain QUOTE c Hc) as [-> | ->].
  - simpl; f_equal; apply IH; exact Hs.
  - discriminate Hc.
Qed.

Lemma flat_map_repr_plain (s : str) :
  forallb plain s = true -> flat_map (repr_char isprintable QUOTE) s = s.
Proof.
  induction s as [|c s IH]; simpl; [reflexivity|].
  rewrite andb_true_iff; intros [Hc Hs].
  destruct (repr_char_plain QUOTE c Hc) as [-> | ->].
  - simpl; f_equal; apply IH; exact Hs.
  - discriminate Hc.
Qed.

Lemma mem_app (c : char) (a b : str) : mem c (a ++ b) = mem c a || mem c b.
Proof. unfold mem; apply existsb_app. Qed.

(** A line of plain characters with its line feed is shown with the line
    feed as a backslash and an [n]. *)
Lemma repr_plain_line (body : str) :
  forallb plain body = true ->
  repr isprintable (body ++ [LF]) = [QUOTE] ++ body ++ lit "\n" ++ [QUOTE].
Proof.
  intros Hs; unfold repr, repr_quote.
  assert (Hq : mem QUOTE (body ++ [LF]) = false).
  { rewrite mem_app, (plain_not_quote body Hs); reflexivity. }
  rewrite Hq; simpl andb; cbv iota.
  rewrite flat_map_app, (flat_map_repr_plain body Hs).
  rewrite <- !app_assoc; reflexivity.
Qed.

Lemma includes_line_number (n : nat) (excerpt : str) :
  includes (E_NOT_HEADING isprintable n excerpt) (of_nat n).
Proof.
  exists (lit "Content does not start with heading '#' " ++ lit "(line "),
         (lit " starts with: " ++ repr isprintable excerpt ++ lit ")").
  unfold E_NOT_HEADING; rewrite <- app_assoc; reflexivity.
Qed.

Lemma includes_repr (n : nat) (excerpt : str) :
  includes (E_NOT_HEADING isprintable n excerpt) (repr isprintable excerpt).
Proof.
  exists (lit "Content does not start with heading '#' " ++ lit "(line "
          ++ of_nat n ++ lit " starts with: "), (lit ")").
  unfold E_NOT_HEADING; rewrite <- !app_assoc; reflexivity.
Qed.

Lemma includes_quoted (n : nat) (excerpt shown : str) :
  repr isprintable excerpt = shown ->
  includes (E_NOT_HEADING isprintable n excerpt) shown.
Proof. intros <-; apply includes_repr. Qed.

(** *** The claims of the specification *)

(** C2, amended: past the structural phase the validator requires the key
    [alwaysApply] (so spelled): when the key is missing the document is
    rejected with the missing-field defect; when its value is not a
    boolean, a string such as [true] or an integer such as [1] included,
    the document is rejected with the wrong-type defect; when its value is
    a boolean neither defect is reported.  The example with [alwaysApply]
    given as the string [true] is rejected with exactly the wrong-type
    defect, for every decoder that reads its frontmatter as YAML does. *)
Theorem alwaysApply_required_boolean :
  (forall content d,
      passes_structure safe_load content d ->
      exists errors,
        validate_text content = Return (length errors =? 0, errors)
        /\ (dict_get d (lit "alwaysApply") = None ->
            In E_ALWAYS_MISSING errors /\ (length errors =? 0) = false)
        /\ (forall v,
               dict_get d (lit "alwaysApply") = Some v ->
               isinstance_bool v = false ->
               In E_ALWAYS_TYPE errors /\ (length errors =? 0) = false)
        /\ (forall b,
               dict_get d (lit "alwaysApply") = Some (PBool b) ->
               ~ In E_ALWAYS_MISSING errors /\ ~ In E_ALWAYS_TYPE errors))
  /\ isinstance_bool (PStr (lit "true")) = false
  /\ isinstance_bool (PInt 1) = false
  /\ (safe_load string_flag_frontmatter_text =
        Loaded (PDict string_flag_frontmatter) ->
      validate_text string_flag_text = Return (false, [E_ALWAYS_TYPE])).
Proof.
  split; [|split; [reflexivity | split; [reflexivity|]]].
  - intros content d Hstruct.
    eexists; split; [apply (validate_structured Hstruct)|].
    split; [|split].
    + intros Hget.
      assert (Hin : In E_ALWAYS_MISSING
                      (schema_errors d ++
                       formatting_errors (splitlines content))).
      { apply alwaysApply_defect_origin; [left; reflexivity|].
        unfold check_alwaysApply; rewrite Hget; left; reflexivity. }
      split; [exact Hin | apply (nonempty_invalid _ _ Hin)].
    + intros v Hget Hv.
      assert (Hin : In E_ALWAYS_TYPE
                      (schema_errors d ++
                       formatting_errors (splitlines content))).
      { apply alwaysApply_defect_origin; [right; reflexivity|].
        unfold check_alwaysApply; rewrite Hget, Hv; left; reflexivity. }
      split; [exact Hin | apply (nonempty_invalid _ _ Hin)].
    + intros b Hget; split; intros Hin;
        apply alwaysApply_defect_origin in Hin; auto;
        unfold check_alwaysApply in Hin; rewrite Hget in Hin; exact Hin.
  - intros Hload.
    assert (Hstruct : passes_structure safe_load string_flag_text
                        string_flag_frontmatter).
    { repeat split; [apply Nat.leb_le; reflexivity | exact Hload]. }
    rewrite (validate_structured Hstruct); reflexivity.
Qed.

(** C3, amended: past the structural phase the [globs] field passes as
    soon as it is a list, whatever its elements are: the wrong-type defect
    is reported exactly when the value of [globs] is not a list, and the
    missing-field defect exactly when the key is missing. *)
Theorem globs_only_list_typed :
  forall content d,
    passes_structure safe_load content d ->
    exists errors,
      validate_text content = Return (length errors =? 0, errors)
      /\ (In E_GLOBS_TYPE errors <->
          exists v, dict_get d (lit "globs") = Some v
                    /\ isinstance_list v = false)
      /\ (In E_GLOBS_MISSING errors <-> dict_get d (lit "globs") = None)
      /\ (forall elements,
             dict_get d (lit "globs") = Some (PList elements) ->
             ~ In E_GLOBS_TYPE errors /\ ~ In E_GLOBS_MISSING errors).
Proof.
  intros content d Hstruct.
  eexists; split; [apply (validate_structured Hstruct)|].
  assert (Htype : In E_GLOBS_TYPE (check_globs d []) <->
                  exists v, dict_get d (lit "globs") = Some v
                            /\ isinstance_list v = false).
  { unfold check_globs.
    destruct (dict_get d (lit "globs")) as [v|].
    - destruct (isinstance_list v) eqn:E; simpl; split.
      + contradiction.
      + intros (v' & Hv' & Hl); inversion Hv'; subst; congruence.
      + intros _; exists v; auto.
      + intros _; left; reflexivity.
    - simpl; split.
      + intros [H|[]]; discriminate H.
      + intros (v & Hv & _); discriminate Hv. }
  assert (Hmiss : In E_GLOBS_MISSING (check_globs d []) <->
                  dict_get d (lit "globs") = None).
  { unfold check_globs.
    destruct (dict_get d (lit "globs")) as [v|].
    - destruct (isinstance_list v); simpl; split;
        try discriminate; try contradiction.
      intros [H|[]]; discriminate H.
    - simpl; split; [reflexivity | intros _; left; reflexivity]. }
  split; [|split].
  - rewrite globs_defect_origin by (right; reflexivity); exact Htype.
  - rewrite globs_defect_origin by (left; reflexivity); exact Hmiss.
  - intros elements Hget.
    rewrite !globs_defect_origin by (auto; right; reflexivity).
    rewrite Htype, Hmiss, Hget; split.
    + intros (v & Hv & Hl); inversion Hv; subst; discriminate Hl.
    + discriminate.
Qed.

(** C4, amended: when the line two places after the closing delimiter
    line, that is the line of 1-based number [N = i + 3], does not start
    with [#] once stripped, the document is rejected with a formatting
    defect whose message holds [N] in decimal and the first 50 characters
    of that line as [repr] shows them: between single quotes and as they
    are when they are printable ASCII characters other than quotes and the
    backslash; and a line shorter than 50 characters, which keeps its line
    feed, with this line feed shown as a backslash and an [n]. *)
Theorem heading_defect_shows_line :
  forall content d i first_content_line,
    passes_structure safe_load content d ->
    closing_dash_idx (splitlines content) = Some i ->
    nth_error (splitlines content) (i + 2) = Some first_content_line ->
    startswith (lit "#") (strip first_content_line) = false ->
    exists errors message,
      validate_text content = Return (false, errors)
      /\ In message errors
      /\ message =
         E_NOT_HEADING isprintable (i + 3) (firstn 50 first_content_line)
      /\ includes message (of_nat (i + 3))
      /\ includes message (repr isprintable (firstn 50 first_content_line))
      /\ (forallb plain (firstn 50 first_content_line) = true ->
          includes message
            ([QUOTE] ++ firstn 50 first_content_line ++ [QUOTE]))
      /\ (forall body,
            first_content_line = body ++ [LF] ->
            length body < 50 ->
            forallb plain body = true ->
            includes message ([QUOTE] ++ body ++ lit "\n" ++ [QUOTE])).
Proof.
  intros content d i line Hstruct Hi Hline Hhead.
  assert (Hnext : exists next_line,
             nth_error (splitlines content) (i + 1) = Some next_line).
  { destruct (nth_error (splitlines content) (i + 1)) as [l|] eqn:E;
      [exists l; reflexivity|].
    apply nth_error_None in E.
    assert (i + 2 < length (splitlines content))
      by (apply nth_error_Some; rewrite Hline; discriminate).
    lia. }
  destruct Hnext as [next_line Hnext].
  assert (Hin : In (E_NOT_HEADING isprintable (i + 3) (firstn 50 line))
                  (schema_errors d ++ formatting_errors (splitlines content))).
  { rewrite (formatting_found _ Hi Hnext), Hline.
    unfold heading_verdict; rewrite Hhead.
    rewrite !in_app_iff; right; right; left; reflexivity. }
  exists (schema_errors d ++ formatting_errors (splitlines content)),
         (E_NOT_HEADING isprintable (i + 3) (firstn 50 line)).
  split.
  { rewrite (validate_structured Hstruct), (nonempty_invalid _ _ Hin).
    reflexivity. }
  split; [exact Hin|].
  split; [reflexivity|].
  split; [apply includes_line_number|].
  split; [apply includes_repr|].
  split.
  - intros Hplain; apply includes_quoted, repr_plain; exact Hplain.
  - intros body -> Hlen Hplain.
    rewrite firstn_all2 by (rewrite length_app; simpl; lia).
    apply includes_quoted, repr_plain_line; exact Hplain.
Qed.

(** C5: past the structural phase, when no line after the first is [---]
    once stripped, the document is rejected with the defects of the three
    schema checks followed by the could-not-find-closing-delimiter defect
    and nothing else: only the blank-line and heading checks are
    skipped. *)
Theorem no_closing_line_keeps_schema_defects :
  forall content d,
    passes_structure safe_load content d ->
    closing_dash_idx (splitlines content) = None ->
    validate_text content =
    Return (false,
            (check_description d [] ++ check_globs d []
             ++ check_alwaysApply d []) ++ [E_NO_CLOSING_LINE]).
Proof.
  intros content d Hstruct Hnone.
  rewrite (validate_structured Hstruct).
  rewrite (formatting_no_closing _ Hnone), schema_errors_eq.
  rewrite (nonempty_invalid _ E_NO_CLOSING_LINE);
    [reflexivity | apply in_app_iff; right; left; reflexivity].
Qed.


(** C7: a text that starts with the delimiter and that splitting on the
    delimiter, at most twice, cuts in fewer than three parts is rejected
    with exactly one defect, the missing-closing-delimiter one. *)
Theorem missing_closing_delimiter :
  forall content,
    startswith DELIM content = true ->
    length (split DELIM 2 content) < 3 ->
    validate_text content = Return (false, [E_MISSING_CLOSING]).
Proof.
  intros content Hstart Hparts.
  unfold validate_mdc_text.
  rewrite Hstart; simpl negb; cbv iota.
  apply Nat.ltb_lt in Hparts; rewrite Hparts; reflexivity.
Qed.

(** C8: whatever reading the file gave, when the validator returns, the
    validity it returns is true exactly when the list of defects it returns
    is empty; it fails to return only when the decoder raises something
    else than a YAML error. *)
Theorem valid_iff_no_defect :
  forall file,
    match validate_mdc_file safe_load isprintable file with
    | Return (is_valid, errors) => is_valid = true <-> errors = []
    | Raise e =>
        exists content,
          file = ReadOk content
          /\ safe_load (nth 1 (split DELIM 2 content) []) = RaisedOther e
    end.
Proof.
  intros [content|e]; cbn [validate_mdc_file]; [|split; discriminate].
  unfold validate_mdc_text.
  destruct (startswith DELIM content); simpl negb; cbv iota;
    [|split; discriminate].
  destruct (length (split DELIM 2 content) <? 3); [split; discriminate|].
  destruct (safe_load (nth 1 (split DELIM 2 content) [])) as [v|e|e] eqn:E.
  - destruct v; try (split; discriminate).
    apply length_eqb_0.
  - split; discriminate.
  - exists content; auto.
Qed.

(** C9: past the structural phase, when the closing delimiter line has
    index [i] and a line follows it, the defects of the formatting checks
    are the verdict on that line followed by the verdict on the line of
    index [i + 2], of 1-based number [i + 3], whether or not the line in
    between is blank; when it is not blank and the line after it is not a
    heading, both defects are reported, in that order. *)
Theorem heading_checked_at_fixed_line :
  forall content d i next_line,
    passes_structure safe_load content d ->
    closing_dash_idx (splitlines content) = Some i ->
    nth_error (splitlines content) (i + 1) = Some next_line ->
    (exists errors,
        validate_text content = Return (length errors =? 0, errors)
        /\ errors =
           schema_errors d ++ blank_verdict (i + 2) next_line
           ++ heading_verdict isprintable (i + 3)
                (nth_error (splitlines content) (i + 2)))
    /\ (forall first_content_line,
          strip next_line <> [] ->
          nth_error (splitlines content) (i + 2) = Some first_content_line ->
          startswith (lit "#") (strip first_content_line) = false ->
          validate_text content =
          Return (false,
                  schema_errors d
                  ++ [E_NOT_BLANK (i + 2);
                      E_NOT_HEADING isprintable (i + 3)
                        (firstn 50 first_content_line)])).
Proof.
  intros content d i next_line Hstruct Hi Hnext.
  split.
  - eexists; split; [apply (validate_structured Hstruct)|].
    rewrite (formatting_found _ Hi Hnext); reflexivity.
  - intros line Hblank Hline Hhead.
    rewrite (validate_structured Hstruct).
    rewrite (formatting_found _ Hi Hnext), Hline.
    unfold blank_verdict, heading_verdict; rewrite Hhead.
    destruct (strip next_line) as [|c rest]; [contradiction|].
    rewrite (nonempty_invalid _ (E_NOT_BLANK (i + 2)));
      [reflexivity | apply in_app_iff; right; left; reflexivity].
Qed.

End Properties.

(** ** Where the delimiter is found *)

Lemma startswith_firstn (p s : str) :
  startswith p s = startswith p (firstn (length p) s).
Proof.
  revert s; induction p as [|x p IH]; intros [|y s]; simpl; auto.
  rewrite <- IH; reflexivity.
Qed.

(** The delimiter is found right after a text in which, followed by two
    dashes, it does not occur. *)
Lemma find_delim_app (m tail : str) :
  find DELIM (m ++ lit "--") = None ->
  find DELIM (m ++ DELIM ++ tail) = Some (m, tail).
Proof.
  induction m as [|c m IH]; [reflexivity|].
  intros H.
  change (find DELIM ((c :: m) ++ lit "--")) with
    (if startswith DELIM (c :: m ++ lit "--") then
       Some ([] : str, skipn (length DELIM) (c :: m ++ lit "--"))
     else match find DELIM (m ++ lit "--") with
          | Some (before, after) => Some (c :: before, after)
          | None => None
          end) in H.
  destruct (startswith DELIM (c :: m ++ lit "--")) eqn:E; [discriminate|].
  destruct (find DELIM (m ++ lit "--")) as [[b a]|] eqn:F; [discriminate|].
  change (find DELIM ((c :: m) ++ DELIM ++ tail)) with
    (if startswith DELIM (c :: m ++ DELIM ++ tail) then
       Some ([] : str, skipn (length DELIM) (c :: m ++ DELIM ++ tail))
     else match find DELIM (m ++ DELIM ++ tail) with
          | Some (before, after) => Some (c :: before, after)
          | None => None
          end).
  rewrite (IH eq_refl).
  assert (E' : startswith DELIM (c :: m ++ DELIM ++ tail) = false).
  { rewrite startswith_firstn; rewrite startswith_firstn in E.
    rewrite <- E; f_equal.
    destruct m as [|c2 [|c3 m]]; reflexivity. }
  rewrite E'; reflexivity.
Qed.

(** What [strip] returns is a part of the text. *)
Lemma lstrip_suffix (s : str) : exists a, s = a ++ lstrip s.
Proof.
  induction s as [|c s [a IH]]; [exists []; reflexivity|].
  simpl; destruct (isspace c).
  - exists (c :: a); simpl; f_equal; exact IH.
  - exists []; reflexivity.
Qed.

Lemma rstrip_prefix (s : str) : exists b, s = rstrip s ++ b.
Proof.
  unfold rstrip; destruct (lstrip_suffix (rev s)) as [a Ha].
  exists (rev a).
  rewrite <- rev_app_distr, <- Ha, rev_involutive; reflexivity.
Qed.

Lemma strip_includes (s : str) : includes s (strip s).
Proof.
  unfold strip, includes.
  destruct (lstrip_suffix s) as [a Ha].
  destruct (rstrip_prefix (lstrip s)) as [b Hb].
  exists a, b; rewrite <- Hb; exact Ha.
Qed.

(** [find] misses no occurrence. *)
Lemma find_complete (sep s : str) : includes s sep -> find sep s <> None.
Proof.
  intros (a & b & ->).
  induction a as [|c a IH].
  - pose proof (startswith_app sep b) as H.
    simpl app; destruct (sep ++ b); simpl; rewrite H; discriminate.
  - change (find sep ((c :: a) ++ sep ++ b)) with
      (if startswith sep (c :: a ++ sep ++ b) then
         Some ([] : str, skipn (length sep) (c :: a ++ sep ++ b))
       else match find sep (a ++ sep ++ b) with
            | Some (before, after) => Some (c :: before, after)
            | None => None
            end).
    destruct (startswith sep (c :: a ++ sep ++ b)); [discriminate|].
    destruct (find sep (a ++ sep ++ b)) as [[x y]|];
      [discriminate | contradiction].
Qed.

Lemma includes_trans (s t u : str) :
  includes s t -> includes t u -> includes s u.
Proof.
  intros (a & b & ->) (a' & b' & ->).
  exists (a ++ a'), (b' ++ b); rewrite <- !app_assoc; reflexivity.
Qed.

(** ** The claims on the example documents

    The decoder is [MiniYaml.safe_load] from here on. *)

(** The example document has no key [always_apply] and is returned valid;
    with the flag under the key [always_apply] it is rejected for want of
    [alwaysApply]. *)
Lemma always_apply_key_not_required :
  MiniYaml.safe_load example_frontmatter_text =
  Loaded (PDict example_frontmatter)
  /\ dict_get example_frontmatter (lit "always_apply") = None
  /\ validate example_text = Return (true, [])
  /\ validate snake_key_text = Return (false, [E_ALWAYS_MISSING]).
Proof. repeat split. Qed.

Lemma alwaysApply_required_boolean_witness :
  passes_structure MiniYaml.safe_load string_flag_text string_flag_frontmatter
  /\ dict_get string_flag_frontmatter (lit "alwaysApply") =
     Some (PStr (lit "true"))
  /\ validate string_flag_text = Return (false, [E_ALWAYS_TYPE])
  /\ exists errors,
       validate string_flag_text = Return (length errors =? 0, errors)
       /\ In E_ALWAYS_TYPE errors.
Proof.
  assert (Hstruct : passes_structure MiniYaml.safe_load string_flag_text
                      string_flag_frontmatter).
  { repeat split; apply Nat.leb_le; reflexivity. }
  destruct (alwaysApply_required_boolean MiniYaml.safe_load
              MiniYaml.isprintable) as (general & Hstr & _ & example).
  split; [exact Hstruct | split; [reflexivity | split]].
  - exact (example eq_refl).
  - destruct (general string_flag_text string_flag_frontmatter Hstruct)
      as (errors & Hret & _ & Htype & _).
    exists errors; split; [exact Hret|].
    exact (proj1 (Htype (PStr (lit "true")) eq_refl Hstr)).
Defined.

(** A document whose [globs] holds a number, which is no string, is
    returned valid. *)
Lemma number_glob_accepted :
  MiniYaml.safe_load number_glob_frontmatter_text =
  Loaded (PDict number_glob_frontmatter)
  /\ dict_get number_glob_frontmatter (lit "globs") = Some (PList [PInt 1])
  /\ isinstance_str (PInt 1) = false
  /\ validate number_glob_text = Return (true, []).
Proof. repeat split. Qed.

Lemma globs_only_list_typed_witness :
  passes_structure MiniYaml.safe_load number_glob_text number_glob_frontmatter
  /\ exists errors,
       validate number_glob_text = Return (length errors =? 0, errors)
       /\ ~ In E_GLOBS_TYPE errors /\ ~ In E_GLOBS_MISSING errors.
Proof.
  assert (Hstruct : passes_structure MiniYaml.safe_load number_glob_text
                      number_glob_frontmatter).
  { repeat split; apply Nat.leb_le; reflexivity. }
  split; [exact Hstruct|].
  destruct (globs_only_list_typed MiniYaml.isprintable Hstruct)
    as (errors & Hret & _ & _ & Hlist).
  exists errors; split; [exact Hret | exact (Hlist [PInt 1] eq_refl)].
Defined.

Lemma heading_defect_shows_line_witness :
  passes_structure MiniYaml.safe_load not_heading_text example_frontmatter
  /\ closing_dash_idx (splitlines not_heading_text) = Some 4
  /\ nth_error (splitlines not_heading_text) 6 =
     Some (lit "Not a heading" ++ [LF])
  /\ startswith (lit "#") (strip (lit "Not a heading" ++ [LF])) = false
  /\ exists errors message,
       validate not_heading_text = Return (false, errors)
       /\ In message errors
       /\ includes message (lit "7")
       /\ includes message (lit "'Not a heading\n'").
Proof.
  assert (Hstruct : passes_structure MiniYaml.safe_load not_heading_text
                      example_frontmatter).
  { repeat split; apply Nat.leb_le; reflexivity. }
  split; [exact Hstruct | repeat (split; [reflexivity|])].
  destruct (@heading_defect_shows_line MiniYaml.safe_load MiniYaml.isprintable
              not_heading_text example_frontmatter 4
              (lit "Not a heading" ++ [LF]) Hstruct eq_refl eq_refl eq_refl)
    as (errors & message & Hret & Hin & _ & Hnum & _ & _ & Hline).
  exists errors, message.
  split; [exact Hret | split; [exact Hin | split; [exact Hnum|]]].
  apply (Hline (lit "Not a heading") eq_refl);
    [apply Nat.ltb_lt; reflexivity | reflexivity].
Defined.

(** The message does not hold the first 50 characters of the line as they
    are: the line of the example of the specification keeps its line feed,
    which the message shows as a backslash and an [n]; and a tab inside a
    line is shown as a backslash and a [t]. *)
Lemma excerpt_not_verbatim :
  nth_error (splitlines not_heading_text) 6 =
  Some (lit "Not a heading" ++ [LF])
  /\ validate not_heading_text =
     Return (false,
             [E_NOT_HEADING MiniYaml.isprintable 7
                (firstn 50 (lit "Not a heading" ++ [LF]))])
  /\ ~ includes
        (E_NOT_HEADING MiniYaml.isprintable 7
           (firstn 50 (lit "Not a heading" ++ [LF])))
        (firstn 50 (lit "Not a heading" ++ [LF]))
  /\ nth_error (splitlines tabbed_line_text) 6 =
     Some (lit "Not" ++ [9%N] ++ lit "a heading" ++ [LF])
  /\ validate tabbed_line_text =
     Return (false,
             [E_NOT_HEADING MiniYaml.isprintable 7
                (firstn 50 (lit "Not" ++ [9%N] ++ lit "a heading" ++ [LF]))])
  /\ ~ includes
        (E_NOT_HEADING MiniYaml.isprintable 7
           (firstn 50 (lit "Not" ++ [9%N] ++ lit "a heading" ++ [LF])))
        (lit "Not" ++ [9%N] ++ lit "a heading").
Proof.
  split; [reflexivity | split; [reflexivity | split]].
  - intros H; apply find_complete in H; apply H; vm_compute; reflexivity.
  - split; [reflexivity | split; [reflexivity|]].
    intros H; apply find_complete in H; apply H; vm_compute; reflexivity.
Qed.

Lemma no_closing_line_keeps_schema_defects_witness :
  passes_structure MiniYaml.safe_load trailing_text trailing_frontmatter
  /\ closing_dash_idx (splitlines trailing_text) = None
  /\ validate trailing_text =
     Return (false, [E_DESC_TYPE; E_GLOBS_TYPE; E_ALWAYS_MISSING;
                     E_NO_CLOSING_LINE]).
Proof.
  assert (Hstruct : passes_structure MiniYaml.safe_load trailing_text
                      trailing_frontmatter).
  { repeat split; apply Nat.leb_le; reflexivity. }
  split; [exact Hstruct | split; [reflexivity|]].
  exact (@no_closing_line_keeps_schema_defects MiniYaml.safe_load
           MiniYaml.isprintable trailing_text trailing_frontmatter
           Hstruct eq_refl).
Defined.


Lemma missing_closing_delimiter_witness :
  startswith DELIM unclosed_text = true
  /\ length (split DELIM 2 unclosed_text) < 3
  /\ validate unclosed_text = Return (false, [E_MISSING_CLOSING]).
Proof.
  assert (Hparts : length (split DELIM 2 unclosed_text) < 3)
    by (apply Nat.ltb_lt; reflexivity).
  split; [reflexivity | split; [exact Hparts|]].
  exact (@missing_closing_delimiter MiniYaml.safe_load MiniYaml.isprintable
           unclosed_text eq_refl Hparts).
Defined.

Lemma heading_checked_at_fixed_line_witness :
  passes_structure MiniYaml.safe_load crowded_text example_frontmatter
  /\ closing_dash_idx (splitlines crowded_text) = Some 4
  /\ nth_error (splitlines crowded_text) 5 = Some (lit "intro" ++ [LF])
  /\ strip (lit "intro" ++ [LF]) <> []
  /\ nth_error (splitlines crowded_text) 6 =
     Some (lit "Not a heading" ++ [LF])
  /\ startswith (lit "#") (strip (lit "Not a heading" ++ [LF])) = false
  /\ validate crowded_text =
     Return (false,
             [E_NOT_BLANK 6;
              E_NOT_HEADING MiniYaml.isprintable 7
                (lit "Not a heading" ++ [LF])]).
Proof.
  assert (Hstruct : passes_structure MiniYaml.safe_load crowded_text
                      example_frontmatter).
  { repeat split; apply Nat.leb_le; reflexivity. }
  assert (Hblank : strip (lit "intro" ++ [LF]) <> []) by discriminate.
  split; [exact Hstruct|].
  split; [reflexivity | split; [reflexivity | split; [exact Hblank|]]].
  split; [reflexivity | split; [reflexivity|]].
  exact (proj2 (@heading_checked_at_fixed_line MiniYaml.safe_load
                  MiniYaml.isprintable crowded_text example_frontmatter 4
                  (lit "intro" ++ [LF]) Hstruct eq_refl eq_refl)
           (lit "Not a heading" ++ [LF]) Hblank eq_refl eq_refl).
Defined.

(** * Further properties of the code *)

(** ** What [strip] removes *)

Lemma lstrip_spaces (ws s : str) :
  forallb isspace ws = true -> lstrip (ws ++ s) = lstrip s.
Proof.
  induction ws as [|c ws IH]; simpl; [reflexivity|].
  intros H; apply andb_true_iff in H as [Hc Hws]; rewrite Hc; auto.
Qed.

Lemma lstrip_nil_iff (s : str) : lstrip s = [] <-> forallb isspace s = true.
Proof.
  induction s as [|c s IH]; simpl; [tauto|].
  destruct (isspace c); simpl; [exact IH | split; discriminate].
Qed.

(** What [lstrip] drops is whitespace, and what it leaves does not start
    with whitespace. *)
Lemma lstrip_spec (s : str) :
  exists ws, s = ws ++ lstrip s /\ forallb isspace ws = true
             /\ match lstrip s with
                | [] => True
                | c :: _ => isspace c = false
                end.
Proof.
  induction s as [|c s (ws & Hs & Hws & Hhead)].
  - exists []; repeat split.
  - simpl; destruct (isspace c) eqn:E.
    + exists (c :: ws); simpl; rewrite E, Hws.
      repeat split; [f_equal; exact Hs | exact Hhead].
    + exists []; repeat split; exact E.
Qed.

Lemma forallb_rev (A : Type) (p : A -> bool) (l : list A) :
  forallb p (rev l) = forallb p l.
Proof.
  induction l as [|x l IH]; simpl; [reflexivity|].
  rewrite forallb_app, IH; simpl; rewrite andb_true_r, andb_comm; reflexivity.
Qed.

Lemma rstrip_nil_iff (s : str) : rstrip s = [] <-> forallb isspace s = true.
Proof.
  unfold rstrip; rewrite <- (forallb_rev isspace s), <- lstrip_nil_iff.
  split; intros H.
  - apply (f_equal (@rev char)) in H; rewrite rev_involutive in H; exact H.
  - rewrite H; reflexivity.
Qed.

Lemma rstrip_spec (s : str) :
  exists ws, s = rstrip s ++ ws /\ forallb isspace ws = true
             /\ match rev (rstrip s) with
                | [] => True
                | c :: _ => isspace c = false
                end.
Proof.
  unfold rstrip; destruct (lstrip_spec (rev s)) as (ws & Hs & Hws & Hhead).
  exists (rev ws); rewrite rev_involutive, forallb_rev.
  repeat split; [|exact Hws | exact Hhead].
  rewrite <- rev_app_distr, <- Hs, rev_involutive; reflexivity.
Qed.

Lemma rstrip_spaces (s ws : str) :
  forallb isspace ws = true -> rstrip (s ++ ws) = rstrip s.
Proof.
  intros H; unfold rstrip; rewrite rev_app_distr, lstrip_spaces;
    [reflexivity | rewrite forallb_rev; exact H].
Qed.

Lemma lstrip_fixed (c : char) (s : str) :
  isspace c = false -> lstrip (c :: s) = c :: s.
Proof. intros H; simpl; rewrite H; reflexivity. Qed.

Lemma rstrip_fixed (s : str) (c : char) :
  isspace c = false -> rstrip (s ++ [c]) = s ++ [c].
Proof.
  intros H; unfold rstrip; rewrite rev_app_distr; simpl; rewrite H.
  simpl; rewrite rev_involutive; reflexivity.
Qed.

(** [rstrip] keeps the first character of a text that starts with no
    whitespace. *)
Lemma rstrip_head (c : char) (s : str) :
  isspace c = false -> exists t, rstrip (c :: s) = c :: t.
Proof.
  intros Hc.
  destruct (rstrip_spec (c :: s)) as (ws & Hs & Hws & _).
  destruct (rstrip (c :: s)) as [|x t] eqn:E.
  - simpl in Hs; subst ws; simpl in Hws; rewrite Hc in Hws; discriminate.
  - exists t; simpl in Hs; inversion Hs; reflexivity.
Qed.

(** Stripping leaves nothing exactly when all the characters, a line end
    included, are whitespace. *)
Lemma strip_nil_iff (s : str) : strip s = [] <-> forallb isspace s = true.
Proof.
  unfold strip; rewrite rstrip_nil_iff.
  destruct (lstrip_spec s) as (ws & Hs & Hws & Hhead).
  split; intros H.
  - destruct (lstrip s) as [|c t] eqn:E.
    + apply lstrip_nil_iff; exact E.
    + simpl in H; rewrite Hhead in H; discriminate.
  - apply lstrip_nil_iff in H; rewrite H; reflexivity.
Qed.

(** ** The three tests of a line *)

Section LineTests.

Variable isprintable : char -> bool.

(** The verdict on a line is empty exactly when its first character that is
    no whitespace is [#]. *)
Lemma heading_iff_first_visible (line : str) (line_number : nat) :
  heading_verdict isprintable line_number (Some line) = [] <->
  exists ws rest,
    line = ws ++ 35%N :: rest /\ forallb isspace ws = true.
Proof.
  unfold heading_verdict, strip.
  destruct (lstrip_spec line) as (ws & Hline & Hws & Hhead).
  split.
  - destruct (lstrip line) as [|c t] eqn:E; [discriminate|].
    destruct (rstrip_head c t Hhead) as [t' Ht]; rewrite Ht.
    change (lit "#") with [35%N]; cbn [startswith].
    destruct (N.eqb_spec 35 c) as [<-|]; cbn [andb]; [|discriminate].
    intros _; exists ws, t; auto.
  - intros (ws' & rest & -> & Hws').
    rewrite (lstrip_spaces ws' _ Hws'), lstrip_fixed by reflexivity.
    destruct (@rstrip_head 35%N rest eq_refl) as [t' Ht]; rewrite Ht.
    reflexivity.
Qed.

(** The blank-line check passes a line exactly when all its characters are
    whitespace. *)
Lemma blank_iff_whitespace (line : str) (line_number : nat) :
  blank_verdict line_number line = [] <-> forallb isspace line = true.
Proof.
  rewrite <- strip_nil_iff; unfold blank_verdict.
  destruct (strip line); split; congruence.
Qed.

(** X7: a line is taken for the delimiter exactly when it is the three
    dashes with whitespace, and nothing else, before and after. *)
Theorem delimiter_line_iff (line : str) :
  strip line = DELIM <->
  exists ws1 ws2,
    line = ws1 ++ DELIM ++ ws2
    /\ forallb isspace ws1 = true /\ forallb isspace ws2 = true.
Proof.
  split.
  - intros H; unfold strip in H.
    destruct (lstrip_spec line) as (ws1 & Hline & Hws1 & _).
    destruct (rstrip_spec (lstrip line)) as (ws2 & Hl & Hws2 & _).
    exists ws1, ws2; rewrite H in Hl; rewrite <- Hl; auto.
  - intros (ws1 & ws2 & -> & Hws1 & Hws2).
    unfold strip; rewrite (lstrip_spaces ws1 _ Hws1).
    change (DELIM ++ ws2) with (45%N :: (lit "--" ++ ws2)).
    rewrite lstrip_fixed by reflexivity.
    change (45%N :: (lit "--" ++ ws2)) with (DELIM ++ ws2).
    rewrite (rstrip_spaces _ ws2 Hws2); reflexivity.
Qed.

End LineTests.

(** ** The scan for the closing delimiter line *)

Lemma closing_dash_from_Some (lines : list str) (i k : nat) :
  closing_dash_from i lines = Some k ->
  i <= k /\ 0 < k
  /\ (exists line, nth_error lines (k - i) = Some line /\ strip line = DELIM)
  /\ (forall j line,
         j < k - i -> 0 < i + j -> nth_error lines j = Some line ->
         strip line <> DELIM).
Proof.
  revert i; induction lines as [|l lines IH]; intros i; simpl; [discriminate|].
  destruct ((0 <? i) && eqb (strip l) DELIM) eqn:E.
  - intros H; inversion H; subst k.
    apply andb_true_iff in E as [Hi Hl].
    apply Nat.ltb_lt in Hi; apply eqb_eq in Hl.
    split; [lia | split; [lia | split]].
    + exists l; rewrite Nat.sub_diag; auto.
    + intros j line Hj; lia.
  - intros H; apply IH in H as (Hik & Hk & (line & Hn & Hline) & Hmin).
    split; [lia | split; [lia | split]].
    + exists line; split; [|exact Hline].
      replace (k - i) with (S (k - S i)) by lia; exact Hn.
    + intros [|j] line' Hj Hpos Hn'.
      * simpl in Hn'; inversion Hn'; subst line'.
        intros Heq; apply eqb_eq in Heq.
        rewrite Heq, andb_true_r in E.
        apply Nat.ltb_ge in E; lia.
      * simpl in Hn'; apply (Hmin j line'); [lia | lia | exact Hn'].
Qed.

Lemma closing_dash_from_None (lines : list str) (i : nat) :
  closing_dash_from i lines = None ->
  forall j line,
    0 < i + j -> nth_error lines j = Some line -> strip line <> DELIM.
Proof.
  revert i; induction lines as [|l lines IH]; intros i; simpl.
  - intros _ [|j] line _ H; discriminate H.
  - destruct ((0 <? i) && eqb (strip l) DELIM) eqn:E; [discriminate|].
    intros H [|j] line Hpos Hn.
    + simpl in Hn; inversion Hn; subst line.
      intros Heq; apply eqb_eq in Heq.
      rewrite Heq, andb_true_r in E.
      apply Nat.ltb_ge in E; lia.
    + simpl in Hn; apply (IH (S i) H j line); [lia | exact Hn].
Qed.

(** X1: the scan returns the index of the first line, the very first one
    apart, that is the delimiter once stripped, and returns none exactly
    when there is no such line. *)
Theorem closing_dash_idx_spec (lines : list str) :
  (forall k,
      closing_dash_idx lines = Some k <->
      0 < k
      /\ (exists line, nth_error lines k = Some line /\ strip line = DELIM)
      /\ (forall j line,
             0 < j < k -> nth_error lines j = Some line ->
             strip line <> DELIM))
  /\ (closing_dash_idx lines = None <->
      forall j line,
        0 < j -> nth_error lines j = Some line -> strip line <> DELIM).
Proof.
  unfold closing_dash_idx.
  assert (sound : forall k,
             closing_dash_from 0 lines = Some k ->
             0 < k
             /\ (exists line,
                    nth_error lines k = Some line /\ strip line = DELIM)
             /\ (forall j line,
                    0 < j < k -> nth_error lines j = Some line ->
                    strip line <> DELIM)).
  { intros k H.
    apply closing_dash_from_Some in H as (_ & Hk & Hline & Hmin).
    rewrite Nat.sub_0_r in Hline, Hmin.
    split; [exact Hk | split; [exact Hline|]].
    intros j line [Hj Hjk]; apply Hmin; [exact Hjk | exact Hj]. }
  split; [intros k; split; [apply sound|] | split].
  - intros (Hk & (line & Hn & Hline) & Hmin).
    destruct (closing_dash_from 0 lines) as [k'|] eqn:E.
    + destruct (sound k' eq_refl) as (Hk' & (line' & Hn' & Hline') & Hmin').
      destruct (Nat.lt_trichotomy k k') as [Hlt|[->|Hgt]]; [|reflexivity|].
      * exfalso; apply (Hmin' k line); [lia | exact Hn | exact Hline].
      * exfalso; apply (Hmin k' line'); [lia | exact Hn' | exact Hline'].
    + exfalso.
      apply (@closing_dash_from_None lines 0 E k line); [lia | exact Hn | exact Hline].
  - intros H j line Hj; apply (@closing_dash_from_None lines 0 H); exact Hj.
  - intros H.
    destruct (closing_dash_from 0 lines) as [k|] eqn:E; [exfalso | reflexivity].
    destruct (sound k eq_refl) as (Hk & (line & Hn & Hline) & _).
    apply (H k line Hk Hn Hline).
Qed.

(** ** The two searches for the closing delimiter *)

Lemma splitlines_from_head (s cur : str) :
  cur <> [] -> exists x ls, splitlines_from cur s = (rev cur ++ x) :: ls.
Proof.
  revert cur; induction s as [|c s IH]; intros cur Hcur.
  - destruct cur as [|y cur]; [contradiction|].
    exists [], []; simpl; rewrite app_nil_r; reflexivity.
  - cbn [splitlines_from].
    destruct (N.eqb c CR).
    + destruct s as [|c' s'].
      * exists [c], (splitlines_from [] []); reflexivity.
      * destruct (N.eqb c' LF).
        -- exists [c; c'], (splitlines_from [] s'); simpl.
           rewrite <- app_assoc; reflexivity.
        -- exists [c], (splitlines_from [] (c' :: s')); reflexivity.
    + destruct (islinebreak c).
      * exists [c], (splitlines_from [] s); reflexivity.
      * destruct (IH (c :: cur)) as (x & ls & H); [discriminate|].
        exists (c :: x), ls; rewrite H; simpl.
        rewrite <- app_assoc; reflexivity.
Qed.

(** The first line of a text that starts with the delimiter holds this
    delimiter. *)
Lemma first_line_has_delimiter (content : str) :
  startswith DELIM content = true ->
  exists l0 ls, splitlines content = (DELIM ++ l0) :: ls.
Proof.
  intros H; apply startswith_prefix in H; rewrite H.
  destruct (@splitlines_from_head (skipn (length DELIM) content)
              [45%N; 45%N; 45%N]) as (x & ls & Hx); [discriminate|].
  exists x, ls; exact Hx.
Qed.

Lemma concat_includes (ls : list str) (l : str) :
  In l ls -> includes (concat ls) l.
Proof.
  intros H; apply in_split in H as (before & after & ->).
  exists (concat before), (concat after).
  rewrite concat_app; reflexivity.
Qed.

(** X2: when the text starts with the delimiter and the scan of the lines
    finds a closing delimiter line, splitting the text on the delimiter
    yields its three parts: the missing-closing-delimiter return is never
    taken for a document that has a closing delimiter line. *)
Theorem closing_line_gives_three_parts (content : str) (i : nat) :
  startswith DELIM content = true ->
  closing_dash_idx (splitlines content) = Some i ->
  length (split DELIM 2 content) = 3.
Proof.
  intros Hstart Hi.
  destruct (first_line_has_delimiter content Hstart) as (l0 & ls & Hlines).
  unfold closing_dash_idx in Hi.
  apply closing_dash_from_Some in Hi as (_ & Hpos & (line & Hn & Hline) & _).
  rewrite Nat.sub_0_r, Hlines in Hn.
  destruct i as [|i]; [lia|]; simpl in Hn.
  apply nth_error_In in Hn.
  assert (Hcontent : content = DELIM ++ l0 ++ concat ls).
  { rewrite <- (splitlines_concat content) at 1.
    rewrite Hlines; reflexivity. }
  assert (Hinc : includes (l0 ++ concat ls) DELIM).
  { apply includes_trans with (t := concat ls).
    - exists l0, []; rewrite app_nil_r; reflexivity.
    - apply includes_trans with (t := line).
      + apply concat_includes; exact Hn.
      + rewrite <- Hline; apply strip_includes. }
  apply find_complete in Hinc.
  rewrite Hcontent.
  change (split DELIM 2 (DELIM ++ l0 ++ concat ls)) with
    (([] : str) :: split DELIM 1 (l0 ++ concat ls)).
  cbn [split].
  destruct (find DELIM (l0 ++ concat ls)) as [[b a]|];
    [reflexivity | contradiction].
Qed.

(** ** Well-formed documents *)

Lemma find_cons (sep : str) (c : char) (s : str) :
  find sep (c :: s) =
  if startswith sep (c :: s) then Some ([], skipn (length sep) (c :: s))
  else match find sep s with
       | Some (before, after) => Some (c :: before, after)
       | None => None
       end.
Proof. reflexivity. Qed.









Section WellFormed.

Variable safe_load : str -> load_result.
Variable isprintable : char -> bool.


End WellFormed.



(** ** Blank frontmatter *)

Lemma space_or_break_cases (c : char) :
  space_or_break c = true ->
  c = 32%N \/ c = 10%N \/ c = 13%N \/ c = 133%N \/ c = 8232%N \/ c = 8233%N.
Proof.
  unfold space_or_break; rewrite !orb_true_iff, !N.eqb_eq; tauto.
Qed.

(** The delimiter does not reach into a text of spaces and line breaks. *)
Lemma blank_has_no_delimiter (region : str) :
  forallb space_or_break region = true ->
  find DELIM (region ++ lit "--") = None.
Proof.
  induction region as [|c region IH]; [reflexivity|].
  cbn [forallb]; rewrite andb_true_iff; intros [Hc Hregion].
  change ((c :: region) ++ lit "--") with (c :: (region ++ lit "--")).
  rewrite find_cons, (IH Hregion).
  assert (E : startswith DELIM (c :: region ++ lit "--") = false).
  { change DELIM with [45%N; 45%N; 45%N]; cbn [startswith].
    destruct (N.eqb_spec 45 c) as [<-|Hne]; [discriminate Hc | reflexivity]. }
  rewrite E; reflexivity.
Qed.

Lemma blank_is_acceptable (text : str) (position : nat) :
  forallb space_or_break text = true ->
  MiniYaml.first_unacceptable position text = None.
Proof.
  revert position; induction text as [|c text IH]; intros position;
    [reflexivity|].
  cbn [forallb MiniYaml.first_unacceptable]; rewrite andb_true_iff.
  intros [Hc Htext].
  apply space_or_break_cases in Hc
    as [-> | [-> | [-> | [-> | [-> | ->]]]]];
    cbn; apply IH; exact Htext.
Qed.

Lemma blank_lines_are_blank (text : str) :
  forallb space_or_break text = true ->
  forall (after_cr : bool) (cur : str),
    forallb (N.eqb MiniYaml.SPACE) cur = true ->
    forallb (forallb (N.eqb MiniYaml.SPACE))
      (MiniYaml.break_lines after_cr cur text) = true.
Proof.
  assert (line_then : forall (cur : str) (rest : list str),
             forallb (N.eqb MiniYaml.SPACE) cur = true ->
             forallb (forallb (N.eqb MiniYaml.SPACE)) rest = true ->
             forallb (forallb (N.eqb MiniYaml.SPACE)) (rev cur :: rest)
             = true).
  { intros cur rest Hcur Hrest; cbn [forallb]; apply andb_true_iff.
    split; [rewrite forallb_rev; exact Hcur | exact Hrest]. }
  induction text as [|c text IH]; intros Hblank after_cr cur Hcur.
  - cbn [MiniYaml.break_lines]; apply line_then; [exact Hcur | reflexivity].
  - cbn [forallb] in Hblank; apply andb_true_iff in Hblank as [Hc Htext].
    apply space_or_break_cases in Hc
      as [-> | [-> | [-> | [-> | [-> | ->]]]]];
      cbn [MiniYaml.break_lines].
    + apply (IH Htext); cbn [forallb]; apply andb_true_iff; split;
        [reflexivity | exact Hcur].
    + destruct after_cr.
      * apply (IH Htext); exact Hcur.
      * apply line_then; [exact Hcur | apply (IH Htext); reflexivity].
    + apply line_then; [exact Hcur | apply (IH Htext); reflexivity].
    + apply line_then; [exact Hcur | apply (IH Htext); reflexivity].
    + apply line_then; [exact Hcur | apply (IH Htext); reflexivity].
    + apply line_then; [exact Hcur | apply (IH Htext); reflexivity].
Qed.

(** C10, amended: a document whose region between the two delimiters is
    empty or made of spaces and line breaks only is rejected with exactly
    one defect, the frontmatter-is-not-a-dictionary one, for every decoder
    that reads a text of spaces and line breaks as null, which YAML does;
    and the decoder of the YAML fragment is such a decoder. *)
Theorem blank_frontmatter_not_dict :
  (forall (safe_load : str -> load_result) (isprintable : char -> bool)
          (region rest : str),
      (forall text,
          forallb space_or_break text = true ->
          safe_load text = Loaded PNone) ->
      forallb space_or_break region = true ->
      validate_mdc_text safe_load isprintable
        (DELIM ++ region ++ DELIM ++ rest) =
      Return (false, [E_NOT_DICT]))
  /\ (forall text,
        forallb space_or_break text = true ->
        MiniYaml.safe_load text = Loaded PNone).
Proof.
  split.
  - intros safe_load isprintable region rest Hnull Hblank.
    remember (DELIM ++ region ++ DELIM ++ rest) as content eqn:Hcontent.
    assert (Hstart : startswith DELIM content = true)
      by (rewrite Hcontent; apply startswith_app).
    assert (Hsplit : split DELIM 2 content = [[]; region; rest]).
    { rewrite Hcontent.
      change (split DELIM 2 (DELIM ++ region ++ DELIM ++ rest))
        with (([] : str) :: split DELIM 1 (region ++ DELIM ++ rest)).
      cbn [split].
      rewrite (find_delim_app region rest (blank_has_no_delimiter _ Hblank)).
      reflexivity. }
    unfold validate_mdc_text.
    rewrite Hstart, Hsplit; simpl negb; cbv iota.
    cbn [length Nat.ltb Nat.leb nth].
    rewrite (Hnull region Hblank); reflexivity.
  - intros text Hblank; unfold MiniYaml.safe_load.
    rewrite (blank_is_acceptable text 0 Hblank); cbv zeta.
    rewrite (blank_lines_are_blank text Hblank false [] eq_refl).
    reflexivity.
Qed.

Lemma blank_frontmatter_not_dict_witness :
  blank_frontmatter_text =
  DELIM ++ ([LF] ++ lit "  " ++ [LF; LF]) ++ DELIM
  ++ ([LF; LF] ++ lit "# Title" ++ [LF])
  /\ forallb space_or_break ([LF] ++ lit "  " ++ [LF; LF]) = true
  /\ validate blank_frontmatter_text = Return (false, [E_NOT_DICT]).
Proof.
  split; [reflexivity | split; [reflexivity|]].
  destruct blank_frontmatter_not_dict as [general decoder].
  exact (general MiniYaml.safe_load MiniYaml.isprintable
           ([LF] ++ lit "  " ++ [LF; LF])
           ([LF; LF] ++ lit "# Title" ++ [LF]) decoder eq_refl).
Defined.

(** A region between the delimiters that is whitespace only and holds a
    tab is no YAML: the document is rejected with the syntax-error defect,
    not with the frontmatter-is-not-a-dictionary one. *)
Lemma tab_frontmatter_syntax_error :
  nth 1 (split DELIM 2 tab_frontmatter_text) [] = [LF; 9%N; LF]
  /\ forallb isspace [LF; 9%N; LF] = true
  /\ strip [LF; 9%N; LF] = []
  /\ validate tab_frontmatter_text =
     Return (false,
             [E_YAML
                (lit "while scanning for the next token" ++ [LF]
                 ++ lit "found character '\t' that cannot start any token"
                 ++ [LF] ++ lit "  in " ++ quoted "<unicode string>"
                 ++ lit ", line 2, column 1:" ++ [LF]
                 ++ lit "    " ++ [9%N; LF] ++ lit "    ^")])
  /\ validate tab_frontmatter_text <> Return (false, [E_NOT_DICT]).
Proof.
  split; [reflexivity | split; [reflexivity | split; [reflexivity|]]].
  split; [reflexivity | discriminate].
Qed.

(** ** Which defects are returned, and when *)

Section Diagnostics.

Variable safe_load : str -> load_result.
Variable isprintable : char -> bool.

Local Notation "'validate_text'" := (validate_mdc_text safe_load isprintable).
Local Notation "'formatting_errors' lines" :=
  (check_formatting isprintable lines []) (at level 10, lines at level 9).

(** The returns of the validator, one by one. *)
Lemma validate_text_cases (content : str) (b : bool) (errors : list str) :
  validate_text content = Return (b, errors) ->
  (startswith DELIM content = false /\ errors = [E_NO_START])
  \/ (startswith DELIM content = true
      /\ length (split DELIM 2 content) < 3
      /\ errors = [E_MISSING_CLOSING])
  \/ (startswith DELIM content = true
      /\ 3 <= length (split DELIM 2 content)
      /\ exists e,
           safe_load (nth 1 (split DELIM 2 content) []) = RaisedYAMLError e
           /\ errors = [E_YAML e])
  \/ (startswith DELIM content = true
      /\ 3 <= length (split DELIM 2 content)
      /\ exists v,
           safe_load (nth 1 (split DELIM 2 content) []) = Loaded v
           /\ (forall d, v <> PDict d)
           /\ errors = [E_NOT_DICT])
  \/ (exists d,
         passes_structure safe_load content d
         /\ errors = schema_errors d ++ formatting_errors (splitlines content)).
Proof.
  unfold validate_mdc_text.
  destruct (startswith DELIM content) eqn:Hstart; simpl negb; cbv iota.
  2:{ intros H; inversion H; left; auto. }
  destruct (length (split DELIM 2 content) <? 3) eqn:Hparts.
  { intros H; inversion H; right; left.
    apply Nat.ltb_lt in Hparts; auto. }
  apply Nat.ltb_ge in Hparts.
  destruct (safe_load (nth 1 (split DELIM 2 content) [])) as [v|e|e] eqn:Hload;
    [| |discriminate].
  - destruct v as [| | | | |d|];
      try (intros H; inversion H; right; right; right; left;
           repeat split; auto; eexists; repeat split; discriminate).
    rewrite check_formatting_app; fold (schema_errors d).
    intros H; inversion H; right; right; right; right.
    exists d; repeat split; auto.
  - intros H; inversion H; right; right; left.
    repeat split; auto; exists e; auto.
Qed.

Lemma schema_errors_length (d : dict) : length (schema_errors d) <= 3.
Proof.
  rewrite schema_errors_eq, !length_app.
  unfold check_description, check_globs, check_alwaysApply.
  destruct (dict_get d (lit "description")) as [[| | |s| | |]|];
    try destruct (is_empty (strip s));
    destruct (dict_get d (lit "globs")) as [g|];
    try destruct (negb (isinstance_list g));
    destruct (dict_get d (lit "alwaysApply")) as [a|];
    try destruct (negb (isinstance_bool a)); simpl; lia.
Qed.

Lemma formatting_errors_length (lines : list str) :
  1 <= length (formatting_errors lines) <= 2
  \/ formatting_errors lines = [].
Proof.
  unfold check_formatting, check_heading, check_blank_line.
  destruct (closing_dash_idx lines) as [i|]; [|left; simpl; lia].
  destruct (length lines <=? i + 1); [left; simpl; lia|].
  destruct (negb (eqb (strip (nth (i + 1) lines [])) []));
    destruct (length lines <=? i + 2);
    try destruct (negb (startswith (lit "#") (strip (nth (i + 2) lines []))));
    simpl; auto; left; lia.
Qed.

(** X3: the validator never returns more than five defects, and returns
    exactly one whenever the file cannot be read or the structural phase
    fails. *)
Theorem defect_count_bounds (file : read_result) (b : bool)
  (errors : list str) :
  validate_mdc_file safe_load isprintable file = Return (b, errors) ->
  length errors <= 5
  /\ ((exists content d,
          file = ReadOk content /\ passes_structure safe_load content d)
      \/ length errors = 1).
Proof.
  destruct file as [content|e]; cbn [validate_mdc_file].
  2:{ intros H; inversion H; simpl; split; [lia | right; reflexivity]. }
  intros H; apply validate_text_cases in H
    as [(_ & ->)|[(_ & _ & ->)|[(_ & _ & e & _ & ->)|
         [(_ & _ & v & _ & _ & ->)|(d & Hd & ->)]]]];
    try (simpl; split; [lia | right; reflexivity]).
  split; [|left; exists content, d; auto].
  rewrite length_app.
  pose proof (schema_errors_length d).
  destruct (formatting_errors_length (splitlines content)) as [Hf | ->];
    simpl; lia.
Qed.

(** All the heads of the messages of the schema and formatting checks. *)
Lemma checks_heads (d : dict) (lines : list str) (e : str) :
  In e (schema_errors d ++ formatting_errors lines) ->
  In (head26 e)
     [lit "Missing required field: 'd"; lit "Field 'description' must b";
      lit "Field 'description' cannot"; lit "Missing required field: 'g";
      lit "Field 'globs' must be a li"; lit "Missing required field: 'a";
      lit "Field 'alwaysApply' must b"; lit "Could not find closing '--";
      lit "No content after frontmatt"; lit "Missing blank line after f";
      lit "No content after blank lin"; lit "Content does not start wit"].
Proof.
  rewrite schema_errors_eq, !in_app_iff.
  intros [[H|[H|H]]|H].
  - apply check_description_heads in H; simpl in *; tauto.
  - apply check_globs_heads in H; simpl in *; tauto.
  - apply check_alwaysApply_heads in H; simpl in *; tauto.
  - apply (formatting_errors_heads isprintable) in H; simpl in *; tauto.
Qed.

Lemma schema_heads (d : dict) (e : str) :
  In e (schema_errors d) ->
  In (head26 e)
     [lit "Missing required field: 'd"; lit "Field 'description' must b";
      lit "Field 'description' cannot"; lit "Missing required field: 'g";
      lit "Field 'globs' must be a li"; lit "Missing required field: 'a";
      lit "Field 'alwaysApply' must b"].
Proof.
  rewrite schema_errors_eq, !in_app_iff.
  intros [H|[H|H]].
  - apply check_description_heads in H; simpl in *; tauto.
  - apply check_globs_heads in H; simpl in *; tauto.
  - apply check_alwaysApply_heads in H; simpl in *; tauto.
Qed.

Lemma formatting_found_heads (lines : list str) (i : nat) (e : str) :
  closing_dash_idx lines = Some i ->
  In e (formatting_errors lines) ->
  In (head26 e) [lit "No content after frontmatt";
                 lit "Missing blank line after f";
                 lit "No content after blank lin";
                 lit "Content does not start wit"].
Proof.
  intros Hi; unfold check_formatting, check_heading, check_blank_line.
  rewrite Hi.
  destruct (length lines <=? i + 1).
  { simpl; intros H; repeat (destruct H as [<-|H]); try contradiction;
      vm_compute; tauto. }
  destruct (negb (eqb (strip (nth (i + 1) lines [])) []));
    destruct (length lines <=? i + 2);
    try destruct (negb (startswith (lit "#") (strip (nth (i + 2) lines []))));
    simpl; intros H; repeat (destruct H as [<-|H]); try contradiction;
    vm_compute; tauto.
Qed.

Ltac differ H :=
  apply (f_equal head26) in H; vm_compute in H; discriminate H.

Ltac not_among H :=
  vm_compute in H; repeat (destruct H as [H|H]; [discriminate H|]);
  contradiction H.

(** X4: each defect of the structural phase, and the one of the scan for
    the closing delimiter line, is returned exactly under its condition:
    no opening delimiter; an opening delimiter and fewer than three parts;
    a frontmatter that decodes to something else than a mapping; a
    document past the structural phase with no delimiter line after the
    first line. *)
Theorem structural_defects_exact (content : str) (b : bool)
  (errors : list str) :
  validate_text content = Return (b, errors) ->
  (In E_NO_START errors <-> startswith DELIM content = false)
  /\ (In E_MISSING_CLOSING errors <->
      startswith DELIM content = true
      /\ length (split DELIM 2 content) < 3)
  /\ (In E_NOT_DICT errors <->
      startswith DELIM content = true
      /\ 3 <= length (split DELIM 2 content)
      /\ exists v,
           safe_load (nth 1 (split DELIM 2 content) []) = Loaded v
           /\ forall d, v <> PDict d)
  /\ (In E_NO_CLOSING_LINE errors <->
      (exists d, passes_structure safe_load content d)
      /\ closing_dash_idx (splitlines content) = None).
Proof.
  intros H; apply validate_text_cases in H
    as [(Hs & ->)|[(Hs & Hp & ->)|[(Hs & Hp & e & He & ->)|
         [(Hs & Hp & v & Hv & Hnd & ->)|(d & Hd & ->)]]]].
  - split; [|split; [|split]]; split.
    + intros _; exact Hs.
    + intros _; left; reflexivity.
    + intros [E|[]]; differ E.
    + intros [? _]; congruence.
    + intros [E|[]]; differ E.
    + intros (? & _); congruence.
    + intros [E|[]]; differ E.
    + intros [(d & Hd & _) _]; congruence.
  - split; [|split; [|split]]; split.
    + intros [E|[]]; differ E.
    + congruence.
    + intros _; split; assumption.
    + intros _; left; reflexivity.
    + intros [E|[]]; differ E.
    + intros (_ & ? & _); lia.
    + intros [E|[]]; differ E.
    + intros [(d & _ & ? & _) _]; lia.
  - split; [|split; [|split]]; split.
    + intros [E|[]]; differ E.
    + congruence.
    + intros [E|[]]; differ E.
    + intros [_ ?]; lia.
    + intros [E|[]]; differ E.
    + intros (_ & _ & v & Hv & _); congruence.
    + intros [E|[]]; differ E.
    + intros [(d & _ & _ & Hd) _]; congruence.
  - split; [|split; [|split]]; split.
    + intros [E|[]]; differ E.
    + congruence.
    + intros [E|[]]; differ E.
    + intros [_ ?]; lia.
    + intros _; split; [exact Hs | split; [exact Hp | exists v; auto]].
    + intros _; left; reflexivity.
    + intros [E|[]]; differ E.
    + intros [(d & _ & _ & Hd) _]; rewrite Hv in Hd; inversion Hd as [Hd'].
      exfalso; apply (Hnd d); exact Hd'.
  - destruct Hd as (Hs & Hp & Hload).
    split; [|split; [|split]]; split.
    + intros H; apply checks_heads in H; not_among H.
    + congruence.
    + intros H; apply checks_heads in H; not_among H.
    + intros [_ ?]; lia.
    + intros H; apply checks_heads in H; not_among H.
    + intros (_ & _ & v & Hv & Hnd); rewrite Hload in Hv; inversion Hv as [Hv'].
      exfalso; apply (Hnd d); symmetry; exact Hv'.
    + intros H; split; [exists d; repeat split; auto|].
      apply in_app_iff in H as [H|H].
      * apply schema_heads in H; not_among H.
      * destruct (closing_dash_idx (splitlines content)) as [i|] eqn:E;
          [|reflexivity].
        apply (@formatting_found_heads _ i _ E) in H; not_among H.
    + intros [_ Hnone]; apply in_app_iff; right.
      rewrite (formatting_no_closing isprintable _ Hnone); left; reflexivity.
Qed.

(** X8: past the structural phase, a document that ends with its closing
    delimiter line gets the no-content-after-frontmatter defect and the
    heading check is not run; a document with one line only after the
    closing delimiter line gets the verdict on this line and the
    no-content-after-blank-line defect. *)
Theorem short_document_defects (content : str) (d : dict) (i : nat) :
  passes_structure safe_load content d ->
  closing_dash_idx (splitlines content) = Some i ->
  (length (splitlines content) = i + 1 ->
   validate_text content = Return (false, schema_errors d ++ [E_NO_CONTENT]))
  /\ (forall next_line,
        length (splitlines content) = i + 2 ->
        nth_error (splitlines content) (i + 1) = Some next_line ->
        validate_text content =
        Return (false,
                schema_errors d ++ blank_verdict (i + 2) next_line
                ++ [E_NO_CONTENT_AFTER_BLANK])).
Proof.
  intros Hstruct Hi; split.
  - intros Hlen.
    assert (Hn : nth_error (splitlines content) (i + 1) = None)
      by (apply nth_error_None; lia).
    rewrite (validate_structured isprintable Hstruct).
    rewrite (formatting_no_content isprintable _ Hi Hn).
    rewrite (nonempty_invalid _ E_NO_CONTENT);
      [reflexivity | apply in_app_iff; right; left; reflexivity].
  - intros next_line Hlen Hnext.
    assert (Hn : nth_error (splitlines content) (i + 2) = None)
      by (apply nth_error_None; lia).
    rewrite (validate_structured isprintable Hstruct).
    rewrite (formatting_found isprintable _ Hi Hnext), Hn.
    cbn [heading_verdict].
    rewrite (nonempty_invalid _ E_NO_CONTENT_AFTER_BLANK);
      [reflexivity | rewrite !in_app_iff; right; right; left; reflexivity].
Qed.

Lemma description_defect_origin (d : dict) (lines : list str) (e : str) :
  e = E_DESC_MISSING \/ e = E_DESC_TYPE \/ e = E_DESC_EMPTY ->
  In e (schema_errors d ++ formatting_errors lines) <->
  In e (check_description d []).
Proof.
  intros He; rewrite schema_errors_eq, !in_app_iff.
  split; [|tauto].
  intros [[H|[H|H]]|H]; [exact H|exfalso|exfalso|exfalso].
  - apply check_globs_heads in H.
    destruct He as [-> | [-> | ->]]; not_among H.
  - apply check_alwaysApply_heads in H.
    destruct He as [-> | [-> | ->]]; not_among H.
  - apply (formatting_errors_heads isprintable) in H.
    destruct He as [-> | [-> | ->]]; not_among H.
Qed.

(** X9: past the structural phase, each of the three defects about the
    description is returned exactly under its condition: the key is
    missing; the value is no string; the value is a string made of
    whitespace only, the empty string included. *)
Theorem description_defects_exact (content : str) (d : dict) :
  passes_structure safe_load content d ->
  exists errors,
    validate_text content = Return (length errors =? 0, errors)
    /\ (In E_DESC_MISSING errors <->
        dict_get d (lit "description") = None)
    /\ (In E_DESC_TYPE errors <->
        exists v, dict_get d (lit "description") = Some v
                  /\ isinstance_str v = false)
    /\ (In E_DESC_EMPTY errors <->
        exists s, dict_get d (lit "description") = Some (PStr s)
                  /\ forallb isspace s = true).
Proof.
  intros Hstruct.
  eexists; split; [apply (validate_structured isprintable Hstruct)|].
  rewrite !description_defect_origin by auto.
  unfold check_description.
  destruct (dict_get d (lit "description")) as [v|].
  2:{ split; [|split]; split; simpl; auto; try discriminate.
      - intros [E|[]]; discriminate E.
      - intros (v & Hv & _); discriminate Hv.
      - intros [E|[]]; discriminate E.
      - intros (s & Hs & _); discriminate Hs. }
  destruct v as [| | |s| | |];
    try (split; [|split]; split; simpl; try discriminate;
         [ intros [E|[]]; discriminate E
         | intros _; eexists; split; reflexivity
         | intros _; left; reflexivity
         | intros [E|[]]; discriminate E
         | intros (s & Hs & _); discriminate Hs ]).
  pose proof (strip_nil_iff s) as Hblank.
  destruct (strip s) as [|c t] eqn:E; cbn [is_empty].
  - split; [|split]; split; simpl; try discriminate.
    + intros [E'|[]]; discriminate E'.
    + intros [E'|[]]; discriminate E'.
    + intros (v & Hv & Hs); inversion Hv; subst v; discriminate Hs.
    + intros _; exists s; split; [reflexivity | apply Hblank; reflexivity].
    + intros _; left; reflexivity.
  - split; [|split]; split; simpl; try discriminate; try contradiction.
    + intros (v & Hv & Hs); inversion Hv; subst v; discriminate Hs.
    + intros (s' & Hs' & Hsp); inversion Hs'; subst s'.
      apply Hblank in Hsp; discriminate Hsp.
Qed.

End Diagnostics.

(** ** The scan of a repository and its report *)

Lemma sum_ones (A : Type) (l : list A) :
  sum (map (fun _ => 1%Z) l) = Z.of_nat (length l).
Proof.
  unfold sum.
  assert (H : forall acc,
             fold_left Z.add (map (fun _ : A => 1%Z) l) acc =
             (acc + Z.of_nat (length l))%Z).
  { induction l as [|x l IH]; intros acc; simpl length; simpl map;
      cbn [fold_left]; [lia | rewrite IH; lia]. }
  rewrite H; lia.
Qed.

Lemma filter_partition_length (A : Type) (p : A -> bool) (l : list A) :
  length (filter p l) + length (filter (fun x => negb (p x)) l) = length l.
Proof.
  induction l as [|x l IH]; simpl; [reflexivity|].
  destruct (p x); simpl; lia.
Qed.

(** The validity returned is true exactly when no defect is. *)
Lemma returned_valid_iff (safe_load : str -> load_result)
  (isprintable : char -> bool) (file : read_result) (b : bool)
  (errors : list str) :
  validate_mdc_file safe_load isprintable file = Return (b, errors) ->
  (b = true <-> errors = []).
Proof.
  destruct file as [content|e]; cbn [validate_mdc_file].
  2:{ intros H; inversion H; split; discriminate. }
  unfold validate_mdc_text.
  destruct (startswith DELIM content); simpl negb; cbv iota.
  2:{ intros H; inversion H; split; discriminate. }
  destruct (length (split DELIM 2 content) <? 3).
  { intros H; inversion H; split; discriminate. }
  destruct (safe_load (nth 1 (split DELIM 2 content) [])) as [v|e|e];
    [| |discriminate].
  - destruct v; try (intros H; inversion H; split; discriminate).
    intros H; inversion H; apply length_eqb_0.
  - intros H; inversion H; split; discriminate.
Qed.

Section ScannerProperties.

Variable safe_load : str -> load_result.
Variable isprintable : char -> bool.
Variable path : Type.
Variable read : path -> read_result.
Variable relative : path -> str.

Local Notation "'validate_file'" := (validate_mdc_file safe_load isprintable).
Local Notation "'scan'" :=
  (validate_all_mdc_files safe_load isprintable read).
Local Notation "'path_of'" := (fun r : file_result path => fst (fst r)).

Lemma validate_each_Ok (mdc_files : list path)
  (acc results : list (file_result path)) :
  validate_each safe_load isprintable read mdc_files acc = Ok results ->
  exists new,
    results = acc ++ new
    /\ Forall2 (recorded safe_load isprintable read) mdc_files new.
Proof.
  revert acc; induction mdc_files as [|p rest IH]; intros acc; simpl.
  - intros H; inversion H; exists []; rewrite app_nil_r; auto.
  - destruct (validate_file (read p)) as [[b errors]|e] eqn:E; [|discriminate].
    intros H; apply IH in H as (new & -> & Hnew).
    exists ((p, b, errors) :: new); rewrite <- app_assoc; split; [reflexivity|].
    constructor; [split; [reflexivity | exact E] | exact Hnew].
Qed.

Lemma validate_each_total (mdc_files : list path)
  (acc : list (file_result path)) :
  (forall p, In p mdc_files -> forall e, validate_file (read p) <> Raise e) ->
  exists results,
    validate_each safe_load isprintable read mdc_files acc = Ok results.
Proof.
  revert acc; induction mdc_files as [|p rest IH]; intros acc H; simpl.
  - exists acc; reflexivity.
  - destruct (validate_file (read p)) as [[b errors]|e] eqn:E.
    + apply IH; intros q Hq; apply H; right; exact Hq.
    + exfalso; apply (H p (or_introl eq_refl) e); exact E.
Qed.

Lemma scan_Ok (mdc_files : list path) (r : report path) :
  scan mdc_files = Ok r ->
  Forall2 (recorded safe_load isprintable read) mdc_files (file_results r)
  /\ total_files r = Z.of_nat (length (file_results r))
  /\ valid_files r =
     Z.of_nat (length (filter (@is_valid_of path) (file_results r)))
  /\ invalid_files r = (total_files r - valid_files r)%Z.
Proof.
  unfold validate_all_mdc_files.
  destruct (validate_each safe_load isprintable read mdc_files [])
    as [results|e] eqn:E; [|discriminate].
  intros H; inversion H; subst r; cbn.
  apply validate_each_Ok in E as (new & -> & Hnew); simpl.
  rewrite sum_ones; auto.
Qed.

Lemma Forall2_recorded_paths (mdc_files : list path)
  (results : list (file_result path)) :
  Forall2 (recorded safe_load isprintable read) mdc_files results ->
  map path_of results = mdc_files.
Proof.
  induction 1 as [|p r ps rs [Hp _] _ IH]; simpl; [reflexivity|].
  rewrite Hp, IH; reflexivity.
Qed.

(** X10: the report of a scan that returns counts every file found once:
    the total is the number of files, it is the sum of the numbers of valid
    and of invalid files, neither of which is negative, the number of
    invalid files is the number of results flagged invalid, and the results
    list the files in the order they were found. *)
Theorem report_counts (mdc_files : list path) (r : report path) :
  scan mdc_files = Ok r ->
  total_files r = Z.of_nat (length mdc_files)
  /\ total_files r = (valid_files r + invalid_files r)%Z
  /\ (0 <= valid_files r)%Z /\ (0 <= invalid_files r)%Z
  /\ invalid_files r =
     Z.of_nat (length (filter (fun x => negb (is_valid_of x))
                         (file_results r)))
  /\ map path_of (file_results r) = mdc_files.
Proof.
  intros H; apply scan_Ok in H as (Hrec & Htotal & Hvalid & Hinvalid).
  pose proof (Forall2_length Hrec) as Hlen.
  pose proof (filter_partition_length (@is_valid_of path) (file_results r))
    as Hpart.
  repeat split; try lia.
  apply Forall2_recorded_paths; exact Hrec.
Qed.

(** X11: a file that cannot be read never aborts the scan: the scan
    returns as soon as the validator returns on every file that can be
    read, and its results hold, for each file that cannot be read, the
    entry flagged invalid with the one error-reading-file defect. *)
Theorem unreadable_files_are_reported (mdc_files : list path) :
  (forall p content,
      In p mdc_files -> read p = ReadOk content ->
      forall e, validate_mdc_text safe_load isprintable content <> Raise e) ->
  exists r,
    scan mdc_files = Ok r
    /\ Forall2 (recorded safe_load isprintable read) mdc_files
         (file_results r)
    /\ forall p e,
         In p mdc_files -> read p = ReadRaised e ->
         In (p, false, [E_READ e]) (file_results r).
Proof.
  intros Hreturns.
  destruct (@validate_each_total mdc_files []) as [results Hres].
  { intros p Hp e; destruct (read p) as [content|e'] eqn:E;
      cbn [validate_mdc_file]; [apply (Hreturns p content Hp E) | discriminate]. }
  assert (Hscan : exists r, scan mdc_files = Ok r).
  { unfold validate_all_mdc_files; rewrite Hres; eexists; reflexivity. }
  destruct Hscan as [r Hr]; exists r; split; [exact Hr|].
  apply scan_Ok in Hr as (Hrec & _); split; [exact Hrec|].
  intros p e Hp Hread.
  clear Hres Hreturns; induction Hrec as [|q x qs xs [Hq Hx] _ IH];
    [contradiction|].
  destruct Hp as [->|Hp]; [left | right; apply IH; exact Hp].
  rewrite Hread in Hx; cbn [validate_mdc_file] in Hx.
  destruct x as [[q' b] errors]; cbn in Hq, Hx; inversion Hx; subst.
  reflexivity.
Qed.

Lemma recorded_of_result (mdc_files : list path)
  (results : list (file_result path)) (r : file_result path) :
  Forall2 (recorded safe_load isprintable read) mdc_files results ->
  In r results ->
  In (path_of r) mdc_files
  /\ validate_file (read (path_of r)) = Return (is_valid_of r, snd r).
Proof.
  induction 1 as [|p x ps xs [Hp Hx] _ IH]; [contradiction|].
  intros [->|Hr].
  - rewrite Hp; split; [left; reflexivity | exact Hx].
  - destruct (IH Hr) as [Hin Hv]; split; [right; exact Hin | exact Hv].
Qed.

Lemma result_of_file (mdc_files : list path)
  (results : list (file_result path)) (p : path) :
  Forall2 (recorded safe_load isprintable read) mdc_files results ->
  In p mdc_files ->
  exists r, In r results /\ recorded safe_load isprintable read p r.
Proof.
  induction 1 as [|q x qs xs Hx _ IH]; [contradiction|].
  intros [->|Hp].
  - exists x; split; [left; reflexivity | exact Hx].
  - destruct (IH Hp) as (r & Hr & Hrec); exists r; split;
      [right; exact Hr | exact Hrec].
Qed.

(** X12: when [main] returns, its exit code is 0 or 1, and it is 0 exactly
    when the validator returns valid, with no defect, on every file. *)
Theorem exit_code_reflects_validity (mdc_files : list path) (stdout : str)
  (code : Z) :
  main safe_load isprintable read relative mdc_files = Ok (stdout, code) ->
  (code = 0%Z \/ code = 1%Z)
  /\ (code = 0%Z <->
      forall p, In p mdc_files -> validate_file (read p) = Return (true, [])).
Proof.
  unfold main.
  destruct (scan mdc_files) as [r|e] eqn:Hscan; [|discriminate].
  apply scan_Ok in Hscan as (Hrec & _).
  destruct (map (fun x : file_result path => (fst (fst x), snd x))
              (filter (fun x => negb (is_valid_of x)) (file_results r)))
    as [|entry entries] eqn:Hinvalid.
  - intros H; injection H as _ Hcode; subst code;
      split; [left; reflexivity|].
    split; [intros _ | reflexivity].
    intros p Hp.
    destruct (@result_of_file mdc_files (file_results r) p Hrec Hp)
      as (x & Hx & _ & Hv).
    apply map_eq_nil in Hinvalid.
    assert (Hvalid : is_valid_of x = true).
    { destruct (is_valid_of x) eqn:E; [reflexivity|].
      assert (Hin : In x (filter (fun x => negb (is_valid_of x))
                            (file_results r)))
        by (apply filter_In; split; [exact Hx | rewrite E; reflexivity]).
      rewrite Hinvalid in Hin; contradiction. }
    rewrite Hvalid in Hv.
    pose proof (proj1 (returned_valid_iff _ _ _ Hv) eq_refl) as Hnil.
    rewrite Hnil in Hv; exact Hv.
  - intros H; injection H as _ Hcode; subst code;
      split; [right; reflexivity|].
    split; [discriminate|].
    intros Hall; exfalso.
    assert (Hin : In entry (map (fun x : file_result path =>
                                   (fst (fst x), snd x))
                              (filter (fun x => negb (is_valid_of x))
                                 (file_results r))))
      by (rewrite Hinvalid; left; reflexivity).
    apply in_map_iff in Hin as (x & _ & Hx).
    apply filter_In in Hx as [Hx Hflag].
    destruct (@recorded_of_result mdc_files (file_results r) x Hrec Hx)
      as [Hp Hv].
    rewrite (Hall _ Hp) in Hv; inversion Hv as [[Hb He]].
    rewrite <- Hb in Hflag; discriminate Hflag.
Qed.

Lemma print_errors (errors : list str) (stdout : str) :
  fold_left (fun out error => print (lit "    - " ++ error) out) errors stdout
  = stdout
    ++ concat (map (fun error => lit "    - " ++ error ++ [LF]) errors).
Proof.
  revert stdout; induction errors as [|e errors IH]; intros stdout;
    cbn [fold_left map concat]; [rewrite app_nil_r; reflexivity|].
  rewrite IH; unfold print; rewrite <- !app_assoc; reflexivity.
Qed.

Lemma print_invalid_file_block (entry : path * list str) (stdout : str) :
  print_invalid_file relative entry stdout =
  stdout ++ invalid_file_block relative entry.
Proof.
  destruct entry as [p errors]; unfold print_invalid_file, invalid_file_block.
  rewrite print_errors; unfold print; cbn [fst snd].
  rewrite <- !app_assoc; reflexivity.
Qed.

Lemma print_invalid_files (entries : list (path * list str)) (stdout : str) :
  fold_left (fun out entry => print_invalid_file relative entry out)
    entries stdout
  = stdout ++ concat (map (invalid_file_block relative) entries).
Proof.
  revert stdout; induction entries as [|x entries IH]; intros stdout;
    cbn [fold_left map concat]; [rewrite app_nil_r; reflexivity|].
  rewrite IH, print_invalid_file_block, <- app_assoc; reflexivity.
Qed.

(** X13: the report that [main] prints names every invalid file and
    lists every one of its defects: for each file on which the validator
    returns invalid, the output holds the block of this file, made of the
    line of its path, a line for each defect in the order returned, and an
    empty line. *)
Theorem report_lists_every_defect (mdc_files : list path) (stdout : str)
  (code : Z) (p : path) (errors : list str) :
  main safe_load isprintable read relative mdc_files = Ok (stdout, code) ->
  In p mdc_files ->
  validate_file (read p) = Return (false, errors) ->
  includes stdout (invalid_file_block relative (p, errors))
  /\ forall e,
       In e errors -> includes stdout (lit "    - " ++ e ++ [LF]).
Proof.
  intros Hmain Hp Hv.
  assert (Hblock : includes stdout (invalid_file_block relative (p, errors))).
  { unfold main in Hmain.
    destruct (scan mdc_files) as [r|e] eqn:Hscan; [|discriminate].
    apply scan_Ok in Hscan as (Hrec & _).
    destruct (@result_of_file mdc_files (file_results r) p Hrec Hp)
      as (x & Hx & Hpx & Hvx).
    rewrite Hv in Hvx; injection Hvx as Hb He.
    assert (Hin : In (p, errors)
                    (map (fun x : file_result path => (fst (fst x), snd x))
                       (filter (fun x => negb (is_valid_of x))
                          (file_results r)))).
    { apply in_map_iff; exists x; split; [rewrite Hpx, <- He; reflexivity|].
      apply filter_In; split; [exact Hx | rewrite <- Hb; reflexivity]. }
    destruct (map (fun x : file_result path => (fst (fst x), snd x))
                (filter (fun x => negb (is_valid_of x)) (file_results r)))
      as [|entry entries]; [contradiction|].
    apply in_split in Hin as (before & after & Heq).
    rewrite Heq, print_invalid_files in Hmain.
    assert (Hout := f_equal (fun o : result (str * Z) =>
                               match o with
                               | Ok (out, _) => out
                               | Raised _ => []
                               end) Hmain).
    cbv beta iota in Hout; rewrite <- Hout.
    rewrite map_app, concat_app; cbn [map concat].
    apply includes_trans
      with (t := concat (map (invalid_file_block relative) before)
                 ++ invalid_file_block relative (p, errors)
                 ++ concat (map (invalid_file_block relative) after)).
    - eexists _, []; rewrite app_nil_r; reflexivity.
    - eexists _, _; reflexivity. }
  split; [exact Hblock|].
  intros e He.
  apply includes_trans with (t := invalid_file_block relative (p, errors));
    [exact Hblock|].
  unfold invalid_file_block; cbn [fst snd].
  apply in_split in He as (before & after & ->).
  rewrite map_app, concat_app; cbn [map concat].
  exists ((lit "  " ++ relative p ++ lit ":" ++ [LF])
          ++ concat (map (fun error => lit "    - " ++ error ++ [LF]) before)),
         (concat (map (fun error => lit "    - " ++ error ++ [LF]) after)
          ++ [LF]).
  rewrite <- !app_assoc; reflexivity.
Qed.

End ScannerProperties.

(** ** The batch update *)

Lemma contains_iff (sub text : str) :
  Batch.contains sub text = true <-> includes text sub.
Proof.
  unfold Batch.contains; split.
  - destruct (find sub text) as [[before after]|] eqn:E; [|discriminate].
    intros _; exists before, after; apply find_decomposes; exact E.
  - intros H; apply find_complete in H.
    destruct (find sub text); [reflexivity | contradiction].
Qed.

(** The first of the two searches in [.gitmodules] adds nothing to the
    second. *)
Lemma gitmodules_test (text : str) :
  Batch.contains (lit ".cursor/rules") text
  || Batch.contains (lit "cursor/rules") text
  = Batch.contains (lit "cursor/rules") text.
Proof.
  destruct (Batch.contains (lit ".cursor/rules") text) eqn:E; [|reflexivity].
  symmetry; apply contains_iff.
  apply contains_iff in E.
  apply includes_trans with (t := lit ".cursor/rules"); [exact E|].
  exists (lit "."), []; reflexivity.
Qed.

Section BatchProperties.

Variable path : Type.
Variable joinpath : path -> str -> path.
Variable Path : str -> path.
Variable home : path.
Variable name : path -> str.
Variable path_str : path -> str.
Variable exists_ : path -> bool.
Variable is_dir : path -> bool.
Variable is_file : path -> bool.
Variable git_submodule_status : path -> Batch.attempt Batch.completed.
Variable read_text : path -> Batch.attempt str.
Variable which : Batch.attempt Batch.completed.
Variable run_script : path -> path -> Batch.attempt Batch.completed.
Variable iterdir : path -> list path * option Batch.exn.

Local Notation "'has_submodule'" :=
  (Batch.has_cursor_rules_submodule joinpath exists_ git_submodule_status
     read_text).
Local Notation "'rules_path' d" :=
  (joinpath (joinpath d (lit ".cursor")) (lit "rules"))
  (at level 10, d at level 9).
Local Notation "'gitmodules_path' d" := (joinpath d (lit ".gitmodules"))
  (at level 10, d at level 9).

(** X14: the function answers true exactly when [.cursor/rules] exists
    and either git ran and returned 0, or git could not be run, the file
    [.gitmodules] exists, can be read and holds the text [cursor/rules]
    somewhere, be it inside a longer name. *)
Theorem has_submodule_true_iff (directory : path) :
  has_submodule directory = Batch.Done true <->
  exists_ (rules_path directory) = true
  /\ ((exists result,
          git_submodule_status directory = Batch.Done result
          /\ Batch.returncode result = 0%Z)
      \/ (exists c m content,
             git_submodule_status directory = Batch.Throw (Batch.Exn c m)
             /\ Batch.is_run_failure c = true
             /\ exists_ (gitmodules_path directory) = true
             /\ read_text (gitmodules_path directory) = Batch.Done content
             /\ includes content (lit "cursor/rules"))).
Proof.
  unfold Batch.has_cursor_rules_submodule.
  destruct (exists_ (rules_path directory)); cbn [negb].
  2:{ split; [discriminate | intros [H _]; discriminate H]. }
  destruct (git_submodule_status directory) as [result|[c m]].
  - split.
    + intros H; injection H as H; apply Z.eqb_eq in H.
      split; [reflexivity | left; exists result; auto].
    + intros [_ [(r & Hr & Hz)|(c & m & content & Hr & _)]];
        [|discriminate Hr].
      injection Hr as <-; rewrite Hz; reflexivity.
  - destruct (Batch.is_run_failure c) eqn:Hc.
    2:{ split; [discriminate|].
        intros [_ [(r & Hr & _)|(c' & m' & content & Hr & Hc' & _)]];
          [discriminate Hr|].
        injection Hr as <- <-; congruence. }
    destruct (exists_ (gitmodules_path directory)); cbn [negb].
    2:{ split; [discriminate|].
        intros [_ [(r & Hr & _)|(c' & m' & content & _ & _ & He & _)]];
          [discriminate Hr | discriminate He]. }
    destruct (read_text (gitmodules_path directory)) as [content|[c' m']].
    + rewrite gitmodules_test; split.
      * intros H; injection H as H; apply contains_iff in H.
        split; [reflexivity | right; exists c, m, content; auto].
      * intros [_ [(r & Hr & _)|(c' & m' & content' & _ & _ & _ & Hrd & Hinc)]];
          [discriminate Hr|].
        injection Hrd as <-; apply contains_iff in Hinc; rewrite Hinc;
          reflexivity.
    + split.
      * destruct (Batch.is_OSError c'); discriminate.
      * intros [_ [(r & Hr & _)|(c2 & m2 & content & _ & _ & _ & Hrd & _)]];
          [discriminate Hr | discriminate Hrd].
Qed.

Local Notation "'first_file'" := (Batch.first_file exists_ is_file).
Local Notation "'find_script'" :=
  (Batch.find_cursor_rules_script joinpath Path home exists_ is_file which).
Local Notation "'locations'" := (Batch.common_locations joinpath Path home).
Local Notation "'usable' p" := (exists_ p && is_file p)
  (at level 10, p at level 9).

Lemma first_file_Some (l : list path) (p : path) :
  first_file l = Some p <->
  exists before after,
    l = before ++ p :: after
    /\ usable p = true
    /\ forall q, In q before -> usable q = false.
Proof.
  revert p; induction l as [|x l IH]; intros p; simpl.
  - split; [discriminate | intros ([|? ?] & after & H & _); discriminate H].
  - destruct (usable x) eqn:E.
    + split.
      * intros H; injection H as <-; exists [], l.
        split; [reflexivity | split; [exact E | contradiction]].
      * intros ([|y before] & after & Hl & Hp & Hbefore).
        -- injection Hl as -> _; reflexivity.
        -- injection Hl as -> _.
           rewrite (Hbefore y (or_introl eq_refl)) in E; discriminate E.
    + rewrite IH; split.
      * intros (before & after & -> & Hp & Hbefore).
        exists (x :: before), after; split; [reflexivity | split; [exact Hp|]].
        intros q [<-|Hq]; [exact E | apply Hbefore; exact Hq].
      * intros ([|y before] & after & Hl & Hp & Hbefore).
        -- injection Hl as -> _; congruence.
        -- injection Hl as _ ->; exists before, after.
           split; [reflexivity | split; [exact Hp|]].
           intros q Hq; apply Hbefore; right; exact Hq.
Qed.

Lemma first_file_None (l : list path) :
  first_file l = None <-> forall q, In q l -> usable q = false.
Proof.
  induction l as [|x l IH]; simpl; [split; [contradiction | reflexivity]|].
  destruct (usable x) eqn:E.
  - split; [discriminate|].
    intros H; rewrite (H x (or_introl eq_refl)) in E; discriminate E.
  - rewrite IH; split.
    + intros H q [<-|Hq]; [exact E | apply H; exact Hq].
    + intros H q Hq; apply H; right; exact Hq.
Qed.

(** X15: when the search for the script returns a path, this path exists
    and is a file, and it is the answer of [which] or one of the four
    fixed places, none of the places tried before it being a file; when it
    returns none, none of the four fixed places is a file. *)
Theorem find_script_spec (found : option path) :
  find_script = Batch.Done found ->
  match found with
  | Some p =>
      usable p = true
      /\ ((exists result,
              which = Batch.Done result
              /\ Batch.returncode result = 0%Z
              /\ p = Path (strip (Batch.stdout result)))
          \/ (exists before after,
                 locations = before ++ p :: after
                 /\ forall q, In q before -> usable q = false))
  | None => forall q, In q locations -> usable q = false
  end.
Proof.
  unfold Batch.find_cursor_rules_script.
  assert (fixed : forall found,
             first_file locations = found ->
             match found with
             | Some p =>
                 usable p = true
                 /\ ((exists result,
                         which = Batch.Done result
                         /\ Batch.returncode result = 0%Z
                         /\ p = Path (strip (Batch.stdout result)))
                     \/ (exists before after,
                            locations = before ++ p :: after
                            /\ forall q, In q before -> usable q = false))
             | None => forall q, In q locations -> usable q = false
             end).
  { intros [p|] H.
    - apply first_file_Some in H as (before & after & Hl & Hp & Hb).
      split; [exact Hp | right; exists before, after; auto].
    - apply first_file_None; exact H. }
  destruct which as [result|[c m]].
  - destruct (Batch.returncode result =? 0)%Z eqn:Hz.
    + intros H; injection H as H; cbn [Batch.first_file] in H.
      destruct (usable (Path (strip (Batch.stdout result)))) eqn:E.
      * subst found; split; [exact E|].
        left; exists result; apply Z.eqb_eq in Hz; auto.
      * apply fixed; exact H.
    + intros H; injection H as H; apply fixed; exact H.
  - destruct (Batch.is_run_failure c); [|discriminate].
    intros H; injection H as H; apply fixed; exact H.
Qed.

(** The answer of [which] comes first: when [which] returns 0 and the path
    it prints, stripped, is a file, this path is returned, whatever the four
    fixed places hold. *)
Lemma find_script_prefers_which (result : Batch.completed) :
  which = Batch.Done result ->
  Batch.returncode result = 0%Z ->
  usable (Path (strip (Batch.stdout result))) = true ->
  find_script = Batch.Done (Some (Path (strip (Batch.stdout result)))).
Proof.
  intros Hw Hz Hu; unfold Batch.find_cursor_rules_script.
  rewrite Hw, Hz; cbn [Z.eqb Batch.first_file]; rewrite Hu; reflexivity.
Qed.

Local Notation "'run_rules'" :=
  (Batch.run_cursor_rules name path_str run_script).

(** X16: running the script on a project reports success exactly in a dry
    run or when the script ran and returned 0; it always writes something;
    what it writes on a success goes to the standard output only and what
    it writes on a failure to the standard error only. *)
Theorem run_cursor_rules_outcome (project_dir script : path)
  (dry_run : bool) :
  let (ok, said) := run_rules project_dir script dry_run in
  (ok = true <->
   dry_run = true
   \/ exists result,
        run_script script project_dir = Batch.Done result
        /\ Batch.returncode result = 0%Z)
  /\ said <> []
  /\ Forall (fun m => fst m = if ok then Batch.Out else Batch.Err) said.
Proof.
  unfold Batch.run_cursor_rules.
  destruct dry_run.
  { split; [split; auto | split; [discriminate | repeat constructor]]. }
  destruct (run_script script project_dir) as [result|[c m]].
  - destruct (Batch.returncode result =? 0)%Z eqn:Hz.
    + split; [|split; [discriminate|]].
      * split; [intros _; right; exists result; apply Z.eqb_eq in Hz; auto
               | reflexivity].
      * destruct (is_empty (Batch.stdout result)); repeat constructor.
    + split; [|split; [discriminate|]].
      * split; [discriminate|].
        intros [H|(r & Hr & Hr0)]; [discriminate H|].
        injection Hr as <-; rewrite Hr0 in Hz; discriminate Hz.
      * destruct (is_empty (Batch.stderr result)); repeat constructor.
  - split; [|split; [discriminate | repeat constructor]].
    split; [discriminate|].
    intros [H|(r & Hr & _)]; [discriminate H | discriminate Hr].
Qed.

Local Notation "'is_selected'" :=
  (Batch.selected joinpath name exists_ is_dir git_submodule_status read_text).
Local Notation "'scan_items'" :=
  (Batch.scan_items joinpath name exists_ is_dir git_submodule_status
     read_text).
Local Notation "'update_each'" :=
  (Batch.update_each name path_str run_script).
Local Notation "'resolve'" :=
  (Batch.resolve_script joinpath Path home exists_ is_file which).
Local Notation "'batch_main'" :=
  (Batch.main joinpath Path home name path_str exists_ is_dir is_file
     git_submodule_status read_text which run_script iterdir).

Lemma scan_items_Done (items : list path) (failure : option Batch.exn)
  (acc projects : list path) :
  scan_items items failure acc = Batch.Done projects ->
  failure = None /\ projects = acc ++ filter is_selected items.
Proof.
  revert acc; induction items as [|item items IH]; intros acc;
    cbn [Batch.scan_items filter].
  - destruct failure; [discriminate|].
    intros H; injection H as <-; rewrite app_nil_r; auto.
  - unfold Batch.selected at 1.
    destruct (is_dir item); cbn [negb andb]; [|apply IH].
    destruct (startswith (lit ".") (name item)); cbn [negb andb]; [apply IH|].
    destruct (Batch.is_git_repo joinpath exists_ is_dir item);
      cbn [negb andb]; [|apply IH].
    destruct (has_submodule item) as [[|]|e]; [| apply IH | discriminate].
    intros H; apply IH in H as [Hf ->]; split; [exact Hf|].
    rewrite <- app_assoc; reflexivity.
Qed.

(** X17: when the scan of the projects directory completes, the projects
    it keeps are, in the order the directory yields them, exactly the
    entries that are directories, whose name does not start with a dot,
    that are git repositories and that have the submodule. *)
Theorem scan_keeps_selected (items : list path) (failure : option Batch.exn)
  (projects : list path) :
  scan_items items failure [] = Batch.Done projects ->
  failure = None
  /\ projects = filter is_selected items
  /\ forall project,
       In project projects ->
       In project items
       /\ is_dir project = true
       /\ startswith (lit ".") (name project) = false
       /\ has_submodule project = Batch.Done true.
Proof.
  intros H; apply scan_items_Done in H as [Hf Hp]; simpl in Hp.
  split; [exact Hf | split; [exact Hp|]].
  intros project Hin; rewrite Hp in Hin.
  apply filter_In in Hin as [Hin Hsel]; split; [exact Hin|].
  unfold Batch.selected in Hsel.
  destruct (is_dir project); [|discriminate Hsel].
  destruct (startswith (lit ".") (name project)); [discriminate Hsel|].
  destruct (Batch.is_git_repo joinpath exists_ is_dir project);
    [|discriminate Hsel].
  destruct (has_submodule project) as [[|]|e]; try discriminate Hsel.
  repeat split.
Qed.

Lemma update_each_count (projects : list path) (script : path)
  (dry_run : bool) (n : nat) (written : list Batch.message) :
  fst (update_each projects script dry_run n written) =
  n + length (filter (fun project => fst (run_rules project script dry_run))
                projects).
Proof.
  revert n written; induction projects as [|project rest IH];
    intros n written; cbn [Batch.update_each filter]; [simpl; lia|].
  destruct (run_rules project script dry_run) as [ok said]; cbn [fst].
  rewrite IH; destruct ok; simpl; lia.
Qed.

Lemma all_pass_iff (A : Type) (f : A -> bool) (l : list A) :
  length (filter f l) = length l <-> forall x, In x l -> f x = true.
Proof.
  induction l as [|x l IH]; simpl; [split; [contradiction | reflexivity]|].
  pose proof (filter_length_le f l) as Hle.
  destruct (f x) eqn:E; simpl.
  - split.
    + intros H y [<-|Hy]; [exact E | apply IH; [lia | exact Hy]].
    + intros H; f_equal; apply IH; intros y Hy; apply H; right; exact Hy.
  - split; [lia|].
    intros H; rewrite (H x (or_introl eq_refl)) in E; discriminate E.
Qed.

(** How [main] ends once the script is known and the scan has completed
    with projects to update. *)
Lemma main_after_scan (projects_dir script : path) (dry_run : bool)
  (cursor_rules_path : option path) (items : list path)
  (failure : option Batch.exn) (projects : list path) :
  resolve cursor_rules_path = Batch.Done (Some script) ->
  iterdir projects_dir = (items, failure) ->
  scan_items items failure [] = Batch.Done projects ->
  projects <> [] ->
  fst (batch_main projects_dir dry_run cursor_rules_path) =
  if length (filter (fun project => fst (run_rules project script dry_run))
               projects) <? length projects
  then Batch.Exits 1 else Batch.Returns.
Proof.
  intros Hres Hiter Hscan Hne.
  unfold Batch.main; rewrite Hres, Hiter, Hscan.
  destruct projects as [|project rest]; [contradiction|].
  match goal with
  | |- context [update_each ?ps ?s ?d ?n ?w] =>
      pose proof (update_each_count ps s d n w) as Hcount;
      destruct (update_each ps s d n w) as [count written]
  end.
  cbn [fst] in Hcount; rewrite Hcount; cbn [Nat.add].
  destruct (_ <? _); reflexivity.
Qed.

(** X18: a dry run cannot fail once the script is known and the scan of
    the projects directory has completed: [main] exits with 0 when no
    project was kept and returns otherwise, whatever running the script on
    the projects would give. *)
Theorem dry_run_succeeds (projects_dir script : path)
  (cursor_rules_path : option path) (items : list path)
  (failure : option Batch.exn) (projects : list path) :
  resolve cursor_rules_path = Batch.Done (Some script) ->
  iterdir projects_dir = (items, failure) ->
  scan_items items failure [] = Batch.Done projects ->
  fst (batch_main projects_dir true cursor_rules_path) =
  match projects with
  | [] => Batch.Exits 0
  | _ :: _ => Batch.Returns
  end.
Proof.
  intros Hres Hiter Hscan.
  destruct projects as [|project rest].
  - unfold Batch.main; rewrite Hres, Hiter, Hscan; reflexivity.
  - rewrite (@main_after_scan projects_dir script true cursor_rules_path
               items failure (project :: rest) Hres Hiter Hscan)
      by discriminate.
    assert (Hall : length (filter (fun p => fst (run_rules p script true))
                             (project :: rest)) =
                   length (project :: rest)).
    { apply all_pass_iff; intros x _; reflexivity. }
    rewrite Hall, Nat.ltb_irrefl; reflexivity.
Qed.

(** X19: [main] returns, rather than exits or lets an exception escape,
    exactly when the script is known, the scan of the projects directory
    completes and keeps at least one project, and running the script
    reports success on every project kept; and it exits with 0 exactly
    when the script is known and the scan completes and keeps no
    project. *)
Theorem main_ending (projects_dir : path) (dry_run : bool)
  (cursor_rules_path : option path) :
  (fst (batch_main projects_dir dry_run cursor_rules_path) = Batch.Returns
   <->
   exists script projects,
     resolve cursor_rules_path = Batch.Done (Some script)
     /\ scan_items (fst (iterdir projects_dir)) (snd (iterdir projects_dir))
          [] = Batch.Done projects
     /\ projects <> []
     /\ forall project,
          In project projects ->
          fst (run_rules project script dry_run) = true)
  /\ (fst (batch_main projects_dir dry_run cursor_rules_path)
      = Batch.Exits 0
      <->
      exists script,
        resolve cursor_rules_path = Batch.Done (Some script)
        /\ scan_items (fst (iterdir projects_dir))
             (snd (iterdir projects_dir)) [] = Batch.Done []).
Proof.
  destruct (resolve cursor_rules_path) as [[script|]|e] eqn:Hres.
  2:{ unfold Batch.main; rewrite Hres; cbn [fst]; split; split;
        try discriminate.
      - intros (s' & ps & H & _); discriminate H.
      - intros (s' & H & _); discriminate H. }
  2:{ unfold Batch.main; rewrite Hres; cbn [fst]; split; split;
        try discriminate.
      - intros (s' & ps & H & _); discriminate H.
      - intros (s' & H & _); discriminate H. }
  destruct (iterdir projects_dir) as [items failure] eqn:Hiter; cbn [fst snd].
  destruct (scan_items items failure []) as [projects|[c m]] eqn:Hscan.
  2:{ unfold Batch.main; rewrite Hres, Hiter, Hscan.
      destruct (Batch.is_PermissionError c); cbn [fst]; split; split;
        try discriminate.
      - intros (s' & ps & _ & H & _); discriminate H.
      - intros (s' & _ & H); discriminate H.
      - intros (s' & ps & _ & H & _); discriminate H.
      - intros (s' & _ & H); discriminate H. }
  destruct projects as [|project rest].
  - unfold Batch.main; rewrite Hres, Hiter, Hscan; cbn [fst]; split; split;
      try discriminate.
    + intros (s' & ps & _ & H & Hne & _); injection H as <-; contradiction.
    + intros _; exists script; auto.
    + reflexivity.
  - rewrite (@main_after_scan projects_dir script dry_run cursor_rules_path
               items failure (project :: rest) Hres Hiter Hscan)
      by discriminate.
    pose proof (all_pass_iff
                  (fun p => fst (run_rules p script dry_run))
                  (project :: rest)) as Hall.
    pose proof (filter_length_le
                  (fun p => fst (run_rules p script dry_run))
                  (project :: rest)) as Hle.
    destruct (Nat.ltb_spec
                (length (filter (fun p => fst (run_rules p script dry_run))
                           (project :: rest)))
                (length (project :: rest))) as [Hlt|Hge];
      split; split; try discriminate.
    + intros (s' & ps & Hs' & Hps & _ & Hok).
      injection Hs' as <-; injection Hps as <-.
      apply Hall in Hok; lia.
    + intros (s' & _ & H); discriminate H.
    + intros _; exists script, (project :: rest).
      split; [reflexivity | split; [reflexivity | split; [discriminate|]]].
      apply Hall; lia.
    + reflexivity.
    + intros (s' & _ & H); discriminate H.
Qed.

End BatchProperties.

(** ** The line tests as the checks make them *)

Section LineChecks.

Variable isprintable : char -> bool.

(** X6: when there is a line after the closing delimiter line, the
    blank-line check adds no defect exactly when this line is made of
    whitespace only, its end included. *)
Theorem blank_check_iff_whitespace (lines : list str) (i : nat) :
  i + 1 < length lines ->
  (check_blank_line lines i [] = [] <->
   forallb isspace (nth (i + 1) lines []) = true).
Proof.
  intros _; rewrite <- strip_nil_iff; unfold check_blank_line.
  destruct (strip (nth (i + 1) lines [])); simpl; split;
    congruence.
Qed.

(** X5: when there is a line two places after the closing delimiter line,
    the heading check adds no defect exactly when the first character of
    this line that is no whitespace is [#]: the heading may be indented,
    and nothing is asked of what follows the [#]. *)
Theorem heading_check_iff_first_visible (lines : list str) (i : nat) :
  i + 2 < length lines ->
  (check_heading isprintable lines i [] = [] <->
   exists ws rest,
     nth (i + 2) lines [] = ws ++ 35%N :: rest
     /\ forallb isspace ws = true).
Proof.
  intros Hlen.
  rewrite <- (heading_iff_first_visible isprintable _ (i + 3)).
  unfold check_heading, heading_verdict.
  apply Nat.leb_gt in Hlen; rewrite Hlen.
  destruct (startswith (lit "#") (strip (nth (i + 2) lines [])));
    simpl; split; congruence.
Qed.

End LineChecks.

(** ** The further properties on the examples *)

Lemma heading_check_iff_first_visible_witness :
  4 + 2 < length (splitlines example_text)
  /\ check_heading MiniYaml.isprintable (splitlines example_text) 4 [] = []
  /\ exists ws rest,
       nth (4 + 2) (splitlines example_text) [] = ws ++ 35%N :: rest
       /\ forallb isspace ws = true.
Proof.
  assert (Hlen : 4 + 2 < length (splitlines example_text))
    by (apply Nat.ltb_lt; reflexivity).
  split; [exact Hlen | split; [reflexivity|]].
  apply (proj1 (@heading_check_iff_first_visible MiniYaml.isprintable
                  (splitlines example_text) 4 Hlen)).
  reflexivity.
Defined.

Lemma blank_check_iff_whitespace_witness :
  4 + 1 < length (splitlines example_text)
  /\ forallb isspace (nth (4 + 1) (splitlines example_text) []) = true
  /\ check_blank_line (splitlines example_text) 4 [] = [].
Proof.
  assert (Hlen : 4 + 1 < length (splitlines example_text))
    by (apply Nat.ltb_lt; reflexivity).
  split; [exact Hlen | split; [reflexivity|]].
  apply (proj2 (@blank_check_iff_whitespace (splitlines example_text) 4 Hlen)).
  reflexivity.
Defined.

Lemma closing_line_gives_three_parts_witness :
  startswith DELIM example_text = true
  /\ closing_dash_idx (splitlines example_text) = Some 4
  /\ length (split DELIM 2 example_text) = 3.
Proof.
  split; [reflexivity | split; [reflexivity|]].
  exact (@closing_line_gives_three_parts example_text 4 eq_refl eq_refl).
Defined.

Lemma defect_count_bounds_witness :
  exists errors,
    validate_mdc_file MiniYaml.safe_load MiniYaml.isprintable
      (ReadOk five_defects_text) = Return (false, errors)
    /\ length errors = 5
    /\ length errors <= 5.
Proof.
  eexists; split; [reflexivity | split; [reflexivity|]].
  exact (proj1 (@defect_count_bounds MiniYaml.safe_load MiniYaml.isprintable
                  (ReadOk five_defects_text) false _ eq_refl)).
Defined.

Lemma structural_defects_exact_witness :
  validate unclosed_text = Return (false, [E_MISSING_CLOSING])
  /\ (In E_MISSING_CLOSING [E_MISSING_CLOSING] <->
      startswith DELIM unclosed_text = true
      /\ length (split DELIM 2 unclosed_text) < 3).
Proof.
  split; [reflexivity|].
  exact (proj1 (proj2 (@structural_defects_exact MiniYaml.safe_load
                         MiniYaml.isprintable unclosed_text false
                         [E_MISSING_CLOSING] eq_refl))).
Defined.

Lemma short_document_defects_witness :
  passes_structure MiniYaml.safe_load frontmatter_only_text
    example_frontmatter
  /\ closing_dash_idx (splitlines frontmatter_only_text) = Some 4
  /\ length (splitlines frontmatter_only_text) = 4 + 1
  /\ validate frontmatter_only_text = Return (false, [E_NO_CONTENT]).
Proof.
  assert (Hstruct : passes_structure MiniYaml.safe_load frontmatter_only_text
                      example_frontmatter).
  { repeat split; apply Nat.leb_le; reflexivity. }
  split; [exact Hstruct | split; [reflexivity | split; [reflexivity|]]].
  exact (proj1 (@short_document_defects MiniYaml.safe_load
                  MiniYaml.isprintable frontmatter_only_text
                  example_frontmatter 4 Hstruct eq_refl) eq_refl).
Defined.

Lemma description_defects_exact_witness :
  passes_structure MiniYaml.safe_load blank_description_text
    blank_description_frontmatter
  /\ validate blank_description_text = Return (false, [E_DESC_EMPTY])
  /\ exists errors,
       validate blank_description_text = Return (length errors =? 0, errors)
       /\ In E_DESC_EMPTY errors.
Proof.
  assert (Hstruct : passes_structure MiniYaml.safe_load blank_description_text
                      blank_description_frontmatter).
  { repeat split; apply Nat.leb_le; reflexivity. }
  split; [exact Hstruct | split; [reflexivity|]].
  destruct (@description_defects_exact MiniYaml.safe_load MiniYaml.isprintable
              blank_description_text blank_description_frontmatter Hstruct)
    as (errors & Hret & _ & _ & Hempty).
  exists errors; split; [exact Hret|].
  apply Hempty; exists (lit "  "); split; reflexivity.
Defined.

Lemma report_counts_witness :
  exists r,
    example_scan = Ok r
    /\ total_files r = 3%Z /\ valid_files r = 1%Z /\ invalid_files r = 2%Z
    /\ total_files r = (valid_files r + invalid_files r)%Z
    /\ map (fun x : file_result str => fst (fst x)) (file_results r)
       = example_files.
Proof.
  destruct example_scan as [r|e] eqn:E; [|discriminate E].
  exists r.
  pose proof (@report_counts MiniYaml.safe_load MiniYaml.isprintable str
                example_read example_files r E)
    as (_ & Hsum & _ & _ & _ & Hpaths).
  injection E as <-.
  split; [reflexivity|].
  split; [reflexivity | split; [reflexivity | split; [reflexivity|]]].
  split; [exact Hsum | exact Hpaths].
Defined.

Lemma unreadable_files_are_reported_witness :
  example_read (lit "rules/b.mdc") =
  ReadRaised (lit "[Errno 13] Permission denied: 'rules/b.mdc'")
  /\ exists r,
       example_scan = Ok r
       /\ In (lit "rules/b.mdc", false,
              [E_READ (lit "[Errno 13] Permission denied: 'rules/b.mdc'")])
            (file_results r).
Proof.
  split; [reflexivity|].
  destruct (@unreadable_files_are_reported MiniYaml.safe_load
              MiniYaml.isprintable str example_read example_files)
    as (r & Hr & _ & Hunreadable).
  { intros p content Hp Hread e H.
    destruct Hp as [<-|[<-|[<-|[]]]]; vm_compute in Hread;
      try discriminate Hread;
      injection Hread as <-; vm_compute in H; discriminate H. }
  exists r; split; [exact Hr|].
  apply Hunreadable; [right; left; reflexivity | reflexivity].
Defined.

Lemma exit_code_reflects_validity_witness :
  exists stdout,
    example_main = Ok (stdout, 1%Z)
    /\ ~ (forall p,
            In p example_files ->
            validate_mdc_file MiniYaml.safe_load MiniYaml.isprintable
              (example_read p) = Return (true, [])).
Proof.
  destruct example_main as [[stdout code]|e] eqn:E; [|discriminate E].
  pose proof (@exit_code_reflects_validity MiniYaml.safe_load
                MiniYaml.isprintable str example_read (fun p => p)
                example_files stdout code E) as [_ Hiff].
  assert (Hcode : code = 1%Z) by (injection E as _ <-; reflexivity).
  exists stdout; split; [rewrite Hcode; reflexivity|].
  intros Hall; apply Hiff in Hall; rewrite Hcode in Hall; discriminate Hall.
Defined.

Lemma report_lists_every_defect_witness :
  exists stdout,
    example_main = Ok (stdout, 1%Z)
    /\ In (lit "rules/c.mdc") example_files
    /\ validate crowded_text =
       Return (false,
               [E_NOT_BLANK 6;
                E_NOT_HEADING MiniYaml.isprintable 7
                  (lit "Not a heading" ++ [LF])])
    /\ includes stdout
         (lit "    - Missing blank line after frontmatter (line 6 is not blank)"
          ++ [LF]).
Proof.
  destruct example_main as [[stdout code]|e] eqn:E; [|discriminate E].
  assert (Hcode : code = 1%Z) by (injection E as _ <-; reflexivity).
  assert (Hin : In (lit "rules/c.mdc") example_files)
    by (right; right; left; reflexivity).
  exists stdout; split; [rewrite Hcode; reflexivity|].
  split; [exact Hin | split; [reflexivity|]].
  apply (proj2 (@report_lists_every_defect MiniYaml.safe_load
                  MiniYaml.isprintable str example_read (fun p => p)
                  example_files stdout code (lit "rules/c.mdc") _ E Hin
                  eq_refl)).
  left; reflexivity.
Defined.

Lemma find_script_spec_witness :
  Demo.find_script = Batch.Done (Some (lit "/usr/local/bin/cursor-rules"))
  /\ Demo.exists_ (lit "/usr/local/bin/cursor-rules")
     && Demo.is_file (lit "/usr/local/bin/cursor-rules") = true.
Proof.
  split; [reflexivity|].
  exact (proj1 (@find_script_spec str Demo.joinpath (fun p => p)
                  (lit "/home/dev") Demo.exists_ Demo.is_file Demo.which
                  (Some (lit "/usr/local/bin/cursor-rules")) eq_refl)).
Defined.

Lemma scan_keeps_selected_witness :
  Demo.scan_items (fst (Demo.iterdir (lit "/projects"))) None [] =
  Batch.Done [lit "/projects/app"]
  /\ [lit "/projects/app"] =
     filter (Batch.selected Demo.joinpath Demo.name Demo.exists_ Demo.is_dir
               Demo.git_submodule_status Demo.read_text)
       (fst (Demo.iterdir (lit "/projects"))).
Proof.
  split; [reflexivity|].
  exact (proj1 (proj2 (@scan_keeps_selected str Demo.joinpath Demo.name
                         Demo.exists_ Demo.is_dir Demo.git_submodule_status
                         Demo.read_text
                         (fst (Demo.iterdir (lit "/projects"))) None
                         [lit "/projects/app"] eq_refl))).
Defined.

Lemma dry_run_succeeds_witness :
  Demo.run_script (lit "/usr/local/bin/cursor-rules") (lit "/projects/app") =
  Batch.Done {| Batch.returncode := 2; Batch.stdout := [];
                Batch.stderr := lit "fatal: not a submodule" ++ [LF] |}
  /\ fst (Demo.main false None) = Batch.Exits 1
  /\ fst (Demo.main true None) = Batch.Returns.
Proof.
  split; [reflexivity | split; [reflexivity|]].
  exact (@dry_run_succeeds str Demo.joinpath (fun p => p) (lit "/home/dev")
           Demo.name (fun p => p) Demo.exists_ Demo.is_dir Demo.is_file
           Demo.git_submodule_status Demo.read_text Demo.which
           Demo.run_script Demo.iterdir (lit "/projects")
           (lit "/usr/local/bin/cursor-rules") None
           (fst (Demo.iterdir (lit "/projects"))) None
           [lit "/projects/app"] eq_refl eq_refl eq_refl).
Defined.
